(** * The PDF text-extraction core of the MCP server (weather.py)

    A shallow embedding of the document subsystem of [src/weather.py]:
    path confinement ([is_path_allowed]), scan classification
    ([has_extractable_text]), OCR extraction ([extract_text_with_ocr]), the
    two cache tiers ([pdf_cache] in memory, [<name>_ocr_<hash>.txt] on disk),
    the orchestration ([extract_pdf_text]), the search for PDF files
    ([find_pdf_files]) and the tool layer ([handle_call_tool]: read_pdf,
    list_pdfs, search_pdf_content), followed by the properties of the
    specification that concern them and by further properties of the code.

    Conventions.  A Python [str] and a Python [bytes] are both a Rocq
    [string]: the 8-bit characters of a [str] are read as the code points
    U+0000..U+00FF, those of a [bytes] as bytes.  A file holds bytes, and
    the cache file is written and read through the UTF-8 codec.
    Python [int] is [Z].  The file system, the dictionary [pdf_cache] and the
    calls made to the operating system and to the PDF and OCR libraries are
    explicit: a Python function with effects is a function from the world
    before the call to its result (a value or a raised exception), the world
    after the call and the events of the call.  A file is named by the path
    string that the program passes.  What the server prints is left out, and
    so are the weather tools. *)

From Stdlib Require Import ZArith Lia Bool List Sorted Ascii String.
From stdpp Require Import base option list gmap strings pretty.
Import ListNotations.

Local Open Scope string_scope.
Local Open Scope Z_scope.

(** ** Strings the way Python uses them *)

Module Str.

Definition LF : string := String (ascii_of_nat 10) EmptyString.

Definition len (s : string) : Z := Z.of_nat (String.length s).

(** [s[:n]] for [0 <= n]. *)
Fixpoint take (n : nat) (s : string) : string :=
  match n, s with
  | S n', String c s' => String c (take n' s')
  | _, _ => EmptyString
  end.

(** [s[n:]] for [0 <= n]. *)
Fixpoint drop (n : nat) (s : string) : string :=
  match n, s with
  | S n', String _ s' => drop n' s'
  | _, _ => s
  end.

(** [s.startswith(p)]. *)
Fixpoint startswith (s p : string) {struct p} : bool :=
  match p, s with
  | EmptyString, _ => true
  | String a p', String b s' => if Ascii.eqb a b then startswith s' p' else false
  | String _ _, EmptyString => false
  end.

(** [p in s] for strings. *)
Fixpoint contains (s p : string) : bool :=
  startswith s p ||
  match s with
  | EmptyString => false
  | String _ s' => contains s' p
  end.

(** [s.endswith(p)]. *)
Definition endswith (s p : string) : bool :=
  (String.length p <=? String.length s)%nat &&
  String.eqb (drop (String.length s - String.length p) s) p.

(** [sep.join(l)]. *)
Fixpoint join (sep : string) (l : list string) : string :=
  match l with
  | [] => EmptyString
  | [x] => x
  | x :: l' => x ++ sep ++ join sep l'
  end.

(** [s.split(c)] for a one-character separator: never empty. *)
Fixpoint split (c : ascii) (s : string) : list string :=
  match s with
  | EmptyString => [EmptyString]
  | String a s' =>
      if Ascii.eqb a c then EmptyString :: split c s'
      else match split c s' with
           | x :: l => String a x :: l
           | [] => [String a EmptyString]
           end
  end.

Definition code (c : ascii) : Z := Z.of_N (N_of_ascii c).
Definition chr (n : Z) : ascii := ascii_of_N (Z.to_N n).

(** [str.lower] on the code points below 256: A-Z and the Latin-1
    capitals (all of U+00C0..U+00DE but the multiplication sign). *)
Definition lower_char (c : ascii) : ascii :=
  let n := code c in
  if ((65 <=? n) && (n <=? 90)) || ((192 <=? n) && (n <=? 222) && negb (n =? 215))
  then chr (n + 32) else c.

Fixpoint lower (s : string) : string :=
  match s with
  | EmptyString => EmptyString
  | String c s' => String (lower_char c) (lower s')
  end.

(** [str.isspace] on the code points below 256. *)
Definition isspace (c : ascii) : bool :=
  let n := code c in
  ((9 <=? n) && (n <=? 13)) || ((28 <=? n) && (n <=? 32)) || (n =? 133) || (n =? 160).

Fixpoint lstrip (s : string) : string :=
  match s with
  | String c s' => if isspace c then lstrip s' else s
  | EmptyString => EmptyString
  end.

Fixpoint rstrip (s : string) : string :=
  match s with
  | EmptyString => EmptyString
  | String c s' =>
      match rstrip s' with
      | EmptyString => if isspace c then EmptyString else String c EmptyString
      | r => String c r
      end
  end.

(** [s.strip()]. *)
Definition strip (s : string) : string := rstrip (lstrip s).

(** [str(n)] for an [int]. *)
Definition of_int (n : Z) : string := pretty n.

(** [str(l)] for a list of [int]: [[1, 2, 3]]. *)
Definition of_int_list (l : list Z) : string :=
  "[" ++ join ", " (map of_int l) ++ "]".

(** [c in s] for a character. *)
Fixpoint has_char (c : ascii) (s : string) : bool :=
  match s with
  | EmptyString => false
  | String a s' => Ascii.eqb a c || has_char c s'
  end.

Definition hex_digit (n : Z) : ascii :=
  nth (Z.to_nat n) (list_ascii_of_string "0123456789abcdef") "0"%char.

(** [str.isprintable] on the code points below 256. *)
Definition isprintable (c : ascii) : bool :=
  let n := code c in
  ((32 <=? n) && (n <? 127)) || ((161 <=? n) && negb (n =? 173)).

Definition single_quote : ascii := "'"%char.
Definition double_quote : ascii := ascii_of_nat 34.
Definition backslash : ascii := "\"%char.

(** One character of [repr(s)] between the quotes. *)
Definition escaped (quote c : ascii) : string :=
  let n := code c in
  if Ascii.eqb c quote || Ascii.eqb c backslash then String backslash (String c EmptyString)
  else if n =? 9 then "\t"
  else if n =? 10 then "\n"
  else if n =? 13 then "\r"
  else if isprintable c then String c EmptyString
  else "\x" ++ String (hex_digit (n / 16)) (String (hex_digit (n mod 16)) EmptyString).

Fixpoint escape_all (quote : ascii) (s : string) : string :=
  match s with
  | EmptyString => EmptyString
  | String c s' => escaped quote c ++ escape_all quote s'
  end.

(** [repr(s)]: in single quotes, unless [s] has a single quote and no
    double quote. *)
Definition repr (s : string) : string :=
  let quote := if has_char single_quote s && negb (has_char double_quote s)
               then double_quote else single_quote in
  String quote (escape_all quote s ++ String quote EmptyString).

End Str.

(** ** hashlib.md5 (RFC 1321) on byte strings *)

Module MD5.

Definition w32 (x : Z) : Z := x mod 2 ^ 32.
Definition add32 (a b : Z) : Z := w32 (a + b).
Definition not32 (a : Z) : Z := Z.lxor a 0xffffffff.
Definition rotl32 (x c : Z) : Z :=
  Z.lor (w32 (Z.shiftl x c)) (Z.shiftr x (32 - c)).

Definition S_table : list Z :=
  [7; 12; 17; 22; 7; 12; 17; 22; 7; 12; 17; 22; 7; 12; 17; 22;
   5; 9; 14; 20; 5; 9; 14; 20; 5; 9; 14; 20; 5; 9; 14; 20;
   4; 11; 16; 23; 4; 11; 16; 23; 4; 11; 16; 23; 4; 11; 16; 23;
   6; 10; 15; 21; 6; 10; 15; 21; 6; 10; 15; 21; 6; 10; 15; 21].

Definition K_table : list Z :=
  [0xd76aa478; 0xe8c7b756; 0x242070db; 0xc1bdceee;
   0xf57c0faf; 0x4787c62a; 0xa8304613; 0xfd469501;
   0x698098d8; 0x8b44f7af; 0xffff5bb1; 0x895cd7be;
   0x6b901122; 0xfd987193; 0xa679438e; 0x49b40821;
   0xf61e2562; 0xc040b340; 0x265e5a51; 0xe9b6c7aa;
   0xd62f105d; 0x02441453; 0xd8a1e681; 0xe7d3fbc8;
   0x21e1cde6; 0xc33707d6; 0xf4d50d87; 0x455a14ed;
   0xa9e3e905; 0xfcefa3f8; 0x676f02d9; 0x8d2a4c8a;
   0xfffa3942; 0x8771f681; 0x6d9d6122; 0xfde5380c;
   0xa4beea44; 0x4bdecfa9; 0xf6bb4b60; 0xbebfbc70;
   0x289b7ec6; 0xeaa127fa; 0xd4ef3085; 0x04881d05;
   0xd9d4d039; 0xe6db99e5; 0x1fa27cf8; 0xc4ac5665;
   0xf4292244; 0x432aff97; 0xab9423a7; 0xfc93a039;
   0x655b59c3; 0x8f0ccc92; 0xffeff47d; 0x85845dd1;
   0x6fa87e4f; 0xfe2ce6e0; 0xa3014314; 0x4e0811a1;
   0xf7537e82; 0xbd3af235; 0x2ad7d2bb; 0xeb86d391].

Definition bytes_of (s : string) : list Z :=
  map Str.code (list_ascii_of_string s).

(** The [n] low bytes of [x], least significant first. *)
Fixpoint le_bytes (n : nat) (x : Z) : list Z :=
  match n with
  | O => []
  | S n' => x mod 256 :: le_bytes n' (x / 256)
  end.

Fixpoint le_word (bs : list Z) : Z :=
  match bs with
  | [] => 0
  | b :: bs' => b + 256 * le_word bs'
  end.

(** Message, one 1 bit, zeros up to 56 modulo 64, the bit length on 8 bytes. *)
Definition pad (msg : list Z) : list Z :=
  let n := Z.of_nat (List.length msg) in
  let zeros := Z.to_nat ((55 - n) mod 64) in
  msg ++ [128] ++ repeat 0 zeros ++ le_bytes 8 ((8 * n) mod 2 ^ 64).

(** The sixteen little-endian words of a 64-byte block. *)
Fixpoint words (n : nat) (bs : list Z) : list Z :=
  match n with
  | O => []
  | S n' => le_word (firstn 4 bs) :: words n' (skipn 4 bs)
  end.

Definition round (M : list Z) (st : Z * Z * Z * Z) (i : Z) : Z * Z * Z * Z :=
  let '(A, B, C, D) := st in
  let '(F, g) :=
    if i <? 16 then (Z.lor (Z.land B C) (Z.land (not32 B) D), i)
    else if i <? 32 then (Z.lor (Z.land D B) (Z.land (not32 D) C), (5 * i + 1) mod 16)
    else if i <? 48 then (Z.lxor (Z.lxor B C) D, (3 * i + 5) mod 16)
    else (Z.lxor C (Z.lor B (not32 D)), (7 * i) mod 16) in
  let F' := add32 (add32 (add32 F A) (nth (Z.to_nat i) K_table 0)) (nth (Z.to_nat g) M 0) in
  (D, add32 B (rotl32 F' (nth (Z.to_nat i) S_table 0)), B, C).

Definition block (st : Z * Z * Z * Z) (bs : list Z) : Z * Z * Z * Z :=
  let '(a0, b0, c0, d0) := st in
  let '(A, B, C, D) := fold_left (round (words 16 bs)) (map Z.of_nat (seq 0 64)) st in
  (add32 a0 A, add32 b0 B, add32 c0 C, add32 d0 D).

Fixpoint blocks (n : nat) (st : Z * Z * Z * Z) (bs : list Z) : Z * Z * Z * Z :=
  match n with
  | O => st
  | S n' => blocks n' (block st (firstn 64 bs)) (skipn 64 bs)
  end.

Definition digest (s : string) : list Z :=
  let p := pad (bytes_of s) in
  let '(a, b, c, d) :=
    blocks (List.length p / 64) (0x67452301, 0xefcdab89, 0x98badcfe, 0x10325476) p in
  le_bytes 4 a ++ le_bytes 4 b ++ le_bytes 4 c ++ le_bytes 4 d.

Definition hex_digit (n : Z) : ascii :=
  if n <? 10 then Str.chr (48 + n) else Str.chr (87 + n).

Fixpoint hex (bs : list Z) : string :=
  match bs with
  | [] => EmptyString
  | b :: bs' => String (hex_digit (b / 16)) (String (hex_digit (b mod 16)) (hex bs'))
  end.

(** [hashlib.md5(s).hexdigest()]. *)
Definition hexdigest (s : string) : string := hex (digest s).

End MD5.

Example md5_empty : MD5.hexdigest "" = "d41d8cd98f00b204e9800998ecf8427e".
Proof. vm_compute. reflexivity. Qed.

Example md5_abc : MD5.hexdigest "abc" = "900150983cd24fb0d6963f7d28e17f72".
Proof. vm_compute. reflexivity. Qed.

Example md5_message_digest :
  MD5.hexdigest "message digest" = "f96b697d7cb7938d525a2f31aaf161d0".
Proof. vm_compute. reflexivity. Qed.

Example md5_two_blocks :
  MD5.hexdigest "aaaaaaaaaaaaaaaaaaaaaaaaaaaaaaaaaaaaaaaaaaaaaaaaaaaaaaaa" = "3b0c8ac703f828b04c6c197006d17218".
Proof. vm_compute. reflexivity. Qed.


(** ** Exceptions, results *)

(** The exception classes that occur; all of them derive from [Exception].
    [LibraryError] stands for the exception classes of PyPDF2, pdf2image and
    pytesseract. *)
Inductive exn_class : Type :=
| FileNotFoundError | PermissionError | RuntimeError | ValueError
| IndexError | ZeroDivisionError | UnboundLocalError | UnicodeDecodeError
| LibraryError.

(** An exception, and [str(e)]. *)
Record exn : Type := Exn { exn_cls : exn_class; exn_str : string }.

Inductive result (A : Type) : Type :=
| Ok (a : A)
| Raise (e : exn).
Arguments Ok {A} a.
Arguments Raise {A} e.

(** ** The world: files and the module's global dictionary *)

(** A directory, in which files can be created or not, or a file with its
    permissions and its bytes. *)
Inductive node : Type :=
| Dir (writable : bool)
| File (readable writable : bool) (data : string).

Record World : Type := mkWorld {
  fs : gmap string node;            (* path |-> node *)
  pdf_cache : gmap string string;   (* the global pdf_cache = {} *)
}.

(** What a call does outside the process memory. *)
Inductive event : Type :=
| EvRead (path : string)                      (* the content of [path] is read *)
| EvWrite (path : string)                     (* [path] is created or overwritten *)
| EvPdfReader (path : string)                 (* PyPDF2.PdfReader on the open file *)
| EvConvert (path : string)                   (* pdf2image.convert_from_path *)
| EvImageToString (image : string).           (* pytesseract.image_to_string *)

(** A call to a backend: direct extraction (PyPDF2) or OCR (pdf2image,
    pytesseract). *)
Definition is_backend_call (e : event) : bool :=
  match e with
  | EvPdfReader _ | EvConvert _ | EvImageToString _ => true
  | EvRead _ | EvWrite _ => false
  end.

(** ** The monad of Python calls *)

Definition M (A : Type) : Type := World -> result A * World * list event.

Definition ret {A} (a : A) : M A := fun w => (Ok a, w, []).

Definition raise {A} (c : exn_class) (msg : string) : M A :=
  fun w => (Raise (Exn c msg), w, []).

Definition reraise {A} (e : exn) : M A := fun w => (Raise e, w, []).

Definition bind {A B} (m : M A) (k : A -> M B) : M B := fun w =>
  match m w with
  | (Ok a, w1, t1) => let '(r, w2, t2) := k a w1 in (r, w2, (t1 ++ t2)%list)
  | (Raise e, w1, t1) => (Raise e, w1, t1)
  end.

(** [try: m  except Exception as e: h e]. *)
Definition try_except {A} (m : M A) (h : exn -> M A) : M A := fun w =>
  match m w with
  | (Ok a, w1, t1) => (Ok a, w1, t1)
  | (Raise e, w1, t1) => let '(r, w2, t2) := h e w1 in (r, w2, (t1 ++ t2)%list)
  end.

Definition emit (e : event) : M unit := fun w => (Ok tt, w, [e]).
Definition get_world : M World := fun w => (Ok w, w, []).
Definition put_world (w' : World) : M unit := fun _ => (Ok tt, w', []).

Declare Scope py_scope.
Delimit Scope py_scope with py.
Notation "x <- m ;; k" := (bind m (fun x => k))
  (at level 100, m at next level, right associativity) : py_scope.
Notation "m ;;; k" := (bind m (fun _ => k))
  (at level 100, right associativity) : py_scope.
Local Open Scope py_scope.

(** The parts of an outcome. *)
Definition res {A} (o : result A * World * list event) : result A := o.1.1.
Definition world_after {A} (o : result A * World * list event) : World := o.1.2.
Definition events {A} (o : result A * World * list event) : list event := o.2.

(** ** The platform: os.path, os.walk, os.linesep *)

Class Platform : Type := {
  abspath : string -> string;
  dirname : string -> string;
  basename : string -> string;
  splitext : string -> string * string;
  path_join : string -> string -> string;
  linesep : string;
  (** [os.walk(top)]: the (root, files) pairs yielded, and the exception
      that ends the walk if one does. *)
  os_walk : gmap string node -> string -> list (string * list string) * option exn;
}.

(** ** The libraries: PyPDF2, pdf2image, pytesseract

    They are functions of the bytes they are given.  A parsed PDF is the list
    of its pages, a page is what [extract_text()] does on it; an image is a
    [string]. *)

Class Libraries : Type := {
  PdfReader : string -> result (list (result string));
  convert_from_path : string -> option Z -> option Z -> result (list string);
  image_to_string : string -> result string;
}.

(** ** Files *)

Module IO.

Definition CR : ascii := ascii_of_nat 13.
Definition NL : ascii := ascii_of_nat 10.

(** [str(e)] of an [OSError] with a file name: the name is printed with
    [repr]. *)
Definition oserror (errno what path : string) : string :=
  "[Errno " ++ errno ++ "] " ++ what ++ ": " ++ Str.repr path.

(** [os.path.exists(path)]. *)
Definition exists_ (path : string) : M bool :=
  fun w => (Ok (bool_decide (is_Some (fs w !! path))), w, []).

(** [open(path, 'rb').read()]. *)
Definition read_bytes (path : string) : M string := fun w =>
  match fs w !! path with
  | Some (File true _ data) => (Ok data, w, [EvRead path])
  | Some (File false _ _) | Some (Dir _) =>
      (Raise (Exn PermissionError (oserror "13" "Permission denied" path)), w, [])
  | None =>
      (Raise (Exn FileNotFoundError (oserror "2" "No such file or directory" path)), w, [])
  end.

(** [text.encode('utf-8')]: one byte for a code point below 128, two bytes
    for the others. *)
Fixpoint utf8_encode (s : string) : string :=
  match s with
  | EmptyString => EmptyString
  | String c s' =>
      let n := Str.code c in
      if n <? 128 then String c (utf8_encode s')
      else String (Str.chr (192 + n / 64))
                  (String (Str.chr (128 + n mod 64)) (utf8_encode s'))
  end.

(** A continuation byte, 0x80 to 0xBF. *)
Definition continues (b : ascii) : bool :=
  (128 <=? Str.code b) && (Str.code b <=? 191).

(** The second byte of a sequence of three or four bytes: no overlong
    form, no surrogate, nothing beyond U+10FFFF. *)
Definition second_byte (lead : Z) (b : ascii) : bool :=
  let n := Str.code b in
  if lead =? 224 then (160 <=? n) && (n <=? 191)
  else if lead =? 237 then (128 <=? n) && (n <=? 159)
  else if lead =? 240 then (144 <=? n) && (n <=? 191)
  else if lead =? 244 then (128 <=? n) && (n <=? 143)
  else continues b.

(** A code point beyond U+00FF has no character in the strings of this
    development: it is read as this character, one for one, so that the text
    is as long as the text that Python reads, and empty when that is. *)
Definition beyond : ascii := "?"%char.

(** [data.decode('utf-8')]; [None] is UnicodeDecodeError. *)
Fixpoint utf8_decode (data : string) : option string :=
  match data with
  | EmptyString => Some EmptyString
  | String b0 s1 =>
      let n0 := Str.code b0 in
      if n0 <? 128 then option_map (String b0) (utf8_decode s1)
      else if n0 <? 194 then None
      else if n0 <? 224 then
        match s1 with
        | String b1 s2 =>
            if continues b1 then
              let n := 64 * (n0 - 192) + (Str.code b1 - 128) in
              option_map (String (if n <? 256 then Str.chr n else beyond)) (utf8_decode s2)
            else None
        | EmptyString => None
        end
      else if n0 <? 240 then
        match s1 with
        | String b1 (String b2 s3) =>
            if second_byte n0 b1 && continues b2
            then option_map (String beyond) (utf8_decode s3)
            else None
        | _ => None
        end
      else if n0 <? 245 then
        match s1 with
        | String b1 (String b2 (String b3 s4)) =>
            if second_byte n0 b1 && continues b2 && continues b3
            then option_map (String beyond) (utf8_decode s4)
            else None
        | _ => None
        end
      else None
  end.

(** Reading in text mode turns every line ending into a line feed. *)
Fixpoint universal_newlines (s : string) : string :=
  match s with
  | EmptyString => EmptyString
  | String c s' =>
      if Ascii.eqb c CR then
        String NL match s' with
                  | String c' s'' =>
                      if Ascii.eqb c' NL then universal_newlines s''
                      else universal_newlines s'
                  | EmptyString => EmptyString
                  end
      else String c (universal_newlines s')
  end.

(** Writing in text mode turns every line feed into [os.linesep]. *)
Fixpoint translate_newlines (sep : string) (s : string) : string :=
  match s with
  | EmptyString => EmptyString
  | String c s' =>
      if Ascii.eqb c NL then sep ++ translate_newlines sep s'
      else String c (translate_newlines sep s')
  end.

(** The bytes of a text written in text mode, and the text read from
    bytes in text mode. *)
Definition encode_text (sep text : string) : string :=
  utf8_encode (translate_newlines sep text).

Definition decode_text (data : string) : option string :=
  option_map universal_newlines (utf8_decode data).

(** [open(path, 'r', encoding='utf-8').read()].  The message of the
    UnicodeDecodeError names the byte and its position; the server prints it
    and nothing else. *)
Definition read_text (path : string) : M string :=
  data <- read_bytes path ;;
  match decode_text data with
  | Some text => ret text
  | None => raise UnicodeDecodeError "'utf-8' codec can't decode bytes"
  end.

(** The node at a path after a write of [data]: a file that was there keeps
    its read permission, a new file can be read. *)
Definition overwritten (old : option node) (data : string) : node :=
  match old with
  | Some (File r _ _) => File r true data
  | _ => File true true data
  end.

(** Whether [open(path, 'w')] succeeds: on a file that can be written,
    and on a path that does not exist in a directory that exists and allows
    the creation of files. *)
Definition write_error `{Platform} (files : gmap string node) (path : string)
  : option exn :=
  match files !! path with
  | Some (File _ true _) => None
  | Some (File _ false _) | Some (Dir _) =>
      Some (Exn PermissionError (oserror "13" "Permission denied" path))
  | None =>
      match files !! dirname path with
      | Some (Dir true) => None
      | Some (Dir false) =>
          Some (Exn PermissionError (oserror "13" "Permission denied" path))
      | _ => Some (Exn FileNotFoundError (oserror "2" "No such file or directory" path))
      end
  end.

(** [open(path, 'w', encoding='utf-8').write(text)]. *)
Definition write_text `{Platform} (path text : string) : M unit := fun w =>
  match write_error (fs w) path with
  | Some e => (Raise e, w, [])
  | None =>
      (Ok tt,
       mkWorld (<[path := overwritten (fs w !! path) (encode_text linesep text)]> (fs w))
               (pdf_cache w),
       [EvWrite path])
  end.

End IO.

(** ** Python built-ins used by the server *)

Module Py.

(** [range(a, b)]. *)
Definition range (a b : Z) : list Z :=
  map (fun i => a + Z.of_nat i) (seq 0 (Z.to_nat (b - a))).

(** [min(l)] and [max(l)] of a non-empty list. *)
Definition min_list (x : Z) (l : list Z) : Z := fold_left Z.min l x.
Definition max_list (x : Z) (l : list Z) : Z := fold_left Z.max l x.

(** [x in l]. *)
Definition mem (x : Z) (l : list Z) : bool := existsb (Z.eqb x) l.

(** [enumerate(l)]. *)
Definition enumerate {A} (l : list A) : list (Z * A) :=
  combine (map Z.of_nat (seq 0 (List.length l))) l.

(** [l[i]] for [0 <= i]; [None] is IndexError. *)
Definition index {A} (l : list A) (i : Z) : option A := nth_error l (Z.to_nat i).

(** [l[a:b]] for [0 <= a]. *)
Definition slice {A} (l : list A) (a b : Z) : list A :=
  firstn (Z.to_nat (b - a)) (skipn (Z.to_nat a) l).

(** Truth value of an optional list: [None] and [[]] are false. *)
Definition truthy {A} (l : option (list A)) : bool :=
  match l with
  | Some (_ :: _) => true
  | _ => false
  end.

(** Truth value of an optional string: [None] and [''] are false. *)
Definition truthy_str (s : option string) : bool :=
  match s with
  | Some (String _ _) => true
  | _ => false
  end.

(** [f"{page_numbers}"]. *)
Definition str_pages (page_numbers : option (list Z)) : string :=
  match page_numbers with
  | None => "None"
  | Some l => Str.of_int_list l
  end.

(** [l.append(x)]. *)
Definition append {A} (l : list A) (x : A) : list A := app l [x].

Fixpoint insert_sorted (x : string) (l : list string) : list string :=
  match l with
  | [] => [x]
  | y :: l' => if String.leb x y then x :: l else y :: insert_sorted x l'
  end.

(** [sorted(l)] for strings. *)
Definition sorted (l : list string) : list string := fold_right insert_sorted [] l.

End Py.

(** ** The server *)

Definition lift {A} (r : result A) : M A := fun w => (r, w, []).

(** The statements of a [for] loop body, threaded through an accumulator. *)
Fixpoint for_each {A S} (l : list A) (body : S -> A -> M S) (s : S) : M S :=
  match l with
  | [] => ret s
  | x :: l' => s' <- body s x ;; for_each l' body s'
  end.

Section Server.

Context {P : Platform} {L : Libraries}.

Abbreviation LF := Str.LF.

(** Configure allowed PDF directories (for security). *)
Definition ALLOWED_PDF_DIRECTORIES : list string :=
  ["C:\Users\Admin\Desktop\HOA\pdfs"].

(** Generate a hash of the PDF file for caching purposes. *)
Definition get_pdf_hash (file_path : string) : M string :=
  data <- IO.read_bytes file_path ;;
  ret (MD5.hexdigest data).

(** [f"{pdf_name}_ocr_{file_hash}.txt"]. *)
Definition cache_filename (pdf_name file_hash : string) : string :=
  pdf_name ++ "_ocr_" ++ file_hash ++ ".txt".

(** Get the path for the cached text file. *)
Definition get_cache_file_path (file_path : string) : M string :=
  let pdf_dir := dirname file_path in
  let pdf_name := (splitext (basename file_path)).1 in
  h <- get_pdf_hash file_path ;;
  let file_hash := Str.take 8 h in
  ret (path_join pdf_dir (cache_filename pdf_name file_hash)).

(** Load cached OCR text if it exists. *)
Definition load_cached_text (file_path : string) : M (option string) :=
  cache_file <- get_cache_file_path file_path ;;
  ex <- IO.exists_ cache_file ;;
  if ex then
    try_except (t <- IO.read_text cache_file ;; ret (Some t))
               (fun _ => ret None)
  else ret None.

(** Save OCR text to cache file. *)
Definition save_cached_text (file_path text : string) : M unit :=
  cache_file <- get_cache_file_path file_path ;;
  try_except (IO.write_text cache_file text) (fun _ => ret tt).

(** [convert_from_path(file_path, first_page=.., last_page=..)]: the
    library opens the path itself. *)
Definition call_convert_from_path (file_path : string) (first_page last_page : option Z)
  : M (list string) := fun w =>
  match fs w !! file_path with
  | Some (File true _ data) =>
      (convert_from_path data first_page last_page, w,
       [EvConvert file_path; EvRead file_path])
  | _ => (Raise (Exn LibraryError "Unable to get page count."), w, [EvConvert file_path])
  end.

(** [pytesseract.image_to_string(image, lang='eng')]. *)
Definition call_image_to_string (image : string) : M string :=
  emit (EvImageToString image) ;;; lift (image_to_string image).

(** [PyPDF2.PdfReader(file)] on [open(file_path, 'rb')]. *)
Definition open_pdf (file_path : string) : M (list (result string)) :=
  data <- IO.read_bytes file_path ;;
  emit (EvPdfReader file_path) ;;;
  lift (PdfReader data).

(** The images of the requested pages: the loop
    [for i, page_num in enumerate(range(first_page, last_page + 1))]. *)
Definition requested_images (images : list string) (page_numbers : list Z)
    (first_page last_page : Z) : M (list string) :=
  for_each (Py.enumerate (Py.range first_page (last_page + 1)))
    (fun requested '(i, page_num) =>
       if Py.mem page_num page_numbers then
         match Py.index images i with
         | Some image => ret (Py.append requested image)
         | None => raise IndexError "list index out of range"
         end
       else ret requested)
    [].

(** The label of the [i]-th image. *)
Definition page_label (page_numbers : option (list Z)) (i : Z) : Z :=
  match page_numbers with
  | Some ((p0 :: _) as l) =>
      match Py.index l i with
      | Some p => p
      | None => p0 + i
      end
  | _ => i + 1
  end.

(** [str(e)] of the UnboundLocalError for a local variable read before its
    first assignment, in the wording of Python 3.11 and later. *)
Definition unbound_local (name : string) : string :=
  "cannot access local variable '" ++ name ++ "' where it is not associated with a value".

(** The loop [for i, image in enumerate(images)].  Its state is the list
    [text_content] and the local variable [actual_page], which is unbound
    until its first assignment. *)
Definition ocr_pages (page_numbers : option (list Z)) (images : list string)
  : M (list string * option Z) :=
  for_each (Py.enumerate images)
    (fun '(text_content, actual_page) '(i, image) =>
       try_except
         (page_text <- call_image_to_string image ;;
          let actual_page := page_label page_numbers i in
          ret (Py.append text_content
                 ("--- Page " ++ Str.of_int actual_page ++ " (OCR) ---" ++ LF
                  ++ page_text ++ LF),
               Some actual_page))
         (fun e =>
            match actual_page with
            | Some a =>
                ret (Py.append text_content
                       ("--- Page " ++ Str.of_int a ++ " (OCR Error) ---" ++ LF
                        ++ "Error extracting text: " ++ exn_str e ++ LF),
                     actual_page)
            | None => raise UnboundLocalError (unbound_local "actual_page")
            end))
    ([], None).

(** Extract text from PDF using OCR for scanned documents. *)
Definition extract_text_with_ocr (file_path : string) (page_numbers : option (list Z))
  : M string :=
  try_except
    (images <-
       match page_numbers with
       | Some ((p0 :: rest) as l) =>
           let first_page := Py.min_list p0 rest in
           let last_page := Py.max_list p0 rest in
           images <- call_convert_from_path file_path (Some first_page) (Some last_page) ;;
           requested_images images l first_page last_page
       | _ => call_convert_from_path file_path None None
       end ;;
     state <- ocr_pages page_numbers images ;;
     let text_content := state.1 in
     ret (Str.join LF text_content))
    (fun e => raise RuntimeError ("Error performing OCR on PDF: " ++ exn_str e)).

(** Check if PDF has extractable text or if it needs OCR.  The quotient
    [total_text_length / pages_to_check] is a real division, a division by
    zero is an exception, and [avg > 50] is decided on the integers. *)
Definition has_extractable_text (file_path : string) (sample_pages : Z) : M bool :=
  try_except
    (pages <- open_pdf file_path ;;
     let pages_to_check := Z.min sample_pages (Z.of_nat (List.length pages)) in
     total_text_length <-
       for_each (Py.range 0 pages_to_check)
         (fun total i =>
            match Py.index pages i with
            | Some page =>
                page_text <- lift page ;;
                ret (total + Str.len (Str.strip page_text))
            | None => raise IndexError "sequence index out of range"
            end)
         0 ;;
     if pages_to_check =? 0 then raise ZeroDivisionError "division by zero"
     else if 0 <? pages_to_check then ret (50 * pages_to_check <? total_text_length)
     else ret (total_text_length <? 50 * pages_to_check))
    (fun _ => ret false).

(** Check if the file path is in an allowed directory. *)
Definition is_path_allowed (file_path : string) : bool :=
  let file_path := abspath file_path in
  existsb (fun allowed_dir => Str.startswith file_path (abspath allowed_dir))
          ALLOWED_PDF_DIRECTORIES.

(** The branch "regular PDF with extractable text" of [extract_pdf_text]. *)
Definition regular_extraction (file_path : string) (page_numbers : option (list Z))
  : M string :=
  pages <- open_pdf file_path ;;
  let n := Z.of_nat (List.length pages) in
  let pages_to_read :=
    match page_numbers with
    | Some ((_ :: _) as l) =>
        map (fun p => p - 1) (List.filter (fun p => (0 <=? p - 1) && (p - 1 <? n)) l)
    | _ => Py.range 0 n
    end in
  text_content <-
    for_each pages_to_read
      (fun text_content page_num =>
         match Py.index pages page_num with
         | Some page =>
             t <- lift page ;;
             ret (Py.append text_content
                    ("--- Page " ++ Str.of_int (page_num + 1) ++ " ---" ++ LF ++ t ++ LF))
         | None => raise IndexError "sequence index out of range"
         end)
      [] ;;
  ret (Str.join LF text_content).

(** [f"{file_path}:{page_numbers}"]. *)
Definition cache_key (file_path : string) (page_numbers : option (list Z)) : string :=
  file_path ++ ":" ++ Py.str_pages page_numbers.

(** OCR, and the result saved to the cache file for a full document. *)
Definition ocr_and_save (file_path : string) (page_numbers : option (list Z)) : M string :=
  text <- extract_text_with_ocr file_path page_numbers ;;
  (if negb (Py.truthy page_numbers) then save_cached_text file_path text else ret tt) ;;;
  ret text.

(** [if len(pdf_cache) < 10: pdf_cache[cache_key] = full_text]. *)
Definition cache_in_memory (key full_text : string) : M unit := fun w =>
  if (size (pdf_cache w) <? 10)%nat
  then (Ok tt, mkWorld (fs w) (<[key := full_text]> (pdf_cache w)), [])
  else (Ok tt, w, []).

(** The body of the [try] of [extract_pdf_text]. *)
Definition live_extraction (file_path : string) (page_numbers : option (list Z))
    (force_ocr : bool) : M string :=
  regular <- (if negb force_ocr then has_extractable_text file_path 3 else ret false) ;;
  full_text <-
    (if regular then regular_extraction file_path page_numbers
     else ocr_and_save file_path page_numbers) ;;
  cache_in_memory (cache_key file_path page_numbers) full_text ;;;
  ret full_text.

(** The [except Exception as e] of [extract_pdf_text]. *)
Definition ocr_fallback (file_path : string) (page_numbers : option (list Z))
    (force_ocr : bool) (e : exn) : M string :=
  if negb force_ocr then
    try_except (ocr_and_save file_path page_numbers)
      (fun ocr_error =>
         raise RuntimeError
           ("Both regular extraction and OCR failed. Regular error: " ++ exn_str e
            ++ ", OCR error: " ++ exn_str ocr_error))
  else raise RuntimeError ("Error reading PDF: " ++ exn_str e).

Definition cached_marker : string := "[Using cached OCR text]" ++ LF ++ LF.

(** Extract text from PDF file, using OCR for scanned documents. *)
Definition extract_pdf_text (file_path : string) (page_numbers : option (list Z))
    (force_ocr : bool) : M string :=
  ex <- IO.exists_ file_path ;;
  if negb ex then raise FileNotFoundError ("PDF file not found: " ++ file_path)
  else if negb (is_path_allowed file_path)
  then raise PermissionError ("Access denied to file: " ++ file_path)
  else
    cached_text <-
      (if negb (Py.truthy page_numbers) && negb force_ocr
       then load_cached_text file_path else ret None) ;;
    match cached_text with
    | Some ((String _ _) as text) => ret (cached_marker ++ text)
    | _ =>
        w <- get_world ;;
        match pdf_cache w !! cache_key file_path page_numbers, force_ocr with
        | Some text, false => ret text
        | _, _ =>
            try_except (live_extraction file_path page_numbers force_ocr)
                       (ocr_fallback file_path page_numbers force_ocr)
        end
    end.

(** Find all PDF files in allowed directories. *)
Definition find_pdf_files (directory : option string) : M (list string) :=
  let directories_to_search :=
    match directory with
    | Some ((String _ _) as d) => [d]
    | _ => ALLOWED_PDF_DIRECTORIES
    end in
  pdf_files <-
    for_each directories_to_search
      (fun pdf_files dir_path =>
         ex <- IO.exists_ dir_path ;;
         if negb ex then ret pdf_files
         else if negb (is_path_allowed dir_path) then ret pdf_files
         else
           w <- get_world ;;
           let '(yielded, stopped) := os_walk (fs w) dir_path in
           let found :=
             flat_map (fun '(root, files) =>
                         map (path_join root)
                             (List.filter (fun file => Str.endswith (Str.lower file) ".pdf")
                                          files))
                      yielded in
           match stopped with
           | Some e =>
               match exn_cls e with
               | PermissionError => ret (app pdf_files found)
               | _ => reraise e
               end
           | None => ret (app pdf_files found)
           end)
      [] ;;
  ret (Py.sorted pdf_files).

Definition truncation_marker : string :=
  LF ++ LF ++ "[Content truncated - file is very long. Use page_numbers parameter to read specific pages]".

(** [handle_call_tool], the branch [name == "read_pdf"]; the value is the
    text of the one [TextContent] returned. *)
Definition read_pdf (file_path : option string) (page_numbers : option (list Z))
    (force_ocr : bool) : M string :=
  match file_path with
  | Some ((String _ _) as file_path) =>
      try_except
        (pdf_text <- extract_pdf_text file_path page_numbers force_ocr ;;
         let pdf_text :=
           if 15000 <? Str.len pdf_text
           then Str.take (Z.to_nat 15000) pdf_text ++ truncation_marker
           else pdf_text in
         ret ("Content from PDF file: " ++ file_path ++ LF ++ LF ++ pdf_text))
        (fun e =>
           ret ("Error reading PDF file '" ++ file_path ++ "': " ++ exn_str e))
  | _ => raise ValueError "Missing file_path parameter"
  end.

(** The matches of the search loop over [lines]. *)
Definition search_matches (lines : list string) (term_to_find : string) : list string :=
  flat_map
    (fun '(i, line) =>
       if Str.contains line term_to_find then
         let context_start := Z.max 0 (i - 1) in
         let context_end := Z.min (Z.of_nat (List.length lines)) (i + 2) in
         let context := Py.slice lines context_start context_end in
         ["Line " ++ Str.of_int (i + 1) ++ ": " ++ Str.join " " context]
       else [])
    (Py.enumerate lines).

(** The search over an extracted text and the text of the answer. *)
Definition search_text (file_path search_term : string) (case_sensitive : bool)
    (pdf_text : string) : string :=
  let search_text := if case_sensitive then pdf_text else Str.lower pdf_text in
  let term_to_find := if case_sensitive then search_term else Str.lower search_term in
  let lines := Str.split IO.NL search_text in
  let matches := search_matches lines term_to_find in
  match matches with
  | _ :: _ =>
      let result_text :=
        "Found " ++ Str.of_int (Z.of_nat (List.length matches)) ++ " matches for '"
        ++ search_term ++ "' in " ++ file_path ++ ":" ++ LF ++ LF
        ++ Str.join (LF ++ LF) (firstn 10 matches) in
      if 10 <? Z.of_nat (List.length matches)
      then result_text ++ LF ++ LF ++ "[Showing first 10 of "
           ++ Str.of_int (Z.of_nat (List.length matches)) ++ " matches]"
      else result_text
  | [] => "No matches found for '" ++ search_term ++ "' in " ++ file_path
  end.

(** [handle_call_tool], the branch [name == "search_pdf_content"]. *)
Definition search_pdf_content (file_path search_term : option string)
    (case_sensitive : bool) : M string :=
  match file_path, search_term with
  | Some ((String _ _) as file_path), Some ((String _ _) as search_term) =>
      try_except
        (pdf_text <- extract_pdf_text file_path None false ;;
         ret (search_text file_path search_term case_sensitive pdf_text))
        (fun e =>
           ret ("Error searching PDF file '" ++ file_path ++ "': " ++ exn_str e))
  | _, _ => raise ValueError "Missing file_path or search_term parameter"
  end.

End Server.

(** ** os.path on Windows (ntpath), for paths with a drive letter or none

    UNC and device paths are left out.  [abspath] is the library's own
    [normpath(join(getcwd(), path))]. *)

Module ntpath.

Definition sep : string := "\".

Definition is_sep (c : ascii) : bool := Ascii.eqb c "\" || Ascii.eqb c "/".

(** [splitdrive(p)]: the drive is [p[:2]] when [p[1] == ':']. *)
Definition splitdrive (p : string) : string * string :=
  match p with
  | String a (String b rest) =>
      if Ascii.eqb b ":" then (String a (String b EmptyString), rest)
      else (EmptyString, p)
  | _ => (EmptyString, p)
  end.

(** [(p[:i], p[i:])] for [i] just beyond the last separator of [p]. *)
Fixpoint cut_last_sep (p : string) : string * string :=
  match p with
  | EmptyString => (EmptyString, EmptyString)
  | String c p' =>
      let '(h, t) := cut_last_sep p' in
      match h with
      | String _ _ => (String c h, t)
      | EmptyString => if is_sep c then (String c EmptyString, t)
                       else (EmptyString, String c t)
      end
  end.

(** [s.rstrip('\\/')]. *)
Fixpoint rstrip_seps (s : string) : string :=
  match s with
  | EmptyString => EmptyString
  | String c s' =>
      match rstrip_seps s' with
      | EmptyString => if is_sep c then EmptyString else String c EmptyString
      | r => String c r
      end
  end.

Definition split (p : string) : string * string :=
  let '(d, p) := splitdrive p in
  let '(head, tail) := cut_last_sep p in
  let head := match rstrip_seps head with
              | EmptyString => head
              | h => h
              end in
  (d ++ head, tail).

Definition dirname (p : string) : string := (split p).1.
Definition basename (p : string) : string := (split p).2.

(** [p.rfind(c)] for the characters that satisfy [f]; [-1] when none. *)
Fixpoint rfind (f : ascii -> bool) (p : string) : Z :=
  match p with
  | EmptyString => -1
  | String c p' =>
      let r := rfind f p' in
      if 0 <=? r then r + 1 else if f c then 0 else -1
  end.

Fixpoint all_dots (s : string) : bool :=
  match s with
  | EmptyString => true
  | String c s' => Ascii.eqb c "." && all_dots s'
  end.

(** [genericpath._splitext(p, '\\', '/', '.')]: the extension starts at
    the last dot of the last component, leading dots apart. *)
Definition splitext (p : string) : string * string :=
  let sepIndex := rfind is_sep p in
  let dotIndex := rfind (Ascii.eqb ".") p in
  if sepIndex <? dotIndex then
    let filenameIndex := sepIndex + 1 in
    if all_dots (Str.take (Z.to_nat (dotIndex - filenameIndex))
                          (Str.drop (Z.to_nat filenameIndex) p))
    then (p, EmptyString)
    else (Str.take (Z.to_nat dotIndex) p, Str.drop (Z.to_nat dotIndex) p)
  else (p, EmptyString).

Definition starts_with_sep (p : string) : bool :=
  match p with
  | String c _ => is_sep c
  | EmptyString => false
  end.

Fixpoint ends_with_sep (p : string) : bool :=
  match p with
  | EmptyString => false
  | String c EmptyString => is_sep c
  | String _ p' => ends_with_sep p'
  end.

(** [join(path, p)]. *)
Definition join (path p : string) : string :=
  let '(result_drive, result_path) := splitdrive path in
  let '(p_drive, p_path) := splitdrive p in
  if starts_with_sep p_path then
    (if negb (String.eqb p_drive "") || String.eqb result_drive "" then p_drive
     else result_drive) ++ p_path
  else if negb (String.eqb p_drive "") && negb (String.eqb p_drive result_drive)
          && negb (String.eqb (Str.lower p_drive) (Str.lower result_drive))
  then p_drive ++ p_path
  else
    let result_drive :=
      if negb (String.eqb p_drive "") && negb (String.eqb p_drive result_drive)
      then p_drive else result_drive in
    let result_path :=
      if negb (String.eqb result_path "") && negb (ends_with_sep result_path)
      then result_path ++ sep else result_path in
    result_drive ++ result_path ++ p_path.

Definition isabs (p : string) : bool := starts_with_sep (splitdrive p).2.

Fixpoint replace_altsep (p : string) : string :=
  match p with
  | EmptyString => EmptyString
  | String c p' => String (if Ascii.eqb c "/" then "\"%char else c) (replace_altsep p')
  end.

Fixpoint lstrip_sep (p : string) : string :=
  match p with
  | String c p' => if Ascii.eqb c "\" then lstrip_sep p' else p
  | EmptyString => EmptyString
  end.

(** The components kept so far, last first, and one more component. *)
Definition norm_step (rooted : bool) (kept : list string) (comp : string) : list string :=
  if String.eqb comp "" || String.eqb comp "." then kept
  else if String.eqb comp ".." then
    match kept with
    | top :: kept' => if String.eqb top ".." then comp :: kept else kept'
    | [] => if rooted then kept else [comp]
    end
  else comp :: kept.

(** [normpath(path)]. *)
Definition normpath (path : string) : string :=
  let path := replace_altsep path in
  let '(prefix, path) := splitdrive path in
  let rooted := starts_with_sep path in
  let prefix := if rooted then prefix ++ sep else prefix in
  let path := lstrip_sep path in
  let comps := rev (fold_left (norm_step rooted) (Str.split "\" path) []) in
  match prefix, comps with
  | EmptyString, [] => "."
  | _, _ => prefix ++ Str.join sep comps
  end.

Definition abspath (cwd path : string) : string :=
  normpath (if isabs path then path else join cwd path).

Definition under (top path : string) : bool :=
  Str.startswith path (if ends_with_sep top then top else top ++ sep).

(** [os.walk(top)] on a flat file system: the files below [top], each with
    the directory that holds it. *)
Definition walk (files : gmap string node) (top : string)
  : list (string * list string) * option exn :=
  (omap (fun '(path, n) =>
           match n with
           | File _ _ _ => if under top path then Some (dirname path, [basename path])
                           else None
           | Dir _ => None
           end)
        (map_to_list files),
   None).

End ntpath.

Definition windows (cwd : string) : Platform := {|
  abspath := ntpath.abspath cwd;
  dirname := ntpath.dirname;
  basename := ntpath.basename;
  splitext := ntpath.splitext;
  path_join := ntpath.join;
  linesep := String IO.CR (String IO.NL EmptyString);
  os_walk := ntpath.walk;
|}.

(** ** A small PDF world for examples

    A file is [header|page|page|...].  The header [%PDF] opens everywhere,
    [%PDF!] opens in PdfReader and fails to rasterise, any other header is not
    a PDF.  The first character of a page tells its kind: [T] a page with a
    text layer, [S] a scanned page (no text layer, OCR reads it), [E] a page
    whose [extract_text()] raises, [B] a page whose OCR raises. *)

Module Demo.

Definition page_text (p : string) : result string :=
  match p with
  | String "T" s => Ok s
  | String "E" s => Raise (Exn LibraryError s)
  | _ => Ok EmptyString
  end.

Definition reader (data : string) : result (list (result string)) :=
  match Str.split "|" data with
  | h :: ps =>
      if Str.startswith h "%PDF" then Ok (map page_text ps)
      else Raise (Exn LibraryError "EOF marker not found")
  | [] => Raise (Exn LibraryError "EOF marker not found")
  end.

(** pdf2image clips the page range to the document. *)
Definition rasterise (data : string) (first_page last_page : option Z)
  : result (list string) :=
  match Str.split "|" data with
  | h :: ps =>
      if String.eqb h "%PDF" then
        let n := Z.of_nat (List.length ps) in
        let first := match first_page with
                     | Some f => if f <? 1 then 1 else f
                     | None => 1
                     end in
        let last := match last_page with
                    | Some l => if n <? l then n else l
                    | None => n
                    end in
        if last <? first then Ok [] else Ok (Py.slice ps (first - 1) last)
      else Raise (Exn LibraryError "Unable to get page count.")
  | [] => Raise (Exn LibraryError "Unable to get page count.")
  end.

Definition ocr (image : string) : result string :=
  match image with
  | String "B" s => Raise (Exn LibraryError s)
  | String _ s => Ok s
  | EmptyString => Ok EmptyString
  end.

Definition libraries : Libraries := {|
  PdfReader := reader;
  convert_from_path := rasterise;
  image_to_string := ocr;
|}.

Definition platform : Platform := windows "C:\work".

Definition pdfs : string := "C:\Users\Admin\Desktop\HOA\pdfs".

(** A world with the allowed directory, the given files, all readable and
    writable, and an empty [pdf_cache]. *)
Definition world (files : list (string * string)) : World :=
  mkWorld (<[pdfs := Dir true]> (list_to_map (map (fun '(p, d) => (p, File true true d)) files)))
          ∅.

(** The file [old] is renamed to [new]. *)
Definition rename (old new : string) (w : World) : World :=
  match fs w !! old with
  | Some n => mkWorld (<[new := n]> (delete old (fs w))) (pdf_cache w)
  | None => w
  end.

End Demo.

(** * Properties *)

(** ** Running a call step by step *)

Section Calls.

Context {A B : Type}.

Lemma outcome_eta (o : result A * World * list event) :
  o = (res o, world_after o, events o).
Proof. by destruct o as [[r w] t]. Qed.

Lemma bind_ok (m : M A) (k : A -> M B) w a w1 t1 :
  m w = (Ok a, w1, t1) ->
  bind m k w = (res (k a w1), world_after (k a w1), (t1 ++ events (k a w1))%list).
Proof. intros H. unfold bind. rewrite H. by destruct (k a w1) as [[r w2] t2]. Qed.

Lemma bind_raise (m : M A) (k : A -> M B) w e w1 t1 :
  m w = (Raise e, w1, t1) -> bind m k w = (Raise e, w1, t1).
Proof. intros H. unfold bind. by rewrite H. Qed.

Lemma try_ok (m : M A) (h : exn -> M A) w a w1 t1 :
  m w = (Ok a, w1, t1) -> try_except m h w = (Ok a, w1, t1).
Proof. intros H. unfold try_except. by rewrite H. Qed.

Lemma try_raise (m : M A) (h : exn -> M A) w e w1 t1 :
  m w = (Raise e, w1, t1) ->
  try_except m h w = (res (h e w1), world_after (h e w1), (t1 ++ events (h e w1))%list).
Proof. intros H. unfold try_except. rewrite H. by destruct (h e w1) as [[r w2] t2]. Qed.

End Calls.

(** ** Relations that every step of a call keeps

    [keeps R m]: the world after [m] is related by [R] to the world before.
    For a preorder [R] the property goes through the monad. *)

Definition keeps (R : relation World) {A} (m : M A) : Prop :=
  forall w, R w (world_after (m w)).

Section Keeps.

Context (R : relation World) `{!PreOrder R}.

Lemma keeps_ret {A} (a : A) : keeps R (ret a).
Proof. intros w. reflexivity. Qed.

Lemma keeps_raise {A} c msg : keeps R (@raise A c msg).
Proof. intros w. reflexivity. Qed.

Lemma keeps_reraise {A} e : keeps R (@reraise A e).
Proof. intros w. reflexivity. Qed.

Lemma keeps_lift {A} (r : result A) : keeps R (lift r).
Proof. intros w. reflexivity. Qed.

Lemma keeps_emit e : keeps R (emit e).
Proof. intros w. reflexivity. Qed.

Lemma keeps_get_world : keeps R get_world.
Proof. intros w. reflexivity. Qed.

Lemma keeps_bind {A B} (m : M A) (k : A -> M B) :
  keeps R m -> (forall a, keeps R (k a)) -> keeps R (bind m k).
Proof.
  intros Hm Hk w. specialize (Hm w). unfold bind.
  destruct (m w) as [[[a|e] w1] t1]; cbn in *; [|done].
  specialize (Hk a w1). destruct (k a w1) as [[r w2] t2]; cbn in *.
  by etrans.
Qed.

Lemma keeps_try {A} (m : M A) (h : exn -> M A) :
  keeps R m -> (forall e, keeps R (h e)) -> keeps R (try_except m h).
Proof.
  intros Hm Hh w. specialize (Hm w). unfold try_except.
  destruct (m w) as [[[a|e] w1] t1]; cbn in *; [done|].
  specialize (Hh e w1). destruct (h e w1) as [[r w2] t2]; cbn in *.
  by etrans.
Qed.

Lemma keeps_for_each {A S} (l : list A) (body : S -> A -> M S) s :
  (forall s x, keeps R (body s x)) -> keeps R (for_each l body s).
Proof.
  intros Hb. revert s. induction l as [|x l IH]; intros s; cbn.
  - apply keeps_ret.
  - apply keeps_bind; auto.
Qed.

Lemma keeps_exists path : keeps R (IO.exists_ path).
Proof. intros w. reflexivity. Qed.

Lemma keeps_read_bytes path : keeps R (IO.read_bytes path).
Proof.
  intros w. unfold IO.read_bytes.
  destruct (fs w !! path) as [[|[] ? ?]|]; reflexivity.
Qed.

Lemma keeps_read_text path : keeps R (IO.read_text path).
Proof.
  apply keeps_bind; [apply keeps_read_bytes|]. intros data.
  destruct (IO.decode_text data); [apply keeps_ret|apply keeps_raise].
Qed.

End Keeps.

Create HintDb keeps.

#[local] Hint Resolve keeps_ret keeps_raise keeps_reraise keeps_lift keeps_emit
  keeps_get_world keeps_exists keeps_read_bytes keeps_read_text : keeps.

(** Apply the rules above to a call, splitting its conditionals. *)
Ltac keeps_step :=
  match goal with
  | |- keeps _ (bind _ _) => apply keeps_bind; [typeclasses eauto| |intros]
  | |- keeps _ (try_except _ _) => apply keeps_try; [typeclasses eauto| |intros]
  | |- keeps _ (for_each _ _ _) => apply keeps_for_each; [typeclasses eauto|intros]
  | |- keeps _ (match ?x with _ => _ end) => destruct x
  | |- keeps _ ((match ?x with _ => _ end) _) => destruct x
  | |- keeps _ ((fun _ => _) _) => cbv beta
  | |- keeps _ (let '(_, _) := ?x in _) => destruct x
  | |- keeps _ _ => solve [eauto with keeps typeclass_instances]
  end.

Ltac keeps_auto := repeat keeps_step.

(** Nothing changes. *)
Definition unchanged : relation World := fun w w' => w' = w.

(** The dictionary [pdf_cache] does not change. *)
Definition same_cache : relation World := fun w w' => pdf_cache w' = pdf_cache w.

(** A file that can be read. *)
Definition readable (n : option node) : Prop :=
  match n with
  | Some (File true _ _) => True
  | _ => False
  end.

(** Every path that exists still exists, and every file that can be read
    still can. *)
Definition files_stay : relation World := fun w w' =>
  forall path, (is_Some (fs w !! path) -> is_Some (fs w' !! path))
               /\ (readable (fs w !! path) -> readable (fs w' !! path)).

#[local] Instance unchanged_preorder : PreOrder unchanged.
Proof. split; [done|]. intros w1 w2 w3 H1 H2. unfold unchanged in *. congruence. Qed.

#[local] Instance same_cache_preorder : PreOrder same_cache.
Proof. split; [done|]. intros w1 w2 w3 H1 H2. unfold same_cache in *. congruence. Qed.

#[local] Instance files_stay_preorder : PreOrder files_stay.
Proof.
  split; [done|]. intros w1 w2 w3 H1 H2 path.
  destruct (H1 path), (H2 path). auto.
Qed.

Lemma bind_events_prefix {A B} (m : M A) (k : A -> M B) w :
  exists t, events (bind m k w) = (events (m w) ++ t)%list.
Proof.
  unfold bind. destruct (m w) as [[[a|e] w1] t1]; cbn.
  - destruct (k a w1) as [[r w2] t2]; cbn. by exists t2.
  - exists []. by rewrite app_nil_r.
Qed.

Lemma try_events_prefix {A} (m : M A) (h : exn -> M A) w :
  exists t, events (try_except m h w) = (events (m w) ++ t)%list.
Proof.
  unfold try_except. destruct (m w) as [[[a|e] w1] t1]; cbn.
  - exists []. by rewrite app_nil_r.
  - destruct (h e w1) as [[r w2] t2]; cbn. by exists t2.
Qed.

(** Expose the events of the first step of the call in the goal. *)
Ltac first_events :=
  match goal with
  | |- context [events (try_except ?m ?h ?w)] =>
      let t := fresh "t" in destruct (try_events_prefix m h w) as [t ->]
  | |- context [events (bind ?m ?k ?w)] =>
      let t := fresh "t" in destruct (bind_events_prefix m k w) as [t ->]
  end.

(** A call raises. *)
Definition raises {A} (m : M A) (w : World) : Prop := exists e, res (m w) = Raise e.

Lemma raises_bind {A B} (m : M A) (k : A -> M B) w :
  raises m w \/ (exists a, res (m w) = Ok a /\ raises (k a) (world_after (m w))) ->
  raises (bind m k) w.
Proof.
  unfold raises, bind. destruct (m w) as [[[a|e] w1] t1]; cbn.
  - intros [[e ?]|(a' & [= <-] & e & He)]; [done|].
    destruct (k a w1) as [[r w2] t2]; cbn in *. eauto.
  - eauto.
Qed.

Lemma for_each_raises {A S} (l : list A) (body : S -> A -> M S) x :
  In x l -> (forall s w, raises (body s x) w) ->
  forall s w, raises (for_each l body s) w.
Proof.
  intros Hin Hx. induction l as [|y l IH]; [done|]. intros s w. cbn.
  apply raises_bind. destruct Hin as [->|Hin].
  - left. apply Hx.
  - destruct (res (body s y w)) as [s'|e] eqn:E.
    + right. exists s'. split; [done|]. by apply IH.
    + left. by exists e.
Qed.

Lemma range_In a b i : In i (Py.range a b) <-> a <= i < b.
Proof.
  unfold Py.range. rewrite in_map_iff. split.
  - intros (n & <- & Hn%in_seq). lia.
  - intros H. exists (Z.to_nat (i - a)). split; [lia|]. apply in_seq. lia.
Qed.

(** ** What the read-only parts of the server keep *)

Section ReadOnly.

Context {P : Platform} {L : Libraries}.
Context (R : relation World) `{!PreOrder R}.

Lemma keeps_open_pdf p : keeps R (open_pdf p).
Proof. unfold open_pdf. keeps_auto. Qed.

Lemma keeps_call_convert p a b : keeps R (call_convert_from_path p a b).
Proof.
  intros w. unfold call_convert_from_path.
  destruct (fs w !! p) as [[|[] ? ?]|]; reflexivity.
Qed.

Lemma keeps_image_to_string i : keeps R (call_image_to_string i).
Proof. unfold call_image_to_string. keeps_auto. Qed.

Hint Resolve keeps_open_pdf keeps_call_convert keeps_image_to_string : keeps.

Lemma keeps_extract_text_with_ocr p pn : keeps R (extract_text_with_ocr p pn).
Proof.
  unfold extract_text_with_ocr, requested_images, ocr_pages. keeps_auto.
Qed.

Lemma keeps_has_extractable_text p k : keeps R (has_extractable_text p k).
Proof. unfold has_extractable_text. keeps_auto. Qed.

Lemma keeps_regular_extraction p pn : keeps R (regular_extraction p pn).
Proof. unfold regular_extraction. keeps_auto. Qed.

Lemma keeps_get_cache_file_path p : keeps R (get_cache_file_path p).
Proof. unfold get_cache_file_path, get_pdf_hash. keeps_auto. Qed.

Hint Resolve keeps_get_cache_file_path : keeps.

Lemma keeps_load_cached_text p : keeps R (load_cached_text p).
Proof. unfold load_cached_text. keeps_auto. Qed.

End ReadOnly.

#[local] Hint Resolve keeps_open_pdf keeps_call_convert keeps_image_to_string
  keeps_extract_text_with_ocr keeps_has_extractable_text keeps_regular_extraction
  keeps_get_cache_file_path keeps_load_cached_text : keeps.

(** ** The scan classifier *)

Section Classifier.

Context {P : Platform} {L : Libraries}.

(** The classification meets an error: the file does not open, it does not
    parse as a PDF, or a sampled page fails to give its text. *)
Inductive classification_error (file_path : string) (w : World) : Prop :=
| open_error e :
    res (IO.read_bytes file_path w) = Raise e ->
    classification_error file_path w
| parse_error data e :
    res (IO.read_bytes file_path w) = Ok data ->
    PdfReader data = Raise e ->
    classification_error file_path w
| page_error data pages i e :
    res (IO.read_bytes file_path w) = Ok data ->
    PdfReader data = Ok pages ->
    0 <= i < Z.min 3 (Z.of_nat (List.length pages)) ->
    Py.index pages i = Some (Raise e) ->
    classification_error file_path w.

(** The classifier returns on every input and changes nothing. *)
Lemma has_extractable_text_total file_path sample_pages w :
  exists b, res (has_extractable_text file_path sample_pages w) = Ok b
            /\ world_after (has_extractable_text file_path sample_pages w) = w.
Proof.
  pose proof (keeps_has_extractable_text unchanged file_path sample_pages w) as Hw.
  unfold has_extractable_text in *. unfold try_except in *.
  match goal with |- context [match ?m w with _ => _ end] => destruct (m w) as [[[b|e] w1] t1] end;
    cbn in *; eauto.
Qed.

Lemma open_pdf_raises file_path w :
  (exists e, res (IO.read_bytes file_path w) = Raise e) \/
  (exists data e, res (IO.read_bytes file_path w) = Ok data /\ PdfReader data = Raise e) ->
  raises (open_pdf file_path) w.
Proof.
  intros H. unfold open_pdf. apply raises_bind.
  destruct H as [[e He]|(data & e & Hd & He)]; [left; by exists e|].
  right. exists data. split; [done|]. apply raises_bind. right. exists tt. split; [done|].
  exists e. cbn. by rewrite He.
Qed.

Lemma open_pdf_ok file_path w data pages :
  res (IO.read_bytes file_path w) = Ok data -> PdfReader data = Ok pages ->
  open_pdf file_path w = (Ok pages, w, [EvRead file_path; EvPdfReader file_path]).
Proof.
  unfold open_pdf, IO.read_bytes, bind, emit, lift. intros Hd Hp.
  destruct (fs w !! file_path) as [[|[] ? ?]|]; cbn in Hd; try done.
  injection Hd as ->. by rewrite Hp.
Qed.

(** OCR begins by calling pdf2image. *)
Lemma extract_text_with_ocr_converts file_path page_numbers w :
  exists t, events (extract_text_with_ocr file_path page_numbers w)
            = EvConvert file_path :: t.
Proof.
  assert (Hc : forall a b, exists t,
             events (call_convert_from_path file_path a b w) = EvConvert file_path :: t).
  { intros a b. unfold call_convert_from_path.
    destruct (fs w !! file_path) as [[|[] ? ?]|]; cbn; eauto. }
  unfold extract_text_with_ocr. do 2 first_events.
  destruct page_numbers as [[|p0 rest]|].
  - destruct (Hc None None) as [tc ->]. cbn. eauto.
  - first_events.
    destruct (Hc (Some (Py.min_list p0 rest)) (Some (Py.max_list p0 rest))) as [tc ->].
    cbn. eauto.
  - destruct (Hc None None) as [tc ->]. cbn. eauto.
Qed.

Lemma try_raises_ret {A} (m : M A) (a : A) w :
  raises m w -> res (try_except m (fun _ => ret a) w) = Ok a.
Proof.
  intros [e He]. unfold try_except. destruct (m w) as [[[x|e'] w1] t1]; cbn in *; done.
Qed.

Lemma classification_error_false file_path w :
  classification_error file_path w ->
  res (has_extractable_text file_path 3 w) = Ok false.
Proof.
  intros H. unfold has_extractable_text. apply try_raises_ret.
  destruct H as [e He|data e Hd He|data pages i e Hd Hp Hi Hpage].
  - apply raises_bind. left. apply open_pdf_raises. eauto.
  - apply raises_bind. left. apply open_pdf_raises. eauto.
  - apply raises_bind. right. exists pages.
    rewrite (open_pdf_ok _ _ _ _ Hd Hp). split; [done|]. cbn.
    apply raises_bind. left. apply for_each_raises with (x := i).
    + by apply range_In.
    + intros s w'. rewrite Hpage. by exists e.
Qed.

(** C10: has_extractable_text is total over failing inputs.  Whenever
    opening the file, parsing it as a PDF or taking the text of a sampled
    page raises, the classifier returns False and leaves the world as it
    was; the body of the try of extract_pdf_text then goes on exactly as its
    OCR branch does (OCR, the cache file for a full document, the
    in-memory cache), after the events of the classification. *)
Theorem has_extractable_text_fails_soft file_path page_numbers w :
  classification_error file_path w ->
  res (has_extractable_text file_path 3 w) = Ok false /\
  world_after (has_extractable_text file_path 3 w) = w /\
  let ocr_branch :=
    (full_text <- ocr_and_save file_path page_numbers ;;
     cache_in_memory (cache_key file_path page_numbers) full_text ;;;
     ret full_text) w in
  let o := live_extraction file_path page_numbers false w in
  res o = res ocr_branch /\
  world_after o = world_after ocr_branch /\
  events o = (events (has_extractable_text file_path 3 w) ++ events ocr_branch)%list /\
  In (EvConvert file_path) (events o).
Proof.
  intros H. pose proof (classification_error_false _ _ H) as Hres.
  destruct (has_extractable_text_total file_path 3 w) as (b & Hb & Hw).
  split; [done|]. split; [done|]. cbn zeta.
  unfold live_extraction. cbn [negb].
  rewrite (bind_ok _ _ w false w (events (has_extractable_text file_path 3 w))).
  2:{ rewrite (outcome_eta (has_extractable_text file_path 3 w)). by rewrite Hres, Hw. }
  cbn [res world_after events fst snd].
  split; [done|]. split; [done|]. split; [done|].
  apply in_or_app. right.
  first_events. unfold ocr_and_save. first_events.
  destruct (extract_text_with_ocr_converts file_path page_numbers w) as [tc ->].
  by left.
Qed.

End Classifier.

(** A file that is not a PDF: the classifier says False, and OCR is tried. *)
Lemma has_extractable_text_fails_soft_witness :
  let _ := Demo.platform in
  let _ := Demo.libraries in
  let file_path := "C:\Users\Admin\Desktop\HOA\pdfs\notes.pdf" in
  let w := Demo.world [(file_path, "plain text")] in
  classification_error file_path w /\
  res (has_extractable_text file_path 3 w) = Ok false.
Proof.
  cbn zeta.
  assert (H : @classification_error Demo.libraries
                "C:\Users\Admin\Desktop\HOA\pdfs\notes.pdf"
                (Demo.world [("C:\Users\Admin\Desktop\HOA\pdfs\notes.pdf", "plain text")])).
  { eapply parse_error with (data := "plain text"); vm_compute; reflexivity. }
  split; [exact H|].
  exact (proj1 (@has_extractable_text_fails_soft Demo.platform Demo.libraries _ None _ H)).
Defined.

(** ** The path guard *)

Section PathGuard.

Context {P : Platform} {L : Libraries}.

(** The failure of [extract_pdf_text] on a path that is not allowed:
    existence is checked first. *)
Definition guard_error (file_path : string) (w : World) : exn :=
  if bool_decide (is_Some (fs w !! file_path))
  then Exn PermissionError ("Access denied to file: " ++ file_path)
  else Exn FileNotFoundError ("PDF file not found: " ++ file_path).

Lemma extract_pdf_text_not_allowed file_path page_numbers force_ocr w :
  is_path_allowed file_path = false ->
  extract_pdf_text file_path page_numbers force_ocr w
  = (Raise (guard_error file_path w), w, []).
Proof.
  intros H. unfold extract_pdf_text. rewrite H.
  unfold guard_error, bind, IO.exists_.
  by destruct (bool_decide (is_Some (fs w !! file_path))).
Qed.

(** C4, as the code has it: a path that [is_path_allowed] refuses is never
    read.  [extract_pdf_text] raises PermissionError when the path exists
    and FileNotFoundError when it does not, with no event and no change of
    the world; read_pdf and search_pdf_content return that failure as their
    text; [find_pdf_files] on such a directory skips it and returns the empty
    list. *)
Theorem refused_path_is_not_read file_path page_numbers force_ocr term case_sensitive w :
  is_path_allowed file_path = false ->
  file_path <> "" -> term <> "" ->
  extract_pdf_text file_path page_numbers force_ocr w
  = (Raise (guard_error file_path w), w, []) /\
  read_pdf (Some file_path) page_numbers force_ocr w
  = (Ok ("Error reading PDF file '" ++ file_path ++ "': "
         ++ exn_str (guard_error file_path w)), w, []) /\
  search_pdf_content (Some file_path) (Some term) case_sensitive w
  = (Ok ("Error searching PDF file '" ++ file_path ++ "': "
         ++ exn_str (guard_error file_path w)), w, []) /\
  find_pdf_files (Some file_path) w = (Ok [], w, []).
Proof.
  intros H Hp Ht.
  destruct file_path as [|c p]; [done|]. destruct term as [|c' t]; [done|].
  split; [by apply extract_pdf_text_not_allowed|]. split; [|split].
  - unfold read_pdf, try_except, bind.
    by rewrite (extract_pdf_text_not_allowed _ _ _ _ H).
  - unfold search_pdf_content, try_except, bind.
    by rewrite (extract_pdf_text_not_allowed _ _ _ _ H).
  - unfold find_pdf_files, for_each. rewrite H. unfold bind, IO.exists_.
    by destruct (bool_decide (is_Some (fs w !! String c p))).
Qed.

End PathGuard.

(** A sibling of the allowed directory whose name starts like it. *)
Definition sibling_pdf : string := "C:\Users\Admin\Desktop\HOA\pdfs_private\x.pdf".

(** A directory holds a path: the path is the directory or lies below it. *)
Definition inside_directory (directory path : string) : bool :=
  let directory := ntpath.abspath "C:\work" directory in
  let path := ntpath.abspath "C:\work" path in
  String.eqb path directory || ntpath.under directory path.

(** C9: [is_path_allowed] is a prefix test on the absolute path strings with
    no separator after the root.  The file x.pdf of the directory
    pdfs_private, next to the allowed directory pdfs, is in no allowed
    directory and is allowed; extract_pdf_text, read_pdf and
    search_pdf_content read it. *)
Theorem is_path_allowed_by_string_prefix :
  let P := Demo.platform in
  let L := Demo.libraries in
  let w := Demo.world [(sibling_pdf, "%PDF|Tminutes of the board")] in
  (forall file_path,
     is_path_allowed file_path
     = existsb (fun allowed_dir => Str.startswith (abspath file_path) (abspath allowed_dir))
               ALLOWED_PDF_DIRECTORIES) /\
  forallb (fun allowed_dir => negb (inside_directory allowed_dir sibling_pdf))
          ALLOWED_PDF_DIRECTORIES = true /\
  is_path_allowed sibling_pdf = true /\
  In (EvRead sibling_pdf) (events (extract_pdf_text sibling_pdf None false w)) /\
  res (extract_pdf_text sibling_pdf None false w)
  = Ok ("--- Page 1 (OCR) ---" ++ Str.LF ++ "minutes of the board" ++ Str.LF) /\
  res (read_pdf (Some sibling_pdf) None false w)
  = Ok ("Content from PDF file: " ++ sibling_pdf ++ Str.LF ++ Str.LF
        ++ "--- Page 1 (OCR) ---" ++ Str.LF ++ "minutes of the board" ++ Str.LF) /\
  res (search_pdf_content (Some sibling_pdf) (Some "board") false w)
  = Ok ("Found 1 matches for 'board' in " ++ sibling_pdf ++ ":" ++ Str.LF ++ Str.LF
        ++ "Line 2: --- page 1 (ocr) --- minutes of the board ").
Proof.
  cbn zeta. split; [reflexivity|].
  split; [vm_compute; reflexivity|]. split; [vm_compute; reflexivity|].
  split; [vm_compute; tauto|]. split; [vm_compute; reflexivity|].
  split; vm_compute; reflexivity.
Qed.

(** A path outside the allowed directory that does not exist: the failure
    of extract_pdf_text is FileNotFoundError, not PermissionError; and
    listing a directory outside the allowed one fails with nothing. *)
Lemma refused_path_without_permission_error :
  let P := Demo.platform in
  let L := Demo.libraries in
  let w := mkWorld {["C:\Temp" := Dir true]} ∅ in
  is_path_allowed "C:\Temp\missing.pdf" = false /\
  is_path_allowed "C:\Temp" = false /\
  res (extract_pdf_text "C:\Temp\missing.pdf" None false w)
  = Raise (Exn FileNotFoundError "PDF file not found: C:\Temp\missing.pdf") /\
  (forall e, res (extract_pdf_text "C:\Temp\missing.pdf" None false w) = Raise e ->
             exn_cls e <> PermissionError) /\
  res (find_pdf_files (Some "C:\Temp") w) = Ok [].
Proof.
  cbn zeta. split; [vm_compute; reflexivity|]. split; [vm_compute; reflexivity|].
  split; [vm_compute; reflexivity|]. split; [|vm_compute; reflexivity].
  intros e. vm_compute. intros [= <-]. discriminate.
Qed.

Lemma refused_path_is_not_read_witness :
  let P := Demo.platform in
  let L := Demo.libraries in
  let file_path := "C:\Temp\secret.pdf" in
  let w := mkWorld {[file_path := File true true "%PDF|Tsalaries"]} ∅ in
  is_path_allowed file_path = false /\
  extract_pdf_text file_path None false w
  = (Raise (Exn PermissionError "Access denied to file: C:\Temp\secret.pdf"), w, []).
Proof.
  cbn zeta. split; [vm_compute; reflexivity|].
  refine (proj1 (@refused_path_is_not_read Demo.platform Demo.libraries
                   "C:\Temp\secret.pdf" None false "salaries" false _ _ _ _));
    [vm_compute; reflexivity|discriminate|discriminate].
Defined.

(** ** What the writing parts of the server keep *)

(** A relation that holds across the creation or replacement of a file. *)
Class WriteTolerant (R : relation World) : Prop :=
  write_tolerant : forall w path data,
    R w (mkWorld (<[path := IO.overwritten (fs w !! path) data]> (fs w)) (pdf_cache w)).

#[local] Instance same_cache_write : WriteTolerant same_cache.
Proof. by intros w path data. Qed.

#[local] Instance files_stay_write : WriteTolerant files_stay.
Proof.
  intros w path data q. cbn.
  destruct (decide (path = q)) as [->|Hne].
  - rewrite lookup_insert_eq. split; [eauto|].
    by destruct (fs w !! q) as [[|[] ? ?]|].
  - by rewrite lookup_insert_ne.
Qed.

(** The dictionary is as before, or it held fewer than 10 entries and now
    has [key] bound as well. *)
Definition admits (key : string) : relation World := fun w w' =>
  pdf_cache w' = pdf_cache w \/
  ((size (pdf_cache w) < 10)%nat /\ exists text, pdf_cache w' = <[key := text]> (pdf_cache w)).

#[local] Instance admits_preorder key : PreOrder (admits key).
Proof.
  split; [by left|].
  intros w1 w2 w3 [H1|[Hs1 [t1 H1]]] [H2|[Hs2 [t2 H2]]]; unfold admits.
  - left. congruence.
  - right. rewrite H1 in Hs2, H2. eauto.
  - right. split; [done|]. exists t1. congruence.
  - right. split; [done|]. exists t2. rewrite H2, H1. by rewrite insert_insert_eq.
Qed.

#[local] Instance admits_write key : WriteTolerant (admits key).
Proof. intros w path data. by left. Qed.

Section Writes.

Context {P : Platform} {L : Libraries}.
Context (R : relation World) `{!PreOrder R} `{!WriteTolerant R}.

Lemma keeps_write_text path text : keeps R (IO.write_text path text).
Proof.
  intros w. unfold IO.write_text.
  destruct (IO.write_error (fs w) path); [reflexivity|]. apply write_tolerant.
Qed.

Hint Resolve keeps_write_text : keeps.

Lemma keeps_save_cached_text file_path text : keeps R (save_cached_text file_path text).
Proof. unfold save_cached_text. keeps_auto. Qed.

Hint Resolve keeps_save_cached_text : keeps.

Lemma keeps_ocr_and_save file_path page_numbers :
  keeps R (ocr_and_save file_path page_numbers).
Proof. unfold ocr_and_save. keeps_auto. Qed.

End Writes.

#[local] Hint Resolve keeps_write_text keeps_save_cached_text keeps_ocr_and_save : keeps.

Section MemoryCache.

Context {P : Platform} {L : Libraries}.

Lemma keeps_cache_in_memory key text : keeps (admits key) (cache_in_memory key text).
Proof.
  intros w. unfold cache_in_memory.
  destruct (size (pdf_cache w) <? 10)%nat eqn:E; cbn; [|by left].
  right. apply Nat.ltb_lt in E. eauto.
Qed.

Hint Resolve keeps_cache_in_memory : keeps.

(** One call changes [pdf_cache] by one admission under its own key at most. *)
Lemma extract_pdf_text_admits file_path page_numbers force_ocr :
  keeps (admits (cache_key file_path page_numbers))
        (extract_pdf_text file_path page_numbers force_ocr).
Proof.
  unfold extract_pdf_text, live_extraction, ocr_fallback. keeps_auto.
Qed.

End MemoryCache.

(** ** The orchestration, case by case *)

(** An outcome after earlier events. *)
Definition after {A} (t : list event) (o : result A * World * list event)
  : result A * World * list event :=
  (res o, world_after o, (t ++ events o)%list).

Lemma after_eta {A} (t1 : list event) (o : result A * World * list event) :
  (let '(r, w2, t2) := o in (r, w2, (t1 ++ t2)%list)) = after t1 o.
Proof. by destruct o as [[r w2] t2]. Qed.

Lemma after_nil {A} (o : result A * World * list event) : after [] o = o.
Proof. by destruct o as [[r w2] t2]. Qed.

Section Orchestration.

Context {P : Platform} {L : Libraries}.

(** The lookup in the cache file: only for a full document without
    [force_ocr]. *)
Definition persistent_lookup (file_path : string) (page_numbers : option (list Z))
    (force_ocr : bool) : M (option string) :=
  if negb (Py.truthy page_numbers) && negb force_ocr
  then load_cached_text file_path else ret None.

Lemma persistent_lookup_unchanged file_path page_numbers force_ocr w :
  world_after (persistent_lookup file_path page_numbers force_ocr w) = w.
Proof.
  unfold persistent_lookup.
  destruct (negb (Py.truthy page_numbers) && negb force_ocr); [|done].
  apply (keeps_load_cached_text unchanged).
Qed.

(** [extract_pdf_text] unfolded: the two guards, the cache file, the
    dictionary, and then the [try] with its [except]. *)
Lemma extract_pdf_text_cases file_path page_numbers force_ocr w :
  extract_pdf_text file_path page_numbers force_ocr w =
  if negb (bool_decide (is_Some (fs w !! file_path)))
  then (Raise (Exn FileNotFoundError ("PDF file not found: " ++ file_path)), w, [])
  else if negb (is_path_allowed file_path)
  then (Raise (Exn PermissionError ("Access denied to file: " ++ file_path)), w, [])
  else
    let o := persistent_lookup file_path page_numbers force_ocr w in
    match res o with
    | Raise e => (Raise e, w, events o)
    | Ok (Some ((String _ _) as text)) => (Ok (cached_marker ++ text), w, events o)
    | Ok _ =>
        match pdf_cache w !! cache_key file_path page_numbers, force_ocr with
        | Some text, false => (Ok text, w, events o)
        | _, _ =>
            after (events o)
              (try_except (live_extraction file_path page_numbers force_ocr)
                          (ocr_fallback file_path page_numbers force_ocr) w)
        end
    end.
Proof.
  unfold extract_pdf_text. unfold bind at 1. unfold IO.exists_ at 1.
  destruct (negb (bool_decide (is_Some (fs w !! file_path)))); [done|].
  destruct (negb (is_path_allowed file_path)); [done|].
  fold (persistent_lookup file_path page_numbers force_ocr).
  pose proof (persistent_lookup_unchanged file_path page_numbers force_ocr w) as Hw.
  cbn zeta. unfold bind at 1.
  destruct (persistent_lookup file_path page_numbers force_ocr w) as [[[c|e] w1] t1];
    cbn in Hw |- *; subst w1; [|done].
  assert (Hrest :
    (w0 <- get_world ;;
     match pdf_cache w0 !! cache_key file_path page_numbers, force_ocr with
     | Some text, false => ret text
     | _, _ => try_except (live_extraction file_path page_numbers force_ocr)
                          (ocr_fallback file_path page_numbers force_ocr)
     end) w
    = match pdf_cache w !! cache_key file_path page_numbers, force_ocr with
      | Some text, false => (Ok text, w, [])
      | _, _ => try_except (live_extraction file_path page_numbers force_ocr)
                           (ocr_fallback file_path page_numbers force_ocr) w
      end).
  { unfold bind, get_world. rewrite after_eta, after_nil.
    by destruct (pdf_cache w !! cache_key file_path page_numbers) as [text|], force_ocr. }
  rewrite after_eta.
  destruct c as [[|ch text]|]; cbn [res events fst snd]; rewrite ?Hrest;
    try (destruct (pdf_cache w !! cache_key file_path page_numbers) as [text'|], force_ocr);
    try reflexivity; unfold after, ret; cbn [res world_after events fst snd];
    by rewrite app_nil_r.
Qed.

End Orchestration.

(** ** The in-memory cache *)

Section CacheBound.

Context {P : Platform} {L : Libraries}.

(** The worlds of a run of the server: [pdf_cache] starts empty over any
    files; a step is a call of [extract_pdf_text] (read_pdf and
    search_pdf_content make one) or a change of the files from outside. *)
Inductive reachable : World -> Prop :=
| reach_start files : reachable (mkWorld files ∅)
| reach_extract w file_path page_numbers force_ocr :
    reachable w ->
    reachable (world_after (extract_pdf_text file_path page_numbers force_ocr w))
| reach_files w files :
    reachable w -> reachable (mkWorld files (pdf_cache w)).

Lemma admits_size key w w' :
  admits key w w' -> (size (pdf_cache w) <= 10)%nat -> (size (pdf_cache w') <= 10)%nat.
Proof.
  intros [->|[Hs [text ->]]] Hle; [done|].
  destruct (pdf_cache w !! key) as [v|] eqn:E.
  - rewrite map_size_insert_Some; [lia|eauto].
  - rewrite map_size_insert_None; [lia|done].
Qed.

Lemma reachable_bounded w : reachable w -> (size (pdf_cache w) <= 10)%nat.
Proof.
  induction 1 as [files|w file_path page_numbers force_ocr _ IH|w files _ IH]; cbn.
  - rewrite map_size_empty. lia.
  - eapply admits_size; [apply extract_pdf_text_admits|done].
  - done.
Qed.

(** Without [force_ocr] a bound key is returned, not written. *)
Lemma extract_pdf_text_hit_keeps_cache file_path page_numbers w text :
  pdf_cache w !! cache_key file_path page_numbers = Some text ->
  pdf_cache (world_after (extract_pdf_text file_path page_numbers false w)) = pdf_cache w.
Proof.
  intros H. rewrite extract_pdf_text_cases, H.
  destruct (negb _); [done|]. destruct (negb _); [done|]. cbn zeta.
  by destruct (res _) as [[[|? ?]|]|].
Qed.

(** C8, as the code has it: in every world of a run [pdf_cache] holds at
    most 10 entries; a call of extract_pdf_text evicts nothing, touches no
    key but its own, replaces no entry unless [force_ocr] is given, and
    leaves the dictionary as it is once 10 entries are held; a change is the
    binding of the call's own key in a dictionary of fewer than 10
    entries. *)
Theorem pdf_cache_first_ten file_path page_numbers force_ocr w :
  reachable w ->
  let w' := world_after (extract_pdf_text file_path page_numbers force_ocr w) in
  (size (pdf_cache w) <= 10)%nat /\ (size (pdf_cache w') <= 10)%nat /\
  (forall key, is_Some (pdf_cache w !! key) -> is_Some (pdf_cache w' !! key)) /\
  (forall key, key <> cache_key file_path page_numbers ->
               pdf_cache w' !! key = pdf_cache w !! key) /\
  (force_ocr = false ->
   forall key text, pdf_cache w !! key = Some text -> pdf_cache w' !! key = Some text) /\
  ((10 <= size (pdf_cache w))%nat -> pdf_cache w' = pdf_cache w) /\
  (pdf_cache w' <> pdf_cache w ->
   (size (pdf_cache w) < 10)%nat /\
   exists text, pdf_cache w' = <[cache_key file_path page_numbers := text]> (pdf_cache w)).
Proof.
  intros Hr w'. pose proof (reachable_bounded w Hr) as Hle.
  pose proof (extract_pdf_text_admits file_path page_numbers force_ocr w) as Ha.
  fold w' in Ha. split; [done|]. split; [by eapply admits_size|].
  split; [|split; [|split; [|split]]].
  - intros key Hk. destruct Ha as [->|[_ [text ->]]]; [done|].
    rewrite lookup_insert_is_Some. destruct (decide (cache_key file_path page_numbers = key)); auto.
  - intros key Hk. destruct Ha as [->|[_ [text ->]]]; [done|].
    by rewrite lookup_insert_ne.
  - intros -> key text Hk.
    destruct (decide (key = cache_key file_path page_numbers)) as [->|Hne].
    + unfold w'. by rewrite (extract_pdf_text_hit_keeps_cache _ _ _ _ Hk).
    + destruct Ha as [->|[_ [text' ->]]]; [done|]. by rewrite lookup_insert_ne.
  - intros Hfull. destruct Ha as [->|[Hlt _]]; [done|lia].
  - intros Hne. by destruct Ha as [Heq|Ha].
Qed.

End CacheBound.

(** A text PDF of one page. *)
Definition minutes_pdf : string := "C:\Users\Admin\Desktop\HOA\pdfs\minutes.pdf".
Definition minutes_data : string :=
  "%PDF|TThe annual meeting of the home owners association was called to order at 7 pm.".

(** After a direct extraction a call with [force_ocr] binds the same key to
    the OCR text: the entry is replaced. *)
Lemma force_ocr_replaces_entry :
  let P := Demo.platform in
  let L := Demo.libraries in
  let w0 := Demo.world [(minutes_pdf, minutes_data)] in
  let w1 := world_after (extract_pdf_text minutes_pdf None false w0) in
  let w2 := world_after (extract_pdf_text minutes_pdf None true w1) in
  let key := cache_key minutes_pdf None in
  let text := "The annual meeting of the home owners association was called to order at 7 pm." in
  pdf_cache w1 !! key = Some ("--- Page 1 ---" ++ Str.LF ++ text ++ Str.LF) /\
  pdf_cache w2 !! key = Some ("--- Page 1 (OCR) ---" ++ Str.LF ++ text ++ Str.LF) /\
  ~ (forall k v, pdf_cache w1 !! k = Some v -> pdf_cache w2 !! k = Some v).
Proof.
  cbn zeta.
  assert (H1 : pdf_cache (world_after (@extract_pdf_text Demo.platform Demo.libraries
                 minutes_pdf None false (Demo.world [(minutes_pdf, minutes_data)])))
               !! @cache_key minutes_pdf None
               = Some ("--- Page 1 ---" ++ Str.LF
                       ++ "The annual meeting of the home owners association was called to order at 7 pm."
                       ++ Str.LF)) by (vm_compute; reflexivity).
  split; [exact H1|]. split; [vm_compute; reflexivity|].
  intros H. specialize (H _ _ H1). vm_compute in H. discriminate.
Qed.

Lemma pdf_cache_first_ten_witness :
  let P := Demo.platform in
  let L := Demo.libraries in
  let w0 := Demo.world [(minutes_pdf, minutes_data)] in
  reachable w0 /\
  (size (pdf_cache (world_after (extract_pdf_text minutes_pdf None false w0))) <= 10)%nat.
Proof.
  cbn zeta.
  assert (H : @reachable Demo.platform Demo.libraries
                (Demo.world [(minutes_pdf, minutes_data)])) by apply reach_start.
  split; [exact H|].
  exact (proj1 (proj2 (@pdf_cache_first_ten Demo.platform Demo.libraries
                         minutes_pdf None false _ H))).
Defined.

(** ** The OCR fallback *)

Lemma outcome_of {A} (m : M A) w r :
  res (m w) = r -> world_after (m w) = w -> m w = (r, w, events (m w)).
Proof. intros <- Hw. rewrite (outcome_eta (m w)) at 1. by rewrite Hw. Qed.

Section Fallback.

Context {P : Platform} {L : Libraries}.

(** Neither cache answers the request. *)
Definition misses_caches (file_path : string) (page_numbers : option (list Z))
    (w : World) : Prop :=
  (res (persistent_lookup file_path page_numbers false w) = Ok None \/
   res (persistent_lookup file_path page_numbers false w) = Ok (Some "")) /\
  pdf_cache w !! cache_key file_path page_numbers = None.

(** On a miss of both caches the call is the [try] with its [except]. *)
Lemma extract_pdf_text_miss file_path page_numbers w :
  is_Some (fs w !! file_path) -> is_path_allowed file_path = true ->
  misses_caches file_path page_numbers w ->
  extract_pdf_text file_path page_numbers false w
  = after (events (persistent_lookup file_path page_numbers false w))
      (try_except (live_extraction file_path page_numbers false)
                  (ocr_fallback file_path page_numbers false) w).
Proof.
  intros Hex Hal [Hp Hm]. rewrite extract_pdf_text_cases.
  rewrite bool_decide_eq_true_2 by done. rewrite Hal, Hm. cbn [negb]. cbn zeta.
  by destruct Hp as [-> | ->].
Qed.

(** A file that the classifier could read gets its cache file path. *)
Lemma classified_is_readable file_path k w :
  res (has_extractable_text file_path k w) = Ok true ->
  exists data, IO.read_bytes file_path w = (Ok data, w, [EvRead file_path]).
Proof.
  unfold has_extractable_text, try_except, open_pdf, IO.read_bytes.
  unfold bind at 1 2.
  destruct (fs w !! file_path) as [[|[] wr data]|]; cbn; try discriminate.
  intros _. by exists data.
Qed.

Lemma save_cached_text_returns file_path text w data :
  IO.read_bytes file_path w = (Ok data, w, [EvRead file_path]) ->
  res (save_cached_text file_path text w) = Ok tt.
Proof.
  intros Hd. unfold save_cached_text, get_cache_file_path, get_pdf_hash.
  unfold bind at 1 2 3. rewrite Hd. cbn.
  unfold try_except, IO.write_text.
  by destruct (IO.write_error _ _).
Qed.

Lemma ocr_and_save_res file_path page_numbers w data :
  IO.read_bytes file_path w = (Ok data, w, [EvRead file_path]) ->
  res (ocr_and_save file_path page_numbers w)
  = res (extract_text_with_ocr file_path page_numbers w).
Proof.
  intros Hd. unfold ocr_and_save. unfold bind at 1.
  pose proof (keeps_extract_text_with_ocr unchanged file_path page_numbers w) as Hw.
  unfold unchanged in Hw.
  destruct (extract_text_with_ocr file_path page_numbers w) as [[[t|e] w1] t1];
    cbn in Hw |- *; [subst w1|done].
  rewrite after_eta. unfold bind.
  destruct (negb (Py.truthy page_numbers)); [|done].
  pose proof (save_cached_text_returns file_path t w data Hd) as Hs.
  by destruct (save_cached_text file_path t w) as [[[[]|e] w2] t2].
Qed.

(** C7: when neither cache answers, the classifier chooses direct
    extraction and direct extraction raises [e], OCR is tried; its text is
    the result when it succeeds, and when it raises [ocr_error] the
    RuntimeError that is raised carries the text of both exceptions. *)
Theorem both_errors_are_reported file_path page_numbers w e :
  is_Some (fs w !! file_path) -> is_path_allowed file_path = true ->
  misses_caches file_path page_numbers w ->
  res (has_extractable_text file_path 3 w) = Ok true ->
  res (regular_extraction file_path page_numbers w) = Raise e ->
  res (extract_pdf_text file_path page_numbers false w) =
  match res (extract_text_with_ocr file_path page_numbers w) with
  | Ok ocr_text => Ok ocr_text
  | Raise ocr_error =>
      Raise (Exn RuntimeError
               ("Both regular extraction and OCR failed. Regular error: " ++ exn_str e
                ++ ", OCR error: " ++ exn_str ocr_error))
  end.
Proof.
  intros Hex Hal Hmiss Hcl Hreg.
  rewrite (extract_pdf_text_miss _ _ _ Hex Hal Hmiss). unfold after. cbn [res fst].
  destruct (classified_is_readable _ _ _ Hcl) as [data Hd].
  assert (Hlive : exists t, live_extraction file_path page_numbers false w = (Raise e, w, t)).
  { unfold live_extraction. cbn [negb].
    rewrite (bind_ok _ _ w true w (events (has_extractable_text file_path 3 w))).
    2:{ apply outcome_of; [done|]. apply (keeps_has_extractable_text unchanged). }
    rewrite (bind_raise _ _ w e w (events (regular_extraction file_path page_numbers w))).
    2:{ apply outcome_of; [done|]. apply (keeps_regular_extraction unchanged). }
    cbn. eauto. }
  destruct Hlive as [t Hlive]. rewrite (try_raise _ _ _ _ _ _ Hlive). cbn [res fst].
  unfold ocr_fallback. cbn [negb]. unfold try_except.
  pose proof (ocr_and_save_res file_path page_numbers w data Hd) as Hocr.
  destruct (ocr_and_save file_path page_numbers w) as [[[text|ocr_error] w1] t1];
    cbn in Hocr; rewrite <- Hocr; reflexivity.
Qed.

End Fallback.

(** A PDF of four pages whose fourth page gives no text and which does not
    rasterise. *)
Definition broken_pdf : string := "C:\Users\Admin\Desktop\HOA\pdfs\broken.pdf".
Definition broken_data : string :=
  "%PDF!|TThe annual meeting of the home owners association was called to order at 7 pm."
  ++ "|TThe treasurer presented the budget for the coming year and answered questions."
  ++ "|TThe board voted to repave the parking lot and to renew the insurance policy."
  ++ "|Einvalid content stream".

Lemma both_errors_are_reported_witness :
  let P := Demo.platform in
  let L := Demo.libraries in
  let w := Demo.world [(broken_pdf, broken_data)] in
  is_path_allowed broken_pdf = true /\
  misses_caches broken_pdf None w /\
  res (has_extractable_text broken_pdf 3 w) = Ok true /\
  res (regular_extraction broken_pdf None w)
  = Raise (Exn LibraryError "invalid content stream") /\
  res (extract_text_with_ocr broken_pdf None w)
  = Raise (Exn RuntimeError "Error performing OCR on PDF: Unable to get page count.") /\
  res (extract_pdf_text broken_pdf None false w)
  = Raise (Exn RuntimeError
             ("Both regular extraction and OCR failed. Regular error: invalid content stream"
              ++ ", OCR error: Error performing OCR on PDF: Unable to get page count.")).
Proof.
  cbn zeta.
  assert (Hal : @is_path_allowed Demo.platform broken_pdf = true)
    by (vm_compute; reflexivity).
  assert (Hm : @misses_caches Demo.platform broken_pdf None
                 (Demo.world [(broken_pdf, broken_data)]))
    by (split; [left|]; vm_compute; reflexivity).
  assert (Hc : res (@has_extractable_text Demo.libraries broken_pdf 3
                      (Demo.world [(broken_pdf, broken_data)])) = Ok true)
    by (vm_compute; reflexivity).
  assert (Hr : res (@regular_extraction Demo.libraries broken_pdf None
                      (Demo.world [(broken_pdf, broken_data)]))
               = Raise (Exn LibraryError "invalid content stream"))
    by (vm_compute; reflexivity).
  assert (Ho : res (@extract_text_with_ocr Demo.libraries broken_pdf None
                      (Demo.world [(broken_pdf, broken_data)]))
               = Raise (Exn RuntimeError
                          "Error performing OCR on PDF: Unable to get page count."))
    by (vm_compute; reflexivity).
  split; [exact Hal|]. split; [exact Hm|]. split; [exact Hc|]. split; [exact Hr|].
  split; [exact Ho|].
  rewrite (@both_errors_are_reported Demo.platform Demo.libraries broken_pdf None
             (Demo.world [(broken_pdf, broken_data)])
             (Exn LibraryError "invalid content stream")
             ltac:(vm_compute; eauto) Hal Hm Hc Hr).
  by rewrite Ho.
Defined.

(** ** The cache file *)

Lemma le_bytes_length n x : List.length (MD5.le_bytes n x) = n.
Proof. revert x. induction n as [|n IH]; intros x; cbn; [done|]. by rewrite IH. Qed.

Lemma hex_length bs : String.length (MD5.hex bs) = (2 * List.length bs)%nat.
Proof. induction bs as [|b bs IH]; cbn; [done|]. rewrite IH. lia. Qed.

(** A digest has 32 hexadecimal digits. *)
Lemma hexdigest_length s : String.length (MD5.hexdigest s) = 32%nat.
Proof.
  unfold MD5.hexdigest, MD5.digest. rewrite hex_length.
  destruct (MD5.blocks _ _ _) as [[[a b] c] d].
  rewrite !length_app, !le_bytes_length. done.
Qed.

Lemma take_length n s :
  (n <= String.length s)%nat -> String.length (Str.take n s) = n.
Proof.
  revert s. induction n as [|n IH]; intros [|c s] H; cbn in *; try done; try lia.
  rewrite IH; [done|lia].
Qed.

Lemma string_length_app (s t : string) :
  String.length (s ++ t) = (String.length s + String.length t)%nat.
Proof. induction s as [|c s IH]; simpl; [done|]. by f_equal. Qed.

(** Two concatenations with left parts of the same length. *)
Lemma string_app_inj (s1 s2 t1 t2 : string) :
  String.length s1 = String.length s2 -> s1 ++ t1 = s2 ++ t2 -> s1 = s2 /\ t1 = t2.
Proof.
  revert s2. induction s1 as [|c s1 IH]; intros [|c' s2] Hl H; cbn in *; try done.
  injection H as -> H. destruct (IH s2) as [-> ->]; [lia|done|done].
Qed.

(** A text without carriage returns. *)
Fixpoint no_carriage_return (s : string) : bool :=
  match s with
  | EmptyString => true
  | String c s' => negb (Ascii.eqb c IO.CR) && no_carriage_return s'
  end.

(** Written in text mode with the line ending CR LF and read back, a text
    without carriage returns is itself. *)
Lemma text_mode_round_trip text :
  no_carriage_return text = true ->
  IO.universal_newlines
    (IO.translate_newlines (String IO.CR (String IO.NL EmptyString)) text) = text.
Proof.
  induction text as [|c text IH]; [done|]. cbn [no_carriage_return].
  intros [Hc Ht]%andb_true_iff. apply negb_true_iff in Hc.
  cbn [IO.translate_newlines]. destruct (Ascii.eqb c IO.NL) eqn:E.
  - apply Ascii.eqb_eq in E as ->.
    change (IO.universal_newlines
              (String IO.CR (String IO.NL
                 (IO.translate_newlines (String IO.CR (String IO.NL EmptyString)) text)))
            = String IO.NL text).
    cbn [IO.universal_newlines]. rewrite !Ascii.eqb_refl. by rewrite IH.
  - cbn [IO.universal_newlines]. rewrite Hc. by rewrite IH.
Qed.

(** The UTF-8 codec gives back what it was given. *)
Lemma utf8_round_trip text : IO.utf8_decode (IO.utf8_encode text) = Some text.
Proof.
  induction text as [|c text IH]; [done|].
  assert (Hc : IO.utf8_decode (IO.utf8_encode (String c text))
               = option_map (String c) (IO.utf8_decode (IO.utf8_encode text)))
    by (destruct c as [[] [] [] [] [] [] [] []]; reflexivity).
  by rewrite Hc, IH.
Qed.

Lemma decode_encode_text sep text :
  IO.decode_text (IO.encode_text sep text)
  = Some (IO.universal_newlines (IO.translate_newlines sep text)).
Proof. unfold IO.decode_text, IO.encode_text. by rewrite utf8_round_trip. Qed.

Section CacheFile.

Context {P : Platform}.

(** [os.path.splitext(os.path.basename(file_path))[0]]. *)
Definition pdf_name (file_path : string) : string := (splitext (basename file_path)).1.

(** [get_pdf_hash(file_path)[:8]] for a file with these bytes. *)
Definition file_hash (data : string) : string := Str.take 8 (MD5.hexdigest data).

Lemma file_hash_length data : String.length (file_hash data) = 8%nat.
Proof. unfold file_hash. apply take_length. rewrite hexdigest_length. lia. Qed.

Lemma get_cache_file_path_readable file_path w wr data :
  fs w !! file_path = Some (File true wr data) ->
  get_cache_file_path file_path w
  = (Ok (path_join (dirname file_path)
                   (cache_filename (pdf_name file_path) (file_hash data))),
     w, [EvRead file_path]).
Proof.
  intros H. unfold get_cache_file_path, get_pdf_hash, IO.read_bytes, bind. by rewrite H.
Qed.

Lemma cache_filename_inj name name' hash hash' :
  String.length hash = String.length hash' ->
  cache_filename name hash = cache_filename name' hash' -> name = name' /\ hash = hash'.
Proof.
  unfold cache_filename. intros Hl H.
  assert (Hn : String.length name = String.length name').
  { apply (f_equal String.length) in H. rewrite !string_length_app in H. lia. }
  apply string_app_inj in H as [-> H]; [|done].
  apply (string_app_inj "_ocr_" "_ocr_") in H as [_ H]; [|done].
  by apply string_app_inj in H as [-> _].
Qed.

End CacheFile.

(** ** The address of the cache file on Windows *)

(** A name that [os.path.join] appends to the directory: no separator at
    its start and no drive.  The name of a file on Windows has neither. *)
Definition plain_name (name : string) : bool :=
  negb (ntpath.starts_with_sep name) && String.eqb (ntpath.splitdrive name).1 "".

(** The drive and the path that [join(directory, name)] puts before a
    plain name. *)
Definition join_drive (directory : string) : string := (ntpath.splitdrive directory).1.

Definition join_path (directory : string) : string :=
  let path := (ntpath.splitdrive directory).2 in
  if negb (String.eqb path "") && negb (ntpath.ends_with_sep path)
  then path ++ ntpath.sep else path.

Lemma splitdrive_plain name :
  String.eqb (ntpath.splitdrive name).1 "" = true -> ntpath.splitdrive name = ("", name).
Proof.
  unfold ntpath.splitdrive. destruct name as [|a [|b name]]; try done.
  by destruct (Ascii.eqb b ":").
Qed.

Lemma join_plain directory name :
  plain_name name = true ->
  ntpath.join directory name = join_drive directory ++ join_path directory ++ name.
Proof.
  unfold plain_name. intros [Hsep Hdrive]%andb_true_iff. apply negb_true_iff in Hsep.
  unfold ntpath.join, join_drive, join_path.
  rewrite (splitdrive_plain _ Hdrive).
  destruct (ntpath.splitdrive directory) as [drive path]. cbn [fst snd].
  rewrite Hsep. reflexivity.
Qed.

Lemma append_cancel (s a b : string) : s ++ a = s ++ b -> a = b.
Proof. induction s as [|c s IH]; [done|]. intros [= H]. by apply IH. Qed.

Lemma join_plain_inj directory name name' :
  plain_name name = true -> plain_name name' = true ->
  ntpath.join directory name = ntpath.join directory name' -> name = name'.
Proof.
  intros H H'. rewrite !join_plain by done. intros E.
  by apply append_cancel, append_cancel in E.
Qed.

Lemma cache_filename_plain name hash :
  plain_name name = true -> plain_name (cache_filename name hash) = true.
Proof.
  unfold cache_filename. destruct name as [|a [|b name]]; try done.
  change (String a (String b name) ++ "_ocr_" ++ hash ++ ".txt")
    with (String a (String b (name ++ "_ocr_" ++ hash ++ ".txt"))).
  unfold plain_name. cbn. by destruct (Ascii.eqb b ":").
Qed.

Section CacheLookup.

Context {P : Platform} {L : Libraries}.

(** The lookup reads the PDF for its hash and then the file at the
    address: a cache file that cannot be opened or decoded is no cache
    file. *)
Lemma load_cached_text_at file_path w wr data :
  fs w !! file_path = Some (File true wr data) ->
  let cache_file :=
    path_join (dirname file_path) (cache_filename (pdf_name file_path) (file_hash data)) in
  load_cached_text file_path w
  = (Ok match fs w !! cache_file with
        | Some (File true _ cached) => IO.decode_text cached
        | _ => None
        end,
     w,
     EvRead file_path :: match fs w !! cache_file with
                         | Some (File true _ _) => [EvRead cache_file]
                         | _ => []
                         end).
Proof.
  intros Hf. cbn zeta. unfold load_cached_text.
  erewrite bind_ok by (by eapply get_cache_file_path_readable).
  set (cache_file := path_join _ _).
  unfold bind, IO.exists_, try_except, IO.read_text, IO.read_bytes, bind. cbn.
  destruct (fs w !! cache_file) as [[|[] ? cached]|] eqn:E.
  - rewrite bool_decide_eq_true_2 by eauto. by rewrite ?E.
  - rewrite bool_decide_eq_true_2 by eauto. rewrite ?E. cbn.
    by destruct (IO.decode_text cached).
  - rewrite bool_decide_eq_true_2 by eauto. by rewrite ?E.
  - rewrite bool_decide_eq_false_2; [done|]. by intros [? ?].
Qed.

(** The classifier opens a readable PDF with PyPDF2. *)
Lemma classifier_opens file_path k w wr data :
  fs w !! file_path = Some (File true wr data) ->
  exists t, events (has_extractable_text file_path k w)
            = EvRead file_path :: EvPdfReader file_path :: t.
Proof.
  intros Hf. unfold has_extractable_text. do 2 first_events.
  unfold open_pdf, bind, IO.read_bytes, emit, lift. rewrite Hf. cbn. eauto.
Qed.

End CacheLookup.

(** C1, as the code has it, on Windows: the cache file of a readable PDF
    is the file [<name>_ocr_<hash>.txt] of the PDF's directory, where <name>
    is the base name without its extension and <hash> the first 8
    hexadecimal digits of the MD5 of the bytes, and load_cached_text reads
    that file and no other.  For two PDFs of one directory, with file names
    as Windows allows them, the cache files are the same exactly when <name>
    and <hash> are the same.  With the same <name> and <hash> (the same
    bytes, for one) the lookup for the second PDF finds what is in the cache
    file of the first, and extract_pdf_text returns it without extraction.
    With another <name> or another <hash> the cache file is another one: if
    there is no such file the lookup finds nothing, and extract_pdf_text
    extracts afresh unless [pdf_cache] answers. *)
Theorem cache_file_by_directory_name_and_hash
    {L : Libraries} cwd file_path file_path' w w' wr wr' data data' :
  let P := windows cwd in
  fs w !! file_path = Some (File true wr data) ->
  fs w' !! file_path' = Some (File true wr' data') ->
  dirname file_path = dirname file_path' ->
  plain_name (pdf_name file_path) = true ->
  plain_name (pdf_name file_path') = true ->
  let cache_file :=
    path_join (dirname file_path) (cache_filename (pdf_name file_path) (file_hash data)) in
  let cache_file' :=
    path_join (dirname file_path')
              (cache_filename (pdf_name file_path') (file_hash data')) in
  res (get_cache_file_path file_path w) = Ok cache_file /\
  res (get_cache_file_path file_path' w') = Ok cache_file' /\
  res (load_cached_text file_path' w')
  = Ok match fs w' !! cache_file' with
       | Some (File true _ cached) => IO.decode_text cached
       | _ => None
       end /\
  (cache_file = cache_file' <->
   pdf_name file_path = pdf_name file_path' /\ file_hash data = file_hash data') /\
  (pdf_name file_path = pdf_name file_path' -> file_hash data = file_hash data' ->
   forall wrc cached c text,
     fs w' !! cache_file = Some (File true wrc cached) ->
     IO.decode_text cached = Some (String c text) ->
     res (load_cached_text file_path' w') = Ok (Some (String c text)) /\
     (is_path_allowed file_path' = true ->
      exists t,
        extract_pdf_text file_path' None false w'
        = (Ok (cached_marker ++ String c text), w', t) /\
        Forall (fun e => is_backend_call e = false) t)) /\
  (pdf_name file_path <> pdf_name file_path' \/ file_hash data <> file_hash data' ->
   cache_file <> cache_file' /\
   (fs w' !! cache_file' = None ->
    res (load_cached_text file_path' w') = Ok None /\
    (is_path_allowed file_path' = true ->
     pdf_cache w' !! cache_key file_path' None = None ->
     In (EvPdfReader file_path') (events (extract_pdf_text file_path' None false w'))))).
Proof.
  intros P Hf Hf' Hdir Hname Hname'. cbn zeta.
  set (cache_file := path_join (dirname file_path)
                       (cache_filename (pdf_name file_path) (file_hash data))).
  set (cache_file' := path_join (dirname file_path')
                        (cache_filename (pdf_name file_path') (file_hash data'))).
  assert (Hiff : cache_file = cache_file' <->
                 pdf_name file_path = pdf_name file_path' /\
                 file_hash data = file_hash data').
  { unfold cache_file, cache_file'. rewrite <- Hdir. split.
    - intros E. apply (join_plain_inj (dirname file_path)) in E;
        [|by apply cache_filename_plain..].
      apply cache_filename_inj in E; [done|]. by rewrite !file_hash_length.
    - by intros [-> ->]. }
  pose proof (load_cached_text_at file_path' w' wr' data' Hf') as Hload.
  cbn zeta in Hload. fold cache_file' in Hload.
  split; [by rewrite (get_cache_file_path_readable _ _ _ _ Hf)|].
  split; [by rewrite (get_cache_file_path_readable _ _ _ _ Hf')|].
  split; [by rewrite Hload|]. split; [exact Hiff|]. split.
  - intros Hn Hh wrc cached c text Hc Hd.
    rewrite (proj2 Hiff (conj Hn Hh)) in Hc.
    rewrite Hc, Hd in Hload. split; [by rewrite Hload|]. intros Hal.
    rewrite extract_pdf_text_cases.
    rewrite bool_decide_eq_true_2 by (by rewrite Hf'). rewrite Hal. cbn [negb]. cbn zeta.
    change (persistent_lookup file_path' None false w') with (load_cached_text file_path' w').
    rewrite Hload. cbn [res events fst snd]. eexists. split; [done|].
    by repeat constructor.
  - intros Hne. split.
    { intros E. apply Hiff in E as [? ?]. by destruct Hne. }
    intros Hnone. rewrite Hnone in Hload. split; [by rewrite Hload|].
    intros Hal Hmem.
    rewrite (extract_pdf_text_miss file_path' None w').
    + unfold after. cbn [events snd]. apply in_or_app. right.
      first_events. apply in_or_app. left.
      unfold live_extraction. cbn [negb]. first_events. apply in_or_app. left.
      destruct (classifier_opens file_path' 3 w' wr' data' Hf') as [tc ->].
      right. by left.
    + by rewrite Hf'.
    + done.
    + split; [|done]. left.
      change (persistent_lookup file_path' None false w')
        with (load_cached_text file_path' w').
      by rewrite Hload.
Qed.

(** A scanned PDF of two pages. *)
Definition scan_pdf : string := "C:\Users\Admin\Desktop\HOA\pdfs\scan.pdf".
Definition renamed_pdf : string := "C:\Users\Admin\Desktop\HOA\pdfs\scan-2024.pdf".
Definition scan_data : string := "%PDF|Sfirst page|Ssecond page".

(** The scanned PDF is extracted, which writes its cache file, and is then
    renamed in its directory with the same bytes: the cache file path is
    another one, the cache file is not found and OCR runs again. *)
Lemma renamed_pdf_misses_cache_file :
  let P := Demo.platform in
  let L := Demo.libraries in
  let w0 := Demo.world [(scan_pdf, scan_data)] in
  let w1 := world_after (extract_pdf_text scan_pdf None false w0) in
  let w2 := Demo.rename scan_pdf renamed_pdf w1 in
  fs w2 !! renamed_pdf = fs w1 !! scan_pdf /\
  res (get_cache_file_path scan_pdf w1)
  = Ok "C:\Users\Admin\Desktop\HOA\pdfs\scan_ocr_181d7ed8.txt" /\
  res (load_cached_text scan_pdf w1)
  = Ok (Some ("--- Page 1 (OCR) ---" ++ Str.LF ++ "first page" ++ Str.LF ++ Str.LF
              ++ "--- Page 2 (OCR) ---" ++ Str.LF ++ "second page" ++ Str.LF)) /\
  res (get_cache_file_path renamed_pdf w2)
  = Ok "C:\Users\Admin\Desktop\HOA\pdfs\scan-2024_ocr_181d7ed8.txt" /\
  res (get_cache_file_path renamed_pdf w2) <> res (get_cache_file_path scan_pdf w1) /\
  res (load_cached_text renamed_pdf w2) = Ok None /\
  In (EvConvert renamed_pdf) (events (extract_pdf_text renamed_pdf None false w2)).
Proof.
  cbn zeta.
  split; [vm_compute; reflexivity|]. split; [vm_compute; reflexivity|].
  split; [vm_compute; reflexivity|]. split; [vm_compute; reflexivity|].
  split; [vm_compute; discriminate|]. split; [vm_compute; reflexivity|].
  vm_compute. tauto.
Qed.

(** The scanned PDF is extracted, which writes its cache file.  Read
    again it is answered from the cache file; renamed in its directory with
    the same bytes it has another cache file, which is not there, and is
    extracted again. *)
Lemma cache_file_by_directory_name_and_hash_witness :
  let P := Demo.platform in
  let L := Demo.libraries in
  let w0 := Demo.world [(scan_pdf, scan_data)] in
  let w1 := world_after (extract_pdf_text scan_pdf None false w0) in
  let w2 := Demo.rename scan_pdf renamed_pdf w1 in
  let text := "--- Page 1 (OCR) ---" ++ Str.LF ++ "first page" ++ Str.LF ++ Str.LF
              ++ "--- Page 2 (OCR) ---" ++ Str.LF ++ "second page" ++ Str.LF in
  fs w0 !! scan_pdf = Some (File true true scan_data) /\
  fs w1 !! scan_pdf = Some (File true true scan_data) /\
  fs w2 !! renamed_pdf = Some (File true true scan_data) /\
  fs w2 !! scan_pdf = None /\
  dirname scan_pdf = dirname renamed_pdf /\
  plain_name (pdf_name scan_pdf) = true /\
  plain_name (pdf_name renamed_pdf) = true /\
  pdf_name scan_pdf <> pdf_name renamed_pdf /\
  res (load_cached_text scan_pdf w1) = Ok (Some text) /\
  res (extract_pdf_text scan_pdf None false w1) = Ok (cached_marker ++ text) /\
  res (get_cache_file_path renamed_pdf w2) <> res (get_cache_file_path scan_pdf w1) /\
  res (load_cached_text renamed_pdf w2) = Ok None /\
  In (EvPdfReader renamed_pdf) (events (extract_pdf_text renamed_pdf None false w2)).
Proof.
  cbn zeta.
  set (w0 := Demo.world [(scan_pdf, scan_data)]).
  set (w1 := world_after (@extract_pdf_text Demo.platform Demo.libraries scan_pdf None false w0)).
  set (w2 := Demo.rename scan_pdf renamed_pdf w1).
  assert (H0 : fs w0 !! scan_pdf = Some (File true true scan_data))
    by (vm_compute; reflexivity).
  assert (H1 : fs w1 !! scan_pdf = Some (File true true scan_data))
    by (vm_compute; reflexivity).
  assert (H2 : fs w2 !! renamed_pdf = Some (File true true scan_data))
    by (vm_compute; reflexivity).
  assert (Hdir : @dirname Demo.platform scan_pdf = @dirname Demo.platform renamed_pdf)
    by (vm_compute; reflexivity).
  assert (Hn : plain_name (@pdf_name Demo.platform scan_pdf) = true)
    by (vm_compute; reflexivity).
  assert (Hn' : plain_name (@pdf_name Demo.platform renamed_pdf) = true)
    by (vm_compute; reflexivity).
  assert (Hne : @pdf_name Demo.platform scan_pdf <> @pdf_name Demo.platform renamed_pdf)
    by (vm_compute; discriminate).
  split; [exact H0|]. split; [exact H1|]. split; [exact H2|].
  split; [vm_compute; reflexivity|].
  split; [exact Hdir|]. split; [exact Hn|]. split; [exact Hn'|]. split; [exact Hne|].
  destruct (@cache_file_by_directory_name_and_hash Demo.libraries "C:\work"
              scan_pdf scan_pdf w0 w1 true true scan_data scan_data
              H0 H1 eq_refl Hn Hn) as (_ & _ & _ & _ & Hhit & _).
  destruct (@cache_file_by_directory_name_and_hash Demo.libraries "C:\work"
              scan_pdf renamed_pdf w1 w2 true true scan_data scan_data
              H1 H2 Hdir Hn Hn') as (Hp & Hp' & _ & Hiff & _ & Hmiss).
  destruct (Hmiss (or_introl Hne)) as [Hdiff Hmiss'].
  destruct Hmiss' as [Hnone Hfresh]; [vm_compute; reflexivity|].
  destruct (Hhit eq_refl eq_refl true
              (IO.encode_text (String IO.CR (String IO.NL EmptyString))
                 ("--- Page 1 (OCR) ---" ++ Str.LF ++ "first page" ++ Str.LF ++ Str.LF
                  ++ "--- Page 2 (OCR) ---" ++ Str.LF ++ "second page" ++ Str.LF))
              "-"%char
              ("-- Page 1 (OCR) ---" ++ Str.LF ++ "first page" ++ Str.LF ++ Str.LF
               ++ "--- Page 2 (OCR) ---" ++ Str.LF ++ "second page" ++ Str.LF))
    as [Hload Hextract]; [vm_compute; reflexivity|vm_compute; reflexivity|].
  destruct Hextract as (t & Hextract & _); [vm_compute; reflexivity|].
  unfold Demo.platform.
  split; [exact Hload|]. split; [by rewrite Hextract|].
  split; [rewrite Hp, Hp'; intros [= E]; by destruct Hdiff|].
  split; [exact Hnone|].
  apply Hfresh; vm_compute; reflexivity.
Defined.

(** ** What a call stores *)

(** Inversion of the outcome of a sequence and of a [try]. *)
Lemma bind_inv {A B} (m : M A) (k : A -> M B) w r w' t :
  bind m k w = (r, w', t) ->
  (exists a w1 t1 t2,
      m w = (Ok a, w1, t1) /\ k a w1 = (r, w', t2) /\ t = (t1 ++ t2)%list) \/
  (exists e, m w = (Raise e, w', t) /\ r = Raise e).
Proof.
  unfold bind. destruct (m w) as [[[a|e] w1] t1].
  - destruct (k a w1) as [[r2 w2] t2] eqn:E. intros [= <- <- <-]. left.
    by exists a, w1, t1, t2.
  - intros [= <- <- <-]. right. by exists e.
Qed.

Lemma try_inv {A} (m : M A) (h : exn -> M A) w r w' t :
  try_except m h w = (r, w', t) ->
  (exists a, m w = (Ok a, w', t) /\ r = Ok a) \/
  (exists e w1 t1 t2,
      m w = (Raise e, w1, t1) /\ h e w1 = (r, w', t2) /\ t = (t1 ++ t2)%list).
Proof.
  unfold try_except. destruct (m w) as [[[a|e] w1] t1].
  - intros [= <- <- <-]. left. by exists a.
  - destruct (h e w1) as [[r2 w2] t2] eqn:E. intros [= <- <- <-]. right.
    by exists e, w1, t1, t2.
Qed.

Lemma after_inv {A} t1 (o : result A * World * list event) r w' t :
  after t1 o = (r, w', t) -> exists t2, o = (r, w', t2) /\ t = (t1 ++ t2)%list.
Proof. destruct o as [[r2 w2] t2]. intros [= <- <- <-]. by exists t2. Qed.

Lemma ret_inv {A} (a : A) w r w' t : ret a w = (r, w', t) -> r = Ok a /\ w' = w /\ t = [].
Proof. by intros [= <- <- <-]. Qed.

Section Stores.

Context {P : Platform} {L : Libraries}.

(** The files are as before, or the cache file of [file_path] now holds
    [text], written whole in text mode. *)
Definition saved_or_not (file_path text : string) (w w' : World) : Prop :=
  fs w' = fs w \/
  exists cache_file,
    res (get_cache_file_path file_path w) = Ok cache_file /\
    fs w' = <[cache_file := IO.overwritten (fs w !! cache_file)
                              (IO.encode_text linesep text)]> (fs w).

(** The dictionary is as before, or it held fewer than 10 entries and now
    binds [key] to [text]. *)
Definition cached_or_not (key text : string) (w w' : World) : Prop :=
  pdf_cache w' = pdf_cache w \/
  ((size (pdf_cache w) < 10)%nat /\ pdf_cache w' = <[key := text]> (pdf_cache w)).

(** A read-only call gives back the world. *)
Lemma unchanged_inv {A} (m : M A) w r w' t :
  keeps unchanged m -> m w = (r, w', t) -> w' = w.
Proof. intros Hm E. specialize (Hm w). by rewrite E in Hm. Qed.

Lemma save_cached_text_outcome file_path text w r w' t :
  save_cached_text file_path text w = (r, w', t) ->
  pdf_cache w' = pdf_cache w /\
  match r with
  | Ok _ => saved_or_not file_path text w w'
  | Raise _ => w' = w
  end.
Proof.
  unfold save_cached_text, saved_or_not. intros H.
  apply bind_inv in H as [(c & w1 & t1 & t2 & Hc & H & _)|(e & Hc & ->)].
  - pose proof (unchanged_inv _ _ _ _ _ (keeps_get_cache_file_path unchanged _) Hc) as ->.
    rewrite Hc. cbn [res fst]. revert H. unfold try_except, IO.write_text.
    destruct (IO.write_error (fs w) c); cbn; intros [= <- <- <-]; cbn;
      (split; [done|]); [by left|]. right. by exists c.
  - by pose proof (unchanged_inv _ _ _ _ _ (keeps_get_cache_file_path unchanged _) Hc) as ->.
Qed.

Lemma ocr_and_save_outcome file_path page_numbers w r w' t :
  ocr_and_save file_path page_numbers w = (r, w', t) ->
  pdf_cache w' = pdf_cache w /\
  match r with
  | Ok text => saved_or_not file_path text w w'
  | Raise _ => w' = w
  end.
Proof.
  unfold ocr_and_save. intros H.
  apply bind_inv in H as [(text & w1 & t1 & t2 & Ho & H & _)|(e & Ho & ->)];
    pose proof (unchanged_inv _ _ _ _ _ (keeps_extract_text_with_ocr unchanged _ _) Ho) as ->;
    [|done].
  apply bind_inv in H as [([] & w2 & t3 & t4 & Hs & H & _)|(e & Hs & ->)].
  - apply ret_inv in H as (-> & -> & _).
    destruct (negb (Py.truthy page_numbers)).
    + by apply save_cached_text_outcome in Hs.
    + apply ret_inv in Hs as (_ & -> & _). split; [done|]. by left.
  - destruct (negb (Py.truthy page_numbers)); [|done].
    by apply save_cached_text_outcome in Hs.
Qed.

Lemma cache_in_memory_outcome file_path text key w w1 r w2 t :
  pdf_cache w1 = pdf_cache w ->
  saved_or_not file_path text w w1 ->
  cache_in_memory key text w1 = (r, w2, t) ->
  r = Ok tt /\ saved_or_not file_path text w w2 /\ cached_or_not key text w w2.
Proof.
  intros Hc Hs. unfold cache_in_memory, cached_or_not.
  destruct (size (pdf_cache w1) <? 10)%nat eqn:E; intros [= <- <- <-]; cbn.
  - apply Nat.ltb_lt in E. rewrite Hc in E |- *. auto.
  - rewrite Hc. auto.
Qed.

Lemma live_extraction_outcome file_path page_numbers force_ocr w r w' t :
  live_extraction file_path page_numbers force_ocr w = (r, w', t) ->
  match r with
  | Ok text =>
      saved_or_not file_path text w w' /\
      cached_or_not (cache_key file_path page_numbers) text w w'
  | Raise _ => w' = w
  end.
Proof.
  unfold live_extraction. intros H.
  assert (Hcl : keeps unchanged
            (if negb force_ocr then has_extractable_text file_path 3 else ret false))
    by (destruct force_ocr; cbn; eauto with keeps typeclass_instances).
  apply bind_inv in H as [(b & w1 & t1 & t2 & Hb & H & _)|(e & Hb & ->)];
    pose proof (unchanged_inv _ _ _ _ _ Hcl Hb) as ->; [|done].
  apply bind_inv in H as [(text & w1 & t3 & t4 & Hx & H & _)|(e & Hx & ->)].
  - assert (Hw1 : pdf_cache w1 = pdf_cache w /\ saved_or_not file_path text w w1).
    { destruct b.
      - pose proof (unchanged_inv _ _ _ _ _ (keeps_regular_extraction unchanged _ _) Hx)
          as ->. split; [done|]. by left.
      - by apply ocr_and_save_outcome in Hx. }
    destruct Hw1 as [Hc Hs].
    apply bind_inv in H as [([] & w2 & t5 & t6 & Hm & H & _)|(e & Hm & ->)].
    + apply ret_inv in H as (-> & -> & _).
      by apply (cache_in_memory_outcome _ _ _ _ _ _ _ _ Hc Hs) in Hm as (_ & ? & ?).
    + by apply (cache_in_memory_outcome _ _ _ _ _ _ _ _ Hc Hs) in Hm as (? & _).
  - destruct b.
    + by pose proof (unchanged_inv _ _ _ _ _ (keeps_regular_extraction unchanged _ _) Hx)
        as ->.
    + by apply ocr_and_save_outcome in Hx as [_ ->].
Qed.

(** What the body of the [try] leaves in the dictionary. *)
Lemma live_extraction_stores file_path page_numbers force_ocr w text w' t :
  live_extraction file_path page_numbers force_ocr w = (Ok text, w', t) ->
  pdf_cache w' = if (size (pdf_cache w) <? 10)%nat
                 then <[cache_key file_path page_numbers := text]> (pdf_cache w)
                 else pdf_cache w.
Proof.
  unfold live_extraction. intros H.
  assert (Hcl : keeps unchanged
            (if negb force_ocr then has_extractable_text file_path 3 else ret false))
    by (destruct force_ocr; cbn; eauto with keeps typeclass_instances).
  apply bind_inv in H as [(b & w1 & t1 & t2 & Hb & H & _)|(e & _ & ?)]; [|done].
  pose proof (unchanged_inv _ _ _ _ _ Hcl Hb) as ->.
  apply bind_inv in H as [(full_text & w1 & t3 & t4 & Hx & H & _)|(e & _ & ?)]; [|done].
  assert (Hw1 : pdf_cache w1 = pdf_cache w).
  { destruct b.
    - by pose proof (unchanged_inv _ _ _ _ _ (keeps_regular_extraction unchanged _ _) Hx)
        as ->.
    - by apply ocr_and_save_outcome in Hx as [? _]. }
  apply bind_inv in H as [([] & w2 & t5 & t6 & Hm & H & _)|(e & _ & ?)]; [|done].
  apply ret_inv in H as ([= ->] & -> & _).
  revert Hm. unfold cache_in_memory. rewrite Hw1.
  by destruct (size (pdf_cache w) <? 10)%nat; intros [= <-].
Qed.

Lemma try_live_outcome file_path page_numbers force_ocr w text w' t :
  try_except (live_extraction file_path page_numbers force_ocr)
             (ocr_fallback file_path page_numbers force_ocr) w = (Ok text, w', t) ->
  saved_or_not file_path text w w' /\
  cached_or_not (cache_key file_path page_numbers) text w w'.
Proof.
  intros H. apply try_inv in H as [(a & H & [= <-])|(e & w1 & t1 & t2 & Hl & H & _)].
  - by apply live_extraction_outcome in H.
  - apply live_extraction_outcome in Hl as ->. revert H. unfold ocr_fallback.
    destruct force_ocr; cbn [negb]; [done|]. intros H.
    apply try_inv in H as [(a & H & [= <-])|(e' & w2 & t3 & t4 & _ & H & _)]; [|done].
    apply ocr_and_save_outcome in H as [Hc Hs]. split; [done|]. by left.
Qed.

(** The text that a call returns is the text that it stores. *)
Lemma extract_pdf_text_outcome file_path page_numbers force_ocr w text w' t :
  extract_pdf_text file_path page_numbers force_ocr w = (Ok text, w', t) ->
  saved_or_not file_path text w w' /\
  cached_or_not (cache_key file_path page_numbers) text w w'.
Proof.
  rewrite extract_pdf_text_cases.
  destruct (negb _); [done|]. destruct (negb _); [done|]. cbn zeta.
  assert (Hsame : saved_or_not file_path text w w /\
                  cached_or_not (cache_key file_path page_numbers) text w w)
    by (split; by left).
  destruct (res (persistent_lookup _ _ _ _)) as [[[|c cached]|]|e]; try done;
    try (by intros [= <- <- <-]);
    (destruct (pdf_cache w !! cache_key file_path page_numbers) as [t0|], force_ocr;
     try (by intros [= <- <- <-]);
     intros H; apply after_inv in H as (t2 & H & _); by apply try_live_outcome in H).
Qed.

End Stores.

(** ** Calls that reach no backend *)

(** The events of a call are reads and writes of files only. *)
Definition quiet {A} (m : M A) : Prop :=
  forall w, Forall (fun e => is_backend_call e = false) (events (m w)).

Lemma quiet_ret {A} (a : A) : quiet (ret a).
Proof. intros w. constructor. Qed.

Lemma quiet_bind {A B} (m : M A) (k : A -> M B) :
  quiet m -> (forall a, quiet (k a)) -> quiet (bind m k).
Proof.
  intros Hm Hk w. specialize (Hm w). unfold bind.
  destruct (m w) as [[[a|e] w1] t1]; cbn in *; [|done].
  specialize (Hk a w1). destruct (k a w1) as [[r w2] t2]; cbn in *.
  by apply Forall_app.
Qed.

Lemma quiet_try {A} (m : M A) (h : exn -> M A) :
  quiet m -> (forall e, quiet (h e)) -> quiet (try_except m h).
Proof.
  intros Hm Hh w. specialize (Hm w). unfold try_except.
  destruct (m w) as [[[a|e] w1] t1]; cbn in *; [done|].
  specialize (Hh e w1). destruct (h e w1) as [[r w2] t2]; cbn in *.
  by apply Forall_app.
Qed.

Lemma quiet_read_bytes path : quiet (IO.read_bytes path).
Proof.
  intros w. unfold IO.read_bytes.
  destruct (fs w !! path) as [[|[] ? ?]|]; cbn; repeat constructor.
Qed.

Section Lookup.

Context {P : Platform} {L : Libraries}.

Lemma quiet_load_cached_text file_path : quiet (load_cached_text file_path).
Proof.
  unfold load_cached_text, get_cache_file_path, get_pdf_hash, IO.read_text.
  repeat first
    [ apply quiet_bind; [|intros]
    | apply quiet_try; [|intros]
    | apply quiet_read_bytes
    | apply quiet_ret
    | by intros w; constructor
    | match goal with |- quiet (match ?x with _ => _ end) => destruct x end ].
Qed.

Lemma quiet_persistent_lookup file_path page_numbers force_ocr :
  quiet (persistent_lookup file_path page_numbers force_ocr).
Proof.
  unfold persistent_lookup. destruct (_ && _); [apply quiet_load_cached_text|apply quiet_ret].
Qed.

(** The lookup in the cache file returns if and only if the PDF can be
    read, and looks at the files only. *)
Lemma load_cached_text_returns file_path w :
  readable (fs w !! file_path) <-> exists c, res (load_cached_text file_path w) = Ok c.
Proof.
  unfold load_cached_text, get_cache_file_path, get_pdf_hash, IO.read_bytes, IO.exists_,
    IO.read_text, IO.read_bytes, try_except, bind, ret.
  destruct (fs w !! file_path) as [[|[] ? data]|]; cbn.
  - split; [done|]. by intros [c ?].
  - split; [intros _|done].
    destruct (bool_decide _); cbn; eauto.
    destruct (fs w !! _) as [[|[] ? cached]|]; cbn; eauto.
    destruct (IO.decode_text cached); cbn; eauto.
  - split; [done|]. by intros [c ?].
  - split; [done|]. by intros [c ?].
Qed.

Lemma load_cached_text_fs file_path w w' :
  fs w' = fs w -> res (load_cached_text file_path w') = res (load_cached_text file_path w).
Proof.
  destruct w as [f c], w' as [f' c']. cbn. intros ->.
  unfold load_cached_text, get_cache_file_path, get_pdf_hash, IO.read_bytes, IO.exists_,
    IO.read_text, IO.read_bytes, try_except, bind, ret. cbn.
  destruct (f !! file_path) as [[|[] ? data]|]; cbn; try done.
  destruct (bool_decide _); cbn; [|done].
  destruct (f !! _) as [[|[] ? cached]|]; try done.
  by destruct (IO.decode_text cached).
Qed.

(** After the cache file has been written the lookup reads it back, when
    the file can be read. *)
Lemma load_cached_text_saved file_path w w' cache_file data :
  res (get_cache_file_path file_path w) = Ok cache_file ->
  cache_file <> file_path ->
  fs w' = <[cache_file := IO.overwritten (fs w !! cache_file) data]> (fs w) ->
  res (load_cached_text file_path w') = Ok (IO.decode_text data) \/
  res (load_cached_text file_path w') = Ok None.
Proof.
  destruct w as [f c], w' as [f' c'].
  unfold load_cached_text, get_cache_file_path, get_pdf_hash, IO.read_bytes, IO.exists_,
    IO.read_text, IO.read_bytes, try_except, bind, ret. cbn.
  intros Hc Hne ->. rewrite lookup_insert_ne by done.
  destruct (f !! file_path) as [[|[] ? pdf]|]; cbn in Hc |- *; try done.
  injection Hc as ->.
  rewrite bool_decide_eq_true_2 by (rewrite lookup_insert_eq; eauto).
  cbn. rewrite lookup_insert_eq.
  destruct (f !! _) as [[|[] ? ?]|]; cbn; auto; destruct (IO.decode_text data); cbn; auto.
Qed.

End Lookup.

(** ** The same request twice *)

Section Twice.

Context {P : Platform} {L : Libraries}.

Lemma keeps_files_stay_cache_in_memory key text :
  keeps files_stay (cache_in_memory key text).
Proof.
  intros w path. unfold cache_in_memory. by destruct (size (pdf_cache w) <? 10)%nat.
Qed.

Hint Resolve keeps_files_stay_cache_in_memory : keeps.

Lemma extract_pdf_text_files_stay file_path page_numbers force_ocr :
  keeps files_stay (extract_pdf_text file_path page_numbers force_ocr).
Proof. unfold extract_pdf_text, live_extraction, ocr_fallback. keeps_auto. Qed.

(** A call that returns has passed the guards and the lookup in the cache
    file. *)
Lemma extract_pdf_text_ok_guards file_path page_numbers force_ocr w text w1 t1 :
  extract_pdf_text file_path page_numbers force_ocr w = (Ok text, w1, t1) ->
  is_Some (fs w !! file_path) /\ is_path_allowed file_path = true /\
  exists c, res (persistent_lookup file_path page_numbers force_ocr w) = Ok c.
Proof.
  rewrite extract_pdf_text_cases.
  destruct (bool_decide (is_Some (fs w !! file_path))) eqn:E; cbn [negb]; [|done].
  apply bool_decide_eq_true_1 in E.
  destruct (is_path_allowed file_path); cbn [negb]; [|done]. cbn zeta.
  destruct (res (persistent_lookup _ _ _ _)) as [c|e]; [eauto|done].
Qed.

(** After a call, a cache tier has an answer for the request: [text] is
    bound in [pdf_cache], or the request is for the full document and the
    cache file is not empty. *)
Definition answered (file_path : string) (page_numbers : option (list Z))
    (text : string) (w1 : World) : Prop :=
  pdf_cache w1 !! cache_key file_path page_numbers = Some text \/
  (Py.truthy page_numbers = false /\
   exists c cached, res (load_cached_text file_path w1) = Ok (Some (String c cached))).

(** When a cache tier has an answer after the first call, the second
    call is served from it. *)
Lemma answered_is_served file_path page_numbers w text w1 t1 :
  extract_pdf_text file_path page_numbers false w = (Ok text, w1, t1) ->
  answered file_path page_numbers text w1 ->
  exists text2 t2,
    extract_pdf_text file_path page_numbers false w1 = (Ok text2, w1, t2) /\
    Forall (fun e => is_backend_call e = false) t2 /\
    (text2 = text \/
     exists cached,
       cached <> "" /\ Py.truthy page_numbers = false /\
       res (load_cached_text file_path w1) = Ok (Some cached) /\
       text2 = cached_marker ++ cached /\
       ((res (load_cached_text file_path w) = Ok None \/
         res (load_cached_text file_path w) = Ok (Some "")) ->
        res (get_cache_file_path file_path w) <> Ok file_path ->
        cached = IO.universal_newlines (IO.translate_newlines linesep text))).
Proof.
  intros H1 Hans.
  destruct (extract_pdf_text_ok_guards _ _ _ _ _ _ _ H1) as (Hex & Hal & c0 & Hc0).
  pose proof (extract_pdf_text_files_stay file_path page_numbers false w) as Hstay.
  rewrite H1 in Hstay. cbn in Hstay.
  assert (Hlook : exists c, res (persistent_lookup file_path page_numbers false w1) = Ok c
                            /\ (Py.truthy page_numbers = true -> c = None)
                            /\ (Py.truthy page_numbers = false ->
                                res (load_cached_text file_path w1) = Ok c)).
  { revert Hc0. unfold persistent_lookup.
    destruct (Py.truthy page_numbers); cbn [negb andb].
    - intros _. exists None. by repeat split.
    - intros Hc0.
      assert (Hr : readable (fs w1 !! file_path)).
      { apply Hstay. apply load_cached_text_returns. eauto. }
      apply load_cached_text_returns in Hr as [c Hc]. exists c. by repeat split. }
  destruct Hlook as (c & Hc & Hpages & Hload).
  pose proof (quiet_persistent_lookup file_path page_numbers false w1) as Hq.
  rewrite extract_pdf_text_cases.
  rewrite bool_decide_eq_true_2 by (by apply Hstay). rewrite Hal. cbn [negb]. cbn zeta.
  rewrite Hc.
  assert (Hmem : c = None \/ c = Some "" ->
                 pdf_cache w1 !! cache_key file_path page_numbers = Some text).
  { intros Hnone. destruct Hans as [Hm|(Hp & ch & cached & Hl)]; [done|].
    rewrite (Hload Hp) in Hl. destruct Hnone as [-> | ->]; done. }
  destruct c as [[|ch cached]|].
  - rewrite Hmem by auto. eexists _, _. split; [done|]. split; [done|]. by left.
  - eexists _, _. split; [done|]. split; [done|]. right.
    assert (Hp : Py.truthy page_numbers = false).
    { destruct (Py.truthy page_numbers); [|done]. by specialize (Hpages eq_refl). }
    exists (String ch cached). split; [done|]. split; [done|]. split; [by apply Hload|].
    split; [done|]. intros Hfirst Hne.
    destruct (extract_pdf_text_outcome _ _ _ _ _ _ _ H1) as [[Hfs|(cf & Hcf & Hfs)] _].
    + rewrite (load_cached_text_fs _ _ _ Hfs) in Hload.
      rewrite (Hload Hp) in Hfirst. destruct Hfirst; done.
    + assert (Hcf' : cf <> file_path) by (intros ->; done).
      specialize (Hload Hp).
      destruct (load_cached_text_saved _ _ _ _ _ Hcf Hcf' Hfs) as [Hs|Hs];
        rewrite Hs in Hload; [|done].
      rewrite decode_encode_text in Hload. by injection Hload as <-.
  - rewrite Hmem by auto. eexists _, _. split; [done|]. split; [done|]. by left.
Qed.

(** The first call keeps its answer: it is itself answered by a cache
    tier (the cache file of a full document is not empty, or [pdf_cache]
    binds the key), or [pdf_cache] holds fewer than 10 entries and the body of
    the [try] returns, so that the result is stored. *)
Definition keeps_its_answer (file_path : string) (page_numbers : option (list Z))
    (w : World) : Prop :=
  (Py.truthy page_numbers = false /\
   exists c cached, res (load_cached_text file_path w) = Ok (Some (String c cached))) \/
  is_Some (pdf_cache w !! cache_key file_path page_numbers) \/
  ((size (pdf_cache w) < 10)%nat /\
   exists text, res (live_extraction file_path page_numbers false w) = Ok text).

(** C5, as the code has it: when the first call returns [text], and it is
    answered by a cache tier or extracts in the body of the [try] while
    [pdf_cache] holds fewer than 10 entries, a cache tier has an answer for
    the request after the call, and the second call with the same arguments
    returns without any call to PyPDF2, pdf2image or pytesseract and changes
    nothing.  It returns [text] itself, except for a full document whose
    cache file is not empty: then it returns the text of the cache file
    behind the line [Using cached OCR text], and when the first call did not
    find that text and the cache file is not the PDF itself, the text of the
    cache file is the text of the first call written and read back in text
    mode. *)
Theorem second_extract_from_cache file_path page_numbers w text w1 t1 :
  extract_pdf_text file_path page_numbers false w = (Ok text, w1, t1) ->
  keeps_its_answer file_path page_numbers w ->
  answered file_path page_numbers text w1 /\
  exists text2 t2,
    extract_pdf_text file_path page_numbers false w1 = (Ok text2, w1, t2) /\
    Forall (fun e => is_backend_call e = false) t2 /\
    (text2 = text \/
     exists cached,
       cached <> "" /\ Py.truthy page_numbers = false /\
       res (load_cached_text file_path w1) = Ok (Some cached) /\
       text2 = cached_marker ++ cached /\
       ((res (load_cached_text file_path w) = Ok None \/
         res (load_cached_text file_path w) = Ok (Some "")) ->
        res (get_cache_file_path file_path w) <> Ok file_path ->
        cached = IO.universal_newlines (IO.translate_newlines linesep text))).
Proof.
  intros H1 Hkeeps.
  assert (Hans : answered file_path page_numbers text w1).
  { pose proof H1 as H. revert H. rewrite extract_pdf_text_cases.
    destruct (negb _); [done|]. destruct (negb _); [done|]. cbn zeta.
    assert (Hlook : Py.truthy page_numbers = true ->
                    res (persistent_lookup file_path page_numbers false w) = Ok None).
    { unfold persistent_lookup. by intros ->. }
    assert (Hload : Py.truthy page_numbers = false ->
                    res (persistent_lookup file_path page_numbers false w)
                    = res (load_cached_text file_path w)).
    { unfold persistent_lookup. by intros ->. }
    destruct (res (persistent_lookup file_path page_numbers false w))
      as [[[|c cached]|]|e] eqn:Ec; [| | |done].
    - destruct (pdf_cache w !! cache_key file_path page_numbers) as [text0|] eqn:Em.
      + intros [= <- <- _]. by left.
      + intros (t2 & H & _)%after_inv.
        destruct Hkeeps as [(Hp & c & cached & Hl)|[[? ?]|(Hsize & text' & Hlive)]];
          [specialize (Hload Hp); congruence|congruence|].
        apply try_inv in H as [(a & H & [= <-])|(e & w2 & t3 & t4 & H & _)];
          [|by rewrite H in Hlive].
        left. rewrite (live_extraction_stores _ _ _ _ _ _ _ H).
        rewrite (proj2 (Nat.ltb_lt _ _) Hsize). by rewrite lookup_insert_eq.
    - intros [= <- <- _]. right.
      destruct (Py.truthy page_numbers) eqn:Hp; [specialize (Hlook eq_refl); congruence|].
      split; [done|]. exists c, cached. specialize (Hload eq_refl). congruence.
    - destruct (pdf_cache w !! cache_key file_path page_numbers) as [text0|] eqn:Em.
      + intros [= <- <- _]. by left.
      + intros (t2 & H & _)%after_inv.
        destruct Hkeeps as [(Hp & c & cached & Hl)|[[? ?]|(Hsize & text' & Hlive)]];
          [specialize (Hload Hp); congruence|congruence|].
        apply try_inv in H as [(a & H & [= <-])|(e & w2 & t3 & t4 & H & _)];
          [|by rewrite H in Hlive].
        left. rewrite (live_extraction_stores _ _ _ _ _ _ _ H).
        rewrite (proj2 (Nat.ltb_lt _ _) Hsize). by rewrite lookup_insert_eq. }
  split; [exact Hans|]. exact (answered_is_served _ _ _ _ _ _ H1 Hans).
Qed.

End Twice.

(** The scanned PDF extracted twice: the second answer is the first one
    behind the line [Using cached OCR text]. *)
Lemma second_extract_is_marked :
  let P := Demo.platform in
  let L := Demo.libraries in
  let w0 := Demo.world [(scan_pdf, scan_data)] in
  let o1 := extract_pdf_text scan_pdf None false w0 in
  let o2 := extract_pdf_text scan_pdf None false (world_after o1) in
  let text := "--- Page 1 (OCR) ---" ++ Str.LF ++ "first page" ++ Str.LF ++ Str.LF
              ++ "--- Page 2 (OCR) ---" ++ Str.LF ++ "second page" ++ Str.LF in
  res o1 = Ok text /\
  res o2 = Ok ("[Using cached OCR text]" ++ Str.LF ++ Str.LF ++ text) /\
  res o2 <> res o1.
Proof.
  cbn zeta. split; [vm_compute; reflexivity|]. split; [vm_compute; reflexivity|].
  vm_compute. discriminate.
Qed.

(** A text PDF read page by page while [pdf_cache] holds 10 entries: the
    second call extracts again. *)
Lemma full_cache_extracts_again :
  let P := Demo.platform in
  let L := Demo.libraries in
  let keys := ["a"; "b"; "c"; "d"; "e"; "f"; "g"; "h"; "i"; "j"] in
  let w0 := mkWorld (fs (Demo.world [(minutes_pdf, minutes_data)]))
                    (list_to_map (map (fun k => (k, k)) keys)) in
  let o1 := extract_pdf_text minutes_pdf (Some [1]) false w0 in
  let o2 := extract_pdf_text minutes_pdf (Some [1]) false (world_after o1) in
  world_after o1 = w0 /\ res o2 = res o1 /\
  In (EvPdfReader minutes_pdf) (events o2).
Proof.
  cbn zeta. split; [vm_compute; reflexivity|]. split; [vm_compute; reflexivity|].
  vm_compute. tauto.
Qed.

(** A cache file that is not UTF-8: reading it raises UnicodeDecodeError,
    load_cached_text returns None, and the PDF is extracted again. *)
Example undecodable_cache_file_is_a_miss :
  let P := Demo.platform in
  let L := Demo.libraries in
  let cache_file := "C:\Users\Admin\Desktop\HOA\pdfs\scan_ocr_181d7ed8.txt" in
  let w0 := Demo.world [(scan_pdf, scan_data)] in
  let w := mkWorld (<[cache_file := File true true (String (Str.chr 255) "cached")]> (fs w0))
                   (pdf_cache w0) in
  res (get_cache_file_path scan_pdf w) = Ok cache_file /\
  res (IO.read_text cache_file w)
  = Raise (Exn UnicodeDecodeError "'utf-8' codec can't decode bytes") /\
  res (load_cached_text scan_pdf w) = Ok None /\
  In (EvPdfReader scan_pdf) (events (extract_pdf_text scan_pdf None false w)).
Proof.
  cbn zeta. split; [vm_compute; reflexivity|]. split; [vm_compute; reflexivity|].
  split; [vm_compute; reflexivity|]. vm_compute. tauto.
Qed.

Lemma second_extract_from_cache_witness :
  let P := Demo.platform in
  let L := Demo.libraries in
  let w0 := Demo.world [(minutes_pdf, minutes_data)] in
  let o1 := extract_pdf_text minutes_pdf (Some [1]) false w0 in
  keeps_its_answer minutes_pdf (Some [1]) w0 /\
  exists text,
    res o1 = Ok text /\
    answered minutes_pdf (Some [1]) text (world_after o1) /\
    exists t2, extract_pdf_text minutes_pdf (Some [1]) false (world_after o1)
               = (Ok text, world_after o1, t2).
Proof.
  cbn zeta.
  assert (Hk : @keeps_its_answer Demo.platform Demo.libraries minutes_pdf (Some [1])
                 (Demo.world [(minutes_pdf, minutes_data)])).
  { right. right. split; [vm_compute; lia|]. eexists. vm_compute. reflexivity. }
  split; [exact Hk|].
  destruct (@extract_pdf_text Demo.platform Demo.libraries minutes_pdf (Some [1]) false
              (Demo.world [(minutes_pdf, minutes_data)])) as [[r1 w1] t1] eqn:H1.
  assert (Hr : exists text, r1 = Ok text).
  { vm_compute in H1. injection H1 as <- <- <-. by eexists. }
  destruct Hr as (text & ->). exists text. cbn [res world_after fst snd].
  split; [done|].
  destruct (@second_extract_from_cache Demo.platform Demo.libraries _ _ _ _ _ _ H1 Hk)
    as (Hans & text2 & t2 & H2 & _ & [->|(cached & _ & Hp & _)]).
  - split; [exact Hans|]. by exists t2.
  - discriminate Hp.
Defined.

(** ** Truncation and search *)

Lemma enumerate_from_nth {A} (l : list A) k i x :
  nth_error l i = Some x ->
  In (Z.of_nat (k + i), x) (combine (map Z.of_nat (seq k (List.length l))) l).
Proof.
  revert k i. induction l as [|y l IH]; intros k [|i] H; cbn in *; try done.
  - injection H as ->. left. by rewrite Nat.add_0_r.
  - right. replace (k + S i)%nat with (S k + i)%nat by lia. by apply IH.
Qed.

Lemma enumerate_nth {A} (l : list A) i x :
  nth_error l i = Some x -> In (Z.of_nat i, x) (Py.enumerate l).
Proof. intros H. by apply (enumerate_from_nth l 0 i x). Qed.

Section Search.

Context {P : Platform} {L : Libraries}.

(** The entry of the match on line [i] (counted from 0). *)
Definition match_entry (lines : list string) (i : Z) : string :=
  "Line " ++ Str.of_int (i + 1) ++ ": "
  ++ Str.join " " (Py.slice lines (Z.max 0 (i - 1))
                            (Z.min (Z.of_nat (List.length lines)) (i + 2))).

(** Every line that contains the term is a match, wherever it lies. *)
Lemma search_matches_hit lines term i line :
  nth_error lines i = Some line -> Str.contains line term = true ->
  In (match_entry lines (Z.of_nat i)) (search_matches lines term).
Proof.
  intros Hi Hc. unfold search_matches. apply in_flat_map.
  exists (Z.of_nat i, line). split; [by apply enumerate_nth|].
  rewrite Hc. by left.
Qed.

Lemma search_text_found file_path term (case_sensitive : bool) text :
  let fold := fun s : string => if case_sensitive then s else Str.lower s in
  search_matches (Str.split IO.NL (fold text)) (fold term) <> [] ->
  Str.startswith (search_text file_path term case_sensitive text) "Found " = true.
Proof.
  cbn zeta. unfold search_text.
  destruct (search_matches _ _) as [|m ms]; [done|]. intros _.
  cbn zeta. destruct (10 <? _); reflexivity.
Qed.

(** The text of a page-text answer: cut after 15000 characters, with the
    notice. *)
Definition presented (pdf_text : string) : string :=
  if 15000 <? Str.len pdf_text
  then Str.take (Z.to_nat 15000) pdf_text ++ truncation_marker
  else pdf_text.

(** C6: when extract_pdf_text returns [text], the answer of read_pdf is the
    header and [text], cut to its first 15000 characters and followed by the
    truncation notice when it is longer; what the call has written is
    [text] in full, in the cache file and under the key of [pdf_cache], if
    it has written at all; and a later search_pdf_content searches every
    line of the text that its own extraction returns, so a line that
    contains the term is reported wherever it lies. *)
Theorem truncation_only_in_the_answer file_path page_numbers force_ocr w text w' t :
  file_path <> "" ->
  extract_pdf_text file_path page_numbers force_ocr w = (Ok text, w', t) ->
  read_pdf (Some file_path) page_numbers force_ocr w
  = (Ok ("Content from PDF file: " ++ file_path ++ Str.LF ++ Str.LF ++ presented text),
     w', t) /\
  saved_or_not file_path text w w' /\
  cached_or_not (cache_key file_path page_numbers) text w w' /\
  forall term (case_sensitive : bool) text2 w2 t2,
    term <> "" ->
    extract_pdf_text file_path None false w' = (Ok text2, w2, t2) ->
    let fold := fun s : string => if case_sensitive then s else Str.lower s in
    let lines := Str.split IO.NL (fold text2) in
    search_pdf_content (Some file_path) (Some term) case_sensitive w'
    = (Ok (search_text file_path term case_sensitive text2), w2, t2) /\
    forall i line,
      nth_error lines i = Some line -> Str.contains line (fold term) = true ->
      In (match_entry lines (Z.of_nat i)) (search_matches lines (fold term)) /\
      Str.startswith (search_text file_path term case_sensitive text2) "Found " = true.
Proof.
  intros Hp H. destruct file_path as [|c p]; [done|].
  split; [|split; [|split]].
  - unfold read_pdf. erewrite try_ok; [done|].
    erewrite bind_ok by exact H. cbn. by rewrite app_nil_r.
  - by apply extract_pdf_text_outcome in H as [? _].
  - by apply extract_pdf_text_outcome in H as [_ ?].
  - intros term cs text2 w2 t2 Ht H2. destruct term as [|c' term]; [done|]. cbn zeta.
    split.
    + unfold search_pdf_content. erewrite try_ok; [done|].
      erewrite bind_ok by exact H2. cbn. by rewrite app_nil_r.
    + intros i line Hi Hc.
      pose proof (search_matches_hit _ _ _ _ Hi Hc) as Hin. split; [done|].
      apply search_text_found. cbn zeta. intros Hnil. by rewrite Hnil in Hin.
Qed.

End Search.

(** A scanned PDF of one long page: 700 lines and a last line about the
    gazebo, far beyond the first 15000 characters. *)
Definition long_pdf : string := "C:\Users\Admin\Desktop\HOA\pdfs\archive.pdf".
Definition long_page : string :=
  Str.join Str.LF (repeat "All quiet on the agenda." 700)
  ++ Str.LF ++ "The gazebo repair was approved.".
Definition long_data : string := "%PDF|S" ++ long_page.

Lemma truncation_only_in_the_answer_witness :
  let P := Demo.platform in
  let L := Demo.libraries in
  let w0 := Demo.world [(long_pdf, long_data)] in
  let text := "--- Page 1 (OCR) ---" ++ Str.LF ++ long_page ++ Str.LF in
  let w1 := world_after (read_pdf (Some long_pdf) None false w0) in
  res (extract_pdf_text long_pdf None false w0) = Ok text /\
  15000 < Str.len text /\
  res (read_pdf (Some long_pdf) None false w0)
  = Ok ("Content from PDF file: " ++ long_pdf ++ Str.LF ++ Str.LF
        ++ Str.take (Z.to_nat 15000) text ++ truncation_marker) /\
  Str.contains (Str.take (Z.to_nat 15000) text) "gazebo" = false /\
  pdf_cache w1 !! cache_key long_pdf None = Some text /\
  Str.startswith (match res (search_pdf_content (Some long_pdf) (Some "gazebo") false w1) with
                  | Ok answer => answer
                  | Raise _ => ""
                  end)
                 ("Found 1 matches for 'gazebo' in " ++ long_pdf) = true.
Proof.
  cbn zeta.
  pose proof (outcome_eta (@extract_pdf_text Demo.platform Demo.libraries long_pdf None false
                             (Demo.world [(long_pdf, long_data)]))) as H.
  assert (Hr : res (@extract_pdf_text Demo.platform Demo.libraries long_pdf None false
                      (Demo.world [(long_pdf, long_data)]))
               = Ok ("--- Page 1 (OCR) ---" ++ Str.LF ++ long_page ++ Str.LF))
    by (vm_compute; reflexivity).
  rewrite Hr in H.
  destruct (@truncation_only_in_the_answer Demo.platform Demo.libraries
              long_pdf None false _ _ _ _ ltac:(discriminate) H) as (Hread & _).
  split; [exact Hr|]. split; [vm_compute; reflexivity|].
  split; [rewrite Hread; unfold presented; by replace (15000 <? _) with true by (vm_compute; reflexivity)|].
  split; [vm_compute; reflexivity|].
  split; vm_compute; reflexivity.
Defined.

(** ** Page labels and page errors of OCR *)

(** The pages whose images the filter of [extract_text_with_ocr] keeps, in
    the order in which it keeps them. *)
Definition kept_pages (page_numbers : list Z) (first_page last_page : Z) : list Z :=
  List.filter (fun p => Py.mem p page_numbers) (Py.range first_page (last_page + 1)).

Lemma requested_images_from images l a k m acc w :
  (k + m <= List.length images)%nat ->
  for_each (combine (map Z.of_nat (seq k m)) (map (fun i => a + Z.of_nat i) (seq k m)))
    (fun requested '(i, page_num) =>
       if Py.mem page_num l then
         match Py.index images i with
         | Some image => ret (Py.append requested image)
         | None => raise IndexError "list index out of range"
         end
       else ret requested) acc w
  = (Ok (acc ++ map (fun p => nth (Z.to_nat (p - a)) images "")
                    (List.filter (fun p => Py.mem p l)
                                 (map (fun i => a + Z.of_nat i) (seq k m))))%list, w, []).
Proof.
  revert k acc. induction m as [|m IH]; intros k acc Hk; cbn [seq map combine for_each List.filter].
  - by rewrite app_nil_r.
  - destruct (Py.mem (a + Z.of_nat k) l) eqn:E.
    + unfold Py.index. rewrite Nat2Z.id.
      destruct (nth_error images k) as [image|] eqn:En.
      2:{ apply nth_error_None in En. lia. }
      erewrite bind_ok by reflexivity. rewrite IH by lia. cbn.
      unfold Py.append. rewrite <- app_assoc. cbn.
      replace (Z.to_nat (a + Z.of_nat k - a)) with k by lia.
      by rewrite (nth_error_nth _ _ _ En).
    + erewrite bind_ok by reflexivity. rewrite IH by lia. done.
Qed.

Lemma requested_images_kept images l first_page last_page w :
  last_page - first_page + 1 <= Z.of_nat (List.length images) ->
  requested_images images l first_page last_page w
  = (Ok (map (fun p => nth (Z.to_nat (p - first_page)) images "")
             (kept_pages l first_page last_page)), w, []).
Proof.
  intros H. unfold requested_images, kept_pages, Py.enumerate, Py.range.
  rewrite length_map, length_seq.
  rewrite (requested_images_from images l first_page 0); [done|lia].
Qed.

Lemma map_seq_from a k n :
  map (fun i => a + Z.of_nat i) (seq k n)
  = map (fun i => a + Z.of_nat k + Z.of_nat i) (seq 0 n).
Proof.
  revert a k. induction n as [|n IH]; intros a k; cbn [seq map]; [done|].
  f_equal; [lia|]. rewrite (IH a (S k)), (IH (a + Z.of_nat k) 1%nat).
  apply map_ext. intros i. lia.
Qed.

Lemma range_split a x b :
  a <= x < b -> Py.range a b = (Py.range a x ++ x :: Py.range (x + 1) b)%list.
Proof.
  intros H. unfold Py.range.
  replace (Z.to_nat (b - a)) with (Z.to_nat (x - a) + S (Z.to_nat (b - (x + 1))))%nat by lia.
  rewrite seq_app, map_app. cbn [seq map]. f_equal. f_equal; [lia|].
  rewrite map_seq_from. apply map_ext. intros i. lia.
Qed.

Lemma range_bounds a b p : In p (Py.range a b) -> a <= p < b.
Proof. apply range_In. Qed.

Lemma mem_In x l : Py.mem x l = true <-> In x l.
Proof.
  unfold Py.mem. rewrite existsb_exists. split.
  - intros (y & Hy & ->%Z.eqb_eq). done.
  - intros H. exists x. split; [done|]. apply Z.eqb_refl.
Qed.

Lemma filter_none {A} (f : A -> bool) l :
  (forall x, In x l -> f x = false) -> List.filter f l = [].
Proof.
  induction l as [|y l IH]; intros H; cbn; [done|].
  rewrite (H y) by (by left). apply IH. intros x Hx. apply H. by right.
Qed.

(** An ascending request within the rasterised range is kept as it is. *)
Lemma kept_pages_ascending l a b :
  StronglySorted Z.lt l -> Forall (fun p => a <= p < b) l ->
  List.filter (fun p => Py.mem p l) (Py.range a b) = l.
Proof.
  intros Hs. revert a. induction Hs as [|x l Hs IH Hx]; intros a Hb.
  - apply filter_none. done.
  - apply Forall_cons_iff in Hb as [Hxb Hb].
    rewrite (range_split a x b) by done. rewrite List.filter_app. cbn [List.filter].
    rewrite filter_none.
    2:{ intros p Hp%range_bounds. apply not_true_is_false. intros [->|Hin]%mem_In; [lia|].
        rewrite List.Forall_forall in Hx. specialize (Hx p Hin). lia. }
    replace (Py.mem x (x :: l)) with true by (symmetry; apply mem_In; by left).
    cbn. f_equal.
    transitivity (List.filter (fun p => Py.mem p l) (Py.range (x + 1) b)).
    + apply List.filter_ext_in. intros p Hp%range_bounds. cbn.
      replace (p =? x) with false by (symmetry; apply Z.eqb_neq; lia). done.
    + apply IH. rewrite List.Forall_forall in Hx, Hb |- *. intros p Hp.
      specialize (Hx p Hp). specialize (Hb p Hp). lia.
Qed.

Lemma min_list_le p0 rest : Py.min_list p0 rest <= p0 /\ Forall (fun p => Py.min_list p0 rest <= p) rest.
Proof.
  unfold Py.min_list. revert p0. induction rest as [|x rest IH]; intros p0; cbn; [by split|].
  destruct (IH (Z.min p0 x)) as [H1 H2]. split; [lia|]. constructor; [lia|done].
Qed.

Lemma max_list_ge p0 rest : p0 <= Py.max_list p0 rest /\ Forall (fun p => p <= Py.max_list p0 rest) rest.
Proof.
  unfold Py.max_list. revert p0. induction rest as [|x rest IH]; intros p0; cbn; [by split|].
  destruct (IH (Z.max p0 x)) as [H1 H2]. split; [lia|]. constructor; [lia|done].
Qed.

(** For a strictly ascending request the kept pages are the requested ones,
    and the label of the i-th kept image is the i-th requested page. *)
Lemma ascending_request_labels p0 rest :
  StronglySorted Z.lt (p0 :: rest) ->
  kept_pages (p0 :: rest) (Py.min_list p0 rest) (Py.max_list p0 rest) = p0 :: rest /\
  forall i p, nth_error (p0 :: rest) i = Some p ->
              page_label (Some (p0 :: rest)) (Z.of_nat i) = p.
Proof.
  intros Hs. split.
  - apply kept_pages_ascending; [done|].
    destruct (min_list_le p0 rest) as [H1 H2], (max_list_ge p0 rest) as [H3 H4].
    constructor; [lia|]. rewrite List.Forall_forall in H2, H4 |- *. intros p Hp.
    specialize (H2 p Hp). specialize (H4 p Hp). lia.
  - intros i p Hi. unfold page_label, Py.index. by rewrite Nat2Z.id, Hi.
Qed.

(** A scanned PDF of three pages. *)
Definition three_pdf : string := "C:\Users\Admin\Desktop\HOA\pdfs\plans.pdf".
Definition three_data : string := "%PDF|Stext of page 1|Stext of page 2|Stext of page 3".

(** C2 at the request [3, 1]: pdf2image gives the images of pages 1 to 3,
    the filter keeps those of pages 1 and 3 in page order, and the labels are
    taken from the request by position: the text of page 1 is labelled
    Page 3 and the text of page 3 is labelled Page 1.  The ascending request
    [1, 3] is labelled as the pages are. *)
Theorem ocr_labels_by_position :
  let L := Demo.libraries in
  let w := Demo.world [(three_pdf, three_data)] in
  res (extract_text_with_ocr three_pdf (Some [3; 1]) w)
  = Ok ("--- Page 3 (OCR) ---" ++ Str.LF ++ "text of page 1" ++ Str.LF ++ Str.LF
        ++ "--- Page 1 (OCR) ---" ++ Str.LF ++ "text of page 3" ++ Str.LF) /\
  res (extract_text_with_ocr three_pdf (Some [1; 3]) w)
  = Ok ("--- Page 1 (OCR) ---" ++ Str.LF ++ "text of page 1" ++ Str.LF ++ Str.LF
        ++ "--- Page 3 (OCR) ---" ++ Str.LF ++ "text of page 3" ++ Str.LF).
Proof. cbn zeta. split; vm_compute; reflexivity. Qed.

(** Scanned PDFs with a page that pytesseract rejects: the first page, and
    the second. *)
Definition smudged_first : string := "%PDF|Bsmudged|Stext of page 2".
Definition smudged_second : string := "%PDF|Stext of page 1|Bsmudged|Stext of page 3".

Section PageErrors.

Context {L : Libraries}.

(** When OCR raises on the first image of a full document, the handler
    reads [actual_page] before any assignment: the whole extraction
    raises. *)
Lemma first_page_error_raises file_path w wr data image images e :
  fs w !! file_path = Some (File true wr data) ->
  convert_from_path data None None = Ok (image :: images) ->
  image_to_string image = Raise e ->
  res (extract_text_with_ocr file_path None w)
  = Raise (Exn RuntimeError
             ("Error performing OCR on PDF: " ++ unbound_local "actual_page")).
Proof.
  intros Hf Hc Hi.
  unfold extract_text_with_ocr, try_except, bind at 1, call_convert_from_path.
  rewrite Hf, Hc. unfold ocr_pages, Py.enumerate. cbn [List.length seq map combine for_each].
  unfold bind at 2. unfold try_except at 1. unfold bind at 2.
  unfold call_image_to_string, bind at 2, emit, lift. rewrite Hi. reflexivity.
Qed.

End PageErrors.

(** C3 at a document whose first page fails in OCR: extract_text_with_ocr
    raises, no page contributes a block, and extract_pdf_text fails with the
    combined error.  When the second page fails instead, the extraction goes
    on and the placeholder block is there, under the label of the page
    before. *)
Theorem first_page_ocr_error_aborts :
  let P := Demo.platform in
  let L := Demo.libraries in
  let w := Demo.world [(three_pdf, smudged_first)] in
  let w' := Demo.world [(three_pdf, smudged_second)] in
  let unbound := "cannot access local variable 'actual_page' where it is not associated with a value" in
  res (extract_text_with_ocr three_pdf None w)
  = Raise (Exn RuntimeError ("Error performing OCR on PDF: " ++ unbound)) /\
  res (extract_pdf_text three_pdf None false w)
  = Raise (Exn RuntimeError
             ("Both regular extraction and OCR failed. Regular error: "
              ++ "Error performing OCR on PDF: " ++ unbound
              ++ ", OCR error: Error performing OCR on PDF: " ++ unbound)) /\
  res (extract_text_with_ocr three_pdf None w')
  = Ok ("--- Page 1 (OCR) ---" ++ Str.LF ++ "text of page 1" ++ Str.LF ++ Str.LF
        ++ "--- Page 1 (OCR Error) ---" ++ Str.LF ++ "Error extracting text: smudged"
        ++ Str.LF ++ Str.LF
        ++ "--- Page 3 (OCR) ---" ++ Str.LF ++ "text of page 3" ++ Str.LF).
Proof. cbn zeta. split; [|split]; vm_compute; reflexivity. Qed.


(** * Further properties of the server *)

(** ** The tools answer with text *)

Section ToolAnswers.

Context {P : Platform} {L : Libraries}.

(** X1: read_pdf and search_pdf_content raise ValueError when a required
    argument is missing or empty, before anything is looked at; in every other
    case they return a text, whatever happens during the extraction: a failure
    of extract_pdf_text is returned as the text of the answer. *)
Theorem tools_answer_with_text file_path page_numbers force_ocr term case_sensitive w :
  match file_path with
  | Some (String _ _) =>
      exists text, res (read_pdf file_path page_numbers force_ocr w) = Ok text
  | _ =>
      read_pdf file_path page_numbers force_ocr w
      = (Raise (Exn ValueError "Missing file_path parameter"), w, [])
  end /\
  match file_path, term with
  | Some (String _ _), Some (String _ _) =>
      exists text, res (search_pdf_content file_path term case_sensitive w) = Ok text
  | _, _ =>
      search_pdf_content file_path term case_sensitive w
      = (Raise (Exn ValueError "Missing file_path or search_term parameter"), w, [])
  end.
Proof.
  split.
  - destruct file_path as [[|c p]|]; try done.
    unfold read_pdf, try_except, bind.
    destruct (extract_pdf_text (String c p) page_numbers force_ocr w) as [[[text|e] w1] t1];
      cbn; eauto.
  - destruct file_path as [[|c p]|], term as [[|c' t]|]; try done.
    unfold search_pdf_content, try_except, bind.
    destruct (extract_pdf_text (String c p) None false w) as [[[text|e] w1] t1];
      cbn; eauto.
Qed.

End ToolAnswers.

(** ** Events of a call *)

(** Every event of the call satisfies [Q]. *)
Definition emits (Q : event -> Prop) {A} (m : M A) : Prop :=
  forall w, Forall Q (events (m w)).

Section Emits.

Context (Q : event -> Prop).

Lemma emits_ret {A} (a : A) : emits Q (ret a).
Proof. intros w. constructor. Qed.

Lemma emits_raise {A} c msg : emits Q (@raise A c msg).
Proof. intros w. constructor. Qed.

Lemma emits_reraise {A} e : emits Q (@reraise A e).
Proof. intros w. constructor. Qed.

Lemma emits_lift {A} (r : result A) : emits Q (lift r).
Proof. intros w. constructor. Qed.

Lemma emits_get_world : emits Q get_world.
Proof. intros w. constructor. Qed.

Lemma emits_exists path : emits Q (IO.exists_ path).
Proof. intros w. constructor. Qed.

Lemma emits_emit e : Q e -> emits Q (emit e).
Proof. intros H w. by repeat constructor. Qed.

Lemma emits_bind {A B} (m : M A) (k : A -> M B) :
  emits Q m -> (forall a, emits Q (k a)) -> emits Q (bind m k).
Proof.
  intros Hm Hk w. specialize (Hm w). unfold bind.
  destruct (m w) as [[[a|e] w1] t1]; cbn in *; [|done].
  specialize (Hk a w1). destruct (k a w1) as [[r w2] t2]; cbn in *.
  by apply Forall_app.
Qed.

Lemma emits_try {A} (m : M A) (h : exn -> M A) :
  emits Q m -> (forall e, emits Q (h e)) -> emits Q (try_except m h).
Proof.
  intros Hm Hh w. specialize (Hm w). unfold try_except.
  destruct (m w) as [[[a|e] w1] t1]; cbn in *; [done|].
  specialize (Hh e w1). destruct (h e w1) as [[r w2] t2]; cbn in *.
  by apply Forall_app.
Qed.

Lemma emits_for_each {A S} (l : list A) (body : S -> A -> M S) s :
  (forall s x, emits Q (body s x)) -> emits Q (for_each l body s).
Proof.
  intros Hb. revert s. induction l as [|x l IH]; intros s; cbn.
  - apply emits_ret.
  - apply emits_bind; auto.
Qed.

Lemma emits_read_bytes path : Q (EvRead path) -> emits Q (IO.read_bytes path).
Proof.
  intros H w. unfold IO.read_bytes.
  destruct (fs w !! path) as [[|[] ? ?]|]; cbn; repeat constructor; done.
Qed.

Lemma emits_write_text `{Platform} path text :
  Q (EvWrite path) -> emits Q (IO.write_text path text).
Proof.
  intros HQ w. unfold IO.write_text.
  destruct (IO.write_error (fs w) path); cbn; repeat constructor; done.
Qed.

End Emits.

(** Apply the rules above to a call, splitting its conditionals. *)
Ltac emits_step :=
  match goal with
  | |- emits _ (bind _ _) => apply emits_bind; [|intros]
  | |- emits _ (try_except _ _) => apply emits_try; [|intros]
  | |- emits _ (for_each _ _ _) => apply emits_for_each; intros
  | |- emits _ (ret _) => apply emits_ret
  | |- emits _ (raise _ _) => apply emits_raise
  | |- emits _ (reraise _) => apply emits_reraise
  | |- emits _ (lift _) => apply emits_lift
  | |- emits _ get_world => apply emits_get_world
  | |- emits _ (IO.exists_ _) => apply emits_exists
  | |- emits _ (emit _) => apply emits_emit
  | |- emits _ (IO.read_bytes _) => apply emits_read_bytes
  | |- emits _ (IO.read_text _) => unfold IO.read_text
  | |- emits _ (IO.write_text _ _) => apply emits_write_text
  | |- emits _ (match ?x with _ => _ end) => destruct x
  | |- emits _ ((match ?x with _ => _ end) _) => destruct x
  | |- emits _ ((fun _ => _) _) => cbv beta
  end.

(** ** With force_ocr *)

(** An event other than a call of PyPDF2. *)
Definition not_pdf_reader (e : event) : Prop :=
  match e with
  | EvPdfReader _ => False
  | _ => True
  end.

Section ForceOcr.

Context {P : Platform} {L : Libraries}.

Lemma emits_call_convert Q file_path a b :
  Q (EvConvert file_path) -> Q (EvRead file_path) ->
  emits Q (call_convert_from_path file_path a b).
Proof.
  intros H1 H2 w. unfold call_convert_from_path.
  destruct (fs w !! file_path) as [[|[] ? ?]|]; cbn; repeat constructor; done.
Qed.

Lemma ocr_and_save_without_pdf_reader file_path page_numbers :
  emits not_pdf_reader (ocr_and_save file_path page_numbers).
Proof.
  unfold ocr_and_save, extract_text_with_ocr, requested_images, ocr_pages,
    call_image_to_string, save_cached_text, get_cache_file_path, get_pdf_hash.
  repeat first [emits_step | apply emits_call_convert | exact I].
Qed.

(** With force_ocr the call goes to the [try] at once, and OCR is its
    only step that can fail. *)
Lemma extract_pdf_text_forced file_path page_numbers w :
  is_Some (fs w !! file_path) -> is_path_allowed file_path = true ->
  extract_pdf_text file_path page_numbers true w =
  match res (ocr_and_save file_path page_numbers w) with
  | Ok text =>
      (Ok text,
       world_after (cache_in_memory (cache_key file_path page_numbers) text
                      (world_after (ocr_and_save file_path page_numbers w))),
       events (ocr_and_save file_path page_numbers w))
  | Raise e =>
      (Raise (Exn RuntimeError ("Error reading PDF: " ++ exn_str e)), w,
       events (ocr_and_save file_path page_numbers w))
  end.
Proof.
  intros Hex Hal. rewrite extract_pdf_text_cases.
  rewrite bool_decide_eq_true_2 by done. rewrite Hal. cbn [negb]. cbn zeta.
  unfold persistent_lookup. rewrite andb_false_r. cbn [ret res events fst snd].
  replace (match pdf_cache w !! cache_key file_path page_numbers with
           | Some _ | _ => after [] (try_except (live_extraction file_path page_numbers true)
                                      (ocr_fallback file_path page_numbers true) w)
           end)
    with (try_except (live_extraction file_path page_numbers true)
                     (ocr_fallback file_path page_numbers true) w)
    by (rewrite after_nil; by destruct (pdf_cache w !! _)).
  unfold try_except, live_extraction. cbn [negb]. unfold bind at 1. cbn [ret].
  rewrite after_eta, after_nil. unfold bind at 1.
  destruct (ocr_and_save file_path page_numbers w) as [[[text|e] w1] t1] eqn:E.
  - rewrite after_eta. unfold after, bind, cache_in_memory. cbn [res world_after events fst snd].
    destruct (size (pdf_cache w1) <? 10)%nat; cbn; by rewrite !app_nil_r.
  - apply ocr_and_save_outcome in E as [_ ->]. cbn. by rewrite app_nil_r.
Qed.

(** X2: With force_ocr, a call on an existing, allowed path is one run of OCR
    (with the cache file written for a full document) followed by the
    admission to [pdf_cache]: neither cache is looked up, PyPDF2 is not
    called, and a failure of OCR is raised as "Error reading PDF" without a
    second attempt. *)
Theorem force_ocr_is_one_ocr_run file_path page_numbers w :
  is_Some (fs w !! file_path) -> is_path_allowed file_path = true ->
  let o := ocr_and_save file_path page_numbers w in
  extract_pdf_text file_path page_numbers true w =
  match res o with
  | Ok text =>
      (Ok text,
       world_after (cache_in_memory (cache_key file_path page_numbers) text (world_after o)),
       events o)
  | Raise e =>
      (Raise (Exn RuntimeError ("Error reading PDF: " ++ exn_str e)), w, events o)
  end /\
  Forall not_pdf_reader (events (extract_pdf_text file_path page_numbers true w)).
Proof.
  intros Hex Hal. cbn zeta.
  split; [by apply extract_pdf_text_forced|]. rewrite extract_pdf_text_forced by done.
  pose proof (ocr_and_save_without_pdf_reader file_path page_numbers w) as Hq.
  by destruct (res (ocr_and_save file_path page_numbers w)).
Qed.

End ForceOcr.

(** ** Loops that append *)

Lemma for_each_appends {A B} (l : list A) (f : A -> B) (body : list B -> A -> M (list B))
    acc w :
  (forall acc x, In x l -> body acc x w = (Ok (Py.append acc (f x)), w, [])) ->
  for_each l body acc w = (Ok (acc ++ map f l)%list, w, []).
Proof.
  revert acc. induction l as [|x l IH]; intros acc H; cbn [for_each map].
  - by rewrite app_nil_r.
  - erewrite bind_ok by (apply H; by left).
    rewrite IH by (intros; apply H; by right).
    cbn. unfold Py.append. by rewrite <- app_assoc.
Qed.

(** ** Direct extraction *)

(** [f"--- Page {page_num + 1} ---\n{page.extract_text()}\n"], by the number
    of the page. *)
Definition page_block (page : Z) (text : string) : string :=
  "--- Page " ++ Str.of_int page ++ " ---" ++ Str.LF ++ text ++ Str.LF.

Section Direct.

Context {P : Platform} {L : Libraries}.

(** The pages that direct extraction reads for a request on a document of
    [n] pages: the requested pages that exist, in the order and as often as
    they are requested; every page for a full document. *)
Definition pages_read (page_numbers : option (list Z)) (n : Z) : list Z :=
  match page_numbers with
  | Some ((_ :: _) as l) => List.filter (fun p => (1 <=? p) && (p <=? n)) l
  | _ => Py.range 1 (n + 1)
  end.

Lemma index_map_ok (texts : list string) (i : Z) :
  0 <= i < Z.of_nat (List.length texts) ->
  Py.index (map Ok texts) i = Some (Ok (nth (Z.to_nat i) texts "")).
Proof.
  intros H. unfold Py.index. rewrite nth_error_map.
  rewrite (nth_error_nth' texts "") by lia. done.
Qed.

(** Direct extraction of a PDF whose pages all give their text: one block
    for each page read, labelled with the number of that page; requested pages
    that the document does not have are left out without an error. *)
Lemma regular_extraction_blocks file_path page_numbers w wr data texts :
  fs w !! file_path = Some (File true wr data) ->
  PdfReader data = Ok (map Ok texts) ->
  regular_extraction file_path page_numbers w
  = (Ok (Str.join Str.LF
           (map (fun p => page_block p (nth (Z.to_nat (p - 1)) texts ""))
                (pages_read page_numbers (Z.of_nat (List.length texts))))),
     w, [EvRead file_path; EvPdfReader file_path]).
Proof.
  intros Hf Hp. unfold regular_extraction.
  erewrite bind_ok.
  2:{ apply open_pdf_ok with (data := data); [|done]. unfold IO.read_bytes. by rewrite Hf. }
  rewrite length_map.
  set (n := Z.of_nat (List.length texts)).
  set (to_read := match page_numbers with
                  | Some ((_ :: _) as l) =>
                      map (fun p => p - 1)
                          (List.filter (fun p => (0 <=? p - 1) && (p - 1 <? n)) l)
                  | _ => Py.range 0 n
                  end).
  assert (Hread : to_read = map (fun p => p - 1) (pages_read page_numbers n)
                  /\ Forall (fun i => 0 <= i < n) to_read).
  { unfold to_read, pages_read.
    assert (Hr : Py.range 0 n = map (fun p => p - 1) (Py.range 1 (n + 1))
                 /\ Forall (fun i => 0 <= i < n) (Py.range 0 n)).
    { split.
      - unfold Py.range. rewrite map_map. replace (n + 1 - 1) with (n - 0) by lia.
        apply map_ext. intros i. lia.
      - apply List.Forall_forall. intros i Hi%range_In. lia. }
    destruct page_numbers as [[|p0 rest]|]; try done.
    split.
    - f_equal. apply List.filter_ext. intros p.
      destruct (0 <=? p - 1) eqn:E1, (p - 1 <? n) eqn:E2, (1 <=? p) eqn:E3, (p <=? n) eqn:E4;
        try done; lia.
    - apply List.Forall_forall. intros i (p & <- & Hp')%in_map_iff.
      apply filter_In in Hp' as [_ Hp']. lia. }
  destruct Hread as [Heq Hrange]. rewrite Heq in Hrange |- *. clear Heq to_read.
  erewrite bind_ok.
  2:{ apply for_each_appends
        with (f := fun i => page_block (i + 1) (nth (Z.to_nat i) texts "")).
      intros acc i Hi. rewrite List.Forall_forall in Hrange. specialize (Hrange i Hi).
      rewrite index_map_ok by done. reflexivity. }
  cbn. rewrite map_map. do 3 f_equal. rewrite ?app_nil_r. f_equal. apply map_ext. intros p.
  by replace (p - 1 + 1) with p by lia.
Qed.

End Direct.

(** ** OCR, page by page *)

(** The blocks of the OCR loop: [f"--- Page {actual_page} (OCR) ---\n..."] and
    [f"--- Page {actual_page} (OCR Error) ---\nError extracting text: ..."]. *)
Definition ocr_block (page : Z) (text : string) : string :=
  "--- Page " ++ Str.of_int page ++ " (OCR) ---" ++ Str.LF ++ text ++ Str.LF.

Definition ocr_error_block (page : Z) (msg : string) : string :=
  "--- Page " ++ Str.of_int page ++ " (OCR Error) ---" ++ Str.LF
  ++ "Error extracting text: " ++ msg ++ Str.LF.

Section OcrPages.

Context {L : Libraries}.

(** What the blocks of the images are, from the image at position [k] on. *)
Definition blocks_of (page_numbers : option (list Z)) (k : nat) (images blocks : list string)
  : Prop :=
  List.length blocks = List.length images /\
  forall i image,
    nth_error images i = Some image ->
    match image_to_string image with
    | Ok text =>
        nth_error blocks i
        = Some (ocr_block (page_label page_numbers (Z.of_nat (k + i))) text)
    | Raise e =>
        exists j, (j < k + i)%nat /\
          nth_error blocks i
          = Some (ocr_error_block (page_label page_numbers (Z.of_nat j)) (exn_str e))
    end.

(** The loop from a position where [actual_page] is bound. *)
Lemma ocr_loop_bound page_numbers (body : list string * option Z -> Z * string
                                          -> M (list string * option Z))
    images k acc j w :
  (forall acc a i image w,
     body (acc, Some a) (i, image) w =
     match image_to_string image with
     | Ok text => (Ok (Py.append acc (ocr_block (page_label page_numbers i) text),
                       Some (page_label page_numbers i)),
                   w, [EvImageToString image])
     | Raise e => (Ok (Py.append acc (ocr_error_block a (exn_str e)), Some a),
                   w, [EvImageToString image])
     end) ->
  (j < k)%nat ->
  exists blocks a t,
    for_each (combine (map Z.of_nat (seq k (List.length images))) images) body
      (acc, Some (page_label page_numbers (Z.of_nat j))) w
    = (Ok ((acc ++ blocks)%list, Some a), w, t) /\
    blocks_of page_numbers k images blocks.
Proof.
  intros Hbody. revert k acc j. induction images as [|image images IH]; intros k acc j Hj.
  - exists [], (page_label page_numbers (Z.of_nat j)), []. cbn. rewrite app_nil_r.
    split; [done|]. split; [done|]. by intros [|i] image.
  - cbn [List.length seq map combine for_each].
    specialize (Hbody acc (page_label page_numbers (Z.of_nat j)) (Z.of_nat k) image w).
    destruct (image_to_string image) as [text|e] eqn:E.
    + destruct (IH (S k) (Py.append acc (ocr_block (page_label page_numbers (Z.of_nat k)) text))
                  k ltac:(lia)) as (blocks & a & t & Hloop & Hlen & Hblocks).
      exists (ocr_block (page_label page_numbers (Z.of_nat k)) text :: blocks), a,
        ([EvImageToString image] ++ t)%list.
      split.
      * erewrite bind_ok by exact Hbody. rewrite Hloop. cbn.
        unfold Py.append. by rewrite <- app_assoc.
      * split; [cbn; by rewrite Hlen|].
        intros [|i] img Hi; cbn in Hi.
        -- injection Hi as <-. rewrite E. cbn. by rewrite Nat.add_0_r.
        -- specialize (Hblocks i img Hi). replace (k + S i)%nat with (S k + i)%nat by lia.
           done.
    + destruct (IH (S k) (Py.append acc (ocr_error_block (page_label page_numbers (Z.of_nat j))
                                           (exn_str e)))
                  j ltac:(lia)) as (blocks & a & t & Hloop & Hlen & Hblocks).
      exists (ocr_error_block (page_label page_numbers (Z.of_nat j)) (exn_str e) :: blocks), a,
        ([EvImageToString image] ++ t)%list.
      split.
      * erewrite bind_ok by exact Hbody. rewrite Hloop. cbn.
        unfold Py.append. by rewrite <- app_assoc.
      * split; [cbn; by rewrite Hlen|].
        intros [|i] img Hi; cbn in Hi.
        -- injection Hi as <-. rewrite E. exists j. split; [lia|done].
        -- specialize (Hblocks i img Hi). replace (k + S i)%nat with (S k + i)%nat by lia.
           done.
Qed.

(** When OCR reads the first image, the loop goes through every image: a
    block for each, a labelled text where OCR succeeds and a placeholder
    under the label of an earlier page where it raises. *)
Lemma ocr_pages_after_first page_numbers image images text0 w :
  image_to_string image = Ok text0 ->
  exists blocks a t,
    ocr_pages page_numbers (image :: images) w = (Ok (blocks, Some a), w, t) /\
    blocks_of page_numbers 0 (image :: images) blocks.
Proof.
  intros H0. unfold ocr_pages, Py.enumerate. cbn [List.length seq map combine for_each].
  match goal with
  | |- context [for_each _ ?b _] => set (body := b)
  end.
  assert (Hbody : forall acc a i img w,
             body (acc, Some a) (i, img) w =
             match image_to_string img with
             | Ok text => (Ok (Py.append acc (ocr_block (page_label page_numbers i) text),
                               Some (page_label page_numbers i)),
                           w, [EvImageToString img])
             | Raise e => (Ok (Py.append acc (ocr_error_block a (exn_str e)), Some a),
                           w, [EvImageToString img])
             end).
  { intros acc a i img w'. unfold body, try_except, call_image_to_string, bind, emit, lift.
    by destruct (image_to_string img). }
  assert (Hfirst : body ([], None) (0, image) w
                   = (Ok ([ocr_block (page_label page_numbers 0) text0],
                          Some (page_label page_numbers 0)),
                      w, [EvImageToString image])).
  { unfold body, try_except, call_image_to_string, bind, emit, lift. by rewrite H0. }
  destruct (ocr_loop_bound page_numbers body images 1
              [ocr_block (page_label page_numbers 0) text0] 0 w Hbody ltac:(lia))
    as (blocks & a & t & Hloop & Hlen & Hblocks).
  exists (ocr_block (page_label page_numbers 0) text0 :: blocks), a,
    ([EvImageToString image] ++ t)%list.
  split.
  - erewrite bind_ok by exact Hfirst. change (Z.of_nat 0) with 0 in Hloop.
    rewrite Hloop. done.
  - split; [cbn; by rewrite Hlen|].
    intros [|i] img Hi; cbn in Hi.
    + injection Hi as <-. by rewrite H0.
    + specialize (Hblocks i img Hi). cbn [Nat.add]. 
      replace (1 + i)%nat with (S i) in Hblocks by lia. done.
Qed.

(** X3: OCR of a full document whose first page is read: the extraction
    returns, with one block for every page; the block of a page that OCR reads
    carries the number of that page, the block of a page on which OCR raises
    is a placeholder with the error, under the number of an earlier page. *)
Theorem ocr_goes_on_after_first_page file_path w wr data image images text0 :
  fs w !! file_path = Some (File true wr data) ->
  convert_from_path data None None = Ok (image :: images) ->
  image_to_string image = Ok text0 ->
  exists blocks,
    res (extract_text_with_ocr file_path None w) = Ok (Str.join Str.LF blocks) /\
    List.length blocks = S (List.length images) /\
    forall i img,
      nth_error (image :: images) i = Some img ->
      match image_to_string img with
      | Ok text => nth_error blocks i = Some (ocr_block (Z.of_nat i + 1) text)
      | Raise e =>
          exists page, 1 <= page <= Z.of_nat i /\
            nth_error blocks i = Some (ocr_error_block page (exn_str e))
      end.
Proof.
  intros Hf Hc H0.
  destruct (ocr_pages_after_first None image images text0 w H0)
    as (blocks & a & t & Hloop & Hlen & Hblocks).
  exists blocks. split; [|split; [done|]].
  - unfold extract_text_with_ocr.
    erewrite try_ok; [done|].
    erewrite bind_ok.
    2:{ unfold call_convert_from_path. rewrite Hf, Hc. reflexivity. }
    erewrite bind_ok by exact Hloop. reflexivity.
  - intros i img Hi. specialize (Hblocks i img Hi). cbn [Nat.add page_label] in Hblocks.
    destruct (image_to_string img) as [text|e]; [done|].
    destruct Hblocks as (j & Hj & Hb). exists (Z.of_nat j + 1). split; [lia|done].
Qed.

End OcrPages.

(** ** A request beyond the document *)

(** A loop that raises on one of its elements, all of whose failures are
    the same exception, raises that exception. *)
Lemma for_each_raises_with {A S} (l : list A) (body : S -> A -> M S) x e0 :
  In x l ->
  (forall s w, res (body s x w) = Raise e0) ->
  (forall s y w e, res (body s y w) = Raise e -> e = e0) ->
  forall s w, res (for_each l body s w) = Raise e0.
Proof.
  intros Hin Hx Hall. induction l as [|y l IH]; [done|]. intros s w. cbn [for_each].
  unfold bind. destruct (body s y w) as [[[s'|e] w1] t1] eqn:E.
  - destruct Hin as [->|Hin].
    + specialize (Hx s w). by rewrite E in Hx.
    + specialize (IH Hin s' w1). by destruct (for_each l body s' w1) as [[r w2] t2].
  - cbn. f_equal. apply (Hall s y w). by rewrite E.
Qed.

Lemma enumerate_range_In a b q :
  a <= q < b -> In (q - a, q) (Py.enumerate (Py.range a b)).
Proof.
  intros H. replace (q - a) with (Z.of_nat (Z.to_nat (q - a))) by lia.
  apply enumerate_nth. unfold Py.range.
  rewrite nth_error_map, nth_error_seq.
  destruct (Nat.ltb_spec (Z.to_nat (q - a)) (Z.to_nat (b - a))); [|lia].
  cbn. f_equal. lia.
Qed.

Section Beyond.

Context {L : Libraries}.

(** X4: When pdf2image gives fewer images than the requested range has pages
    (it cuts the range at the end of the document) and a requested page has
    no image, the filter indexes past the images: OCR fails as a whole with
    the IndexError, and no page is read. *)
Theorem request_beyond_document_fails file_path p0 rest w wr data images q :
  fs w !! file_path = Some (File true wr data) ->
  convert_from_path data (Some (Py.min_list p0 rest)) (Some (Py.max_list p0 rest))
  = Ok images ->
  In q (p0 :: rest) ->
  Z.of_nat (List.length images) <= q - Py.min_list p0 rest ->
  extract_text_with_ocr file_path (Some (p0 :: rest)) w
  = (Raise (Exn RuntimeError "Error performing OCR on PDF: list index out of range"),
     w, [EvConvert file_path; EvRead file_path]).
Proof.
  intros Hf Hc Hq Hlen.
  assert (Hbounds : Py.min_list p0 rest <= q < Py.max_list p0 rest + 1).
  { destruct (min_list_le p0 rest) as [H1 H2], (max_list_ge p0 rest) as [H3 H4].
    destruct Hq as [<-|Hq]; [lia|].
    rewrite List.Forall_forall in H2, H4. specialize (H2 q Hq). specialize (H4 q Hq). lia. }
  assert (Hreq : exists t,
             requested_images images (p0 :: rest) (Py.min_list p0 rest) (Py.max_list p0 rest) w
             = (Raise (Exn IndexError "list index out of range"), w, t) /\ t = []).
  { unfold requested_images.
    match goal with
    | |- context [for_each ?l ?b ?s w] =>
        pose proof (for_each_raises_with l b (q - Py.min_list p0 rest, q)
                      (Exn IndexError "list index out of range")
                      (enumerate_range_In _ _ _ Hbounds)) as Hr;
        assert (Hw : world_after (for_each l b s w) = w
                     /\ events (for_each l b s w) = []);
        [|destruct (for_each l b s w) as [[r w1] t1] eqn:E]
    end.
    - split.
      + match goal with
        | |- world_after (for_each ?l ?b ?s w) = w =>
            assert (Hk : keeps unchanged (for_each l b s))
        end.
        { apply keeps_for_each; [apply _|]. intros s [i page].
          destruct (Py.mem page (p0 :: rest)); [destruct (Py.index images i)|]; intros w'; done. }
        apply (Hk w).
      + match goal with
        | |- events (for_each ?l ?b ?s w) = [] =>
            assert (Hev : emits (fun _ => False) (for_each l b s))
        end.
        { apply emits_for_each. intros s [i page].
          destruct (Py.mem page (p0 :: rest)); [destruct (Py.index images i)|];
            intros w'; constructor. }
        specialize (Hev w). by destruct Hev.
    - cbn in Hw. destruct Hw as [-> ->]. exists []. split; [|done]. f_equal. f_equal.
      change r with (res (r, w, @nil event)). rewrite <- E. apply Hr.
      + intros s w'. replace (Py.mem q (p0 :: rest)) with true
          by (symmetry; by apply mem_In).
        unfold Py.index. rewrite (proj2 (nth_error_None _ _)) by lia. done.
      + intros s [i page] w' e.
        destruct (Py.mem page (p0 :: rest)); [destruct (Py.index images i)|]; cbn; congruence. }
  destruct Hreq as (t & Hreq & ->).
  unfold extract_text_with_ocr.
  erewrite try_raise.
  2:{ erewrite bind_raise; [reflexivity|].
      erewrite bind_ok.
      2:{ unfold call_convert_from_path. rewrite Hf, Hc. reflexivity. }
      rewrite Hreq. reflexivity. }
  reflexivity.
Qed.

End Beyond.

(** ** The fallback and the dictionary *)

Section FallbackCache.

Context {P : Platform} {L : Libraries}.

(** X5: When direct extraction raises and the OCR of the [except] branch
    succeeds, the text is returned and, for a full document, written to the
    cache file, and [pdf_cache] is left as it was: the result of the fallback
    is not kept in memory. *)
Theorem fallback_result_not_in_memory file_path page_numbers w e text :
  is_Some (fs w !! file_path) -> is_path_allowed file_path = true ->
  misses_caches file_path page_numbers w ->
  res (has_extractable_text file_path 3 w) = Ok true ->
  res (regular_extraction file_path page_numbers w) = Raise e ->
  res (extract_text_with_ocr file_path page_numbers w) = Ok text ->
  let o := extract_pdf_text file_path page_numbers false w in
  res o = Ok text /\
  pdf_cache (world_after o) = pdf_cache w /\
  saved_or_not file_path text w (world_after o).
Proof.
  intros Hex Hal Hmiss Hcl Hreg Hocr. cbn zeta.
  pose proof (both_errors_are_reported _ _ _ _ Hex Hal Hmiss Hcl Hreg) as Hres.
  rewrite Hocr in Hres. split; [done|].
  destruct (extract_pdf_text file_path page_numbers false w) as [[r w'] t] eqn:E.
  cbn in Hres. subst r. cbn [world_after fst snd].
  rewrite (extract_pdf_text_miss _ _ _ Hex Hal Hmiss) in E.
  apply after_inv in E as (t2 & E & _).
  apply try_inv in E as [(a & E & _)|(e' & w1 & t1 & t3 & El & E & _)].
  - exfalso. unfold live_extraction in E. cbn [negb] in E.
    apply bind_inv in E as [(b & w1 & t1 & t3 & Hb & E & _)|(e' & _ & ?)]; [|done].
    pose proof (unchanged_inv _ _ _ _ _ (keeps_has_extractable_text unchanged _ _) Hb) as ->.
    rewrite Hb in Hcl. cbn in Hcl. injection Hcl as ->.
    apply bind_inv in E as [(x & w1 & t4 & t5 & Hx & _)|(e' & _ & ?)]; [|done].
    rewrite Hx in Hreg. done.
  - apply live_extraction_outcome in El as ->.
    unfold ocr_fallback in E. cbn [negb] in E.
    apply try_inv in E as [(a & E & [= <-])|(e'' & w2 & t4 & t5 & _ & E & _)]; [|done].
    by apply ocr_and_save_outcome in E.
Qed.

End FallbackCache.

(** ** The classifier looks at three pages *)

Lemma for_each_folds {A S} (l : list A) (f : S -> A -> S) (body : S -> A -> M S) s w :
  (forall s x, In x l -> body s x w = (Ok (f s x), w, [])) ->
  for_each l body s w = (Ok (fold_left f l s), w, []).
Proof.
  revert s. induction l as [|x l IH]; intros s H; cbn [for_each fold_left]; [done|].
  erewrite bind_ok by (apply H; by left).
  rewrite IH by (intros; apply H; by right). done.
Qed.

Lemma fold_left_mapped {A B S} (f : S -> B -> S) (g : A -> B) (l : list A) s :
  fold_left f (map g l) s = fold_left (fun s x => f s (g x)) l s.
Proof. revert s. induction l as [|x l IH]; intros s; cbn; [done|apply IH]. Qed.

Lemma range_firstn {A} (l : list A) (d : A) (k : nat) :
  (k <= List.length l)%nat ->
  map (fun i => nth (Z.to_nat i) l d) (Py.range 0 (Z.of_nat k)) = firstn k l.
Proof.
  intros Hk. unfold Py.range. rewrite map_map.
  replace (Z.to_nat (Z.of_nat k - 0)) with k by lia.
  revert l Hk. induction k as [|k IH]; intros l Hk; [done|].
  destruct l as [|x l]; [cbn in Hk; lia|].
  rewrite <- cons_seq, <- seq_shift, !map_cons, map_map. cbn [firstn]. f_equal.
  rewrite <- (IH l) by (cbn in Hk; lia). apply map_ext. intros i.
  by rewrite !Z.add_0_l, !Nat2Z.id.
Qed.

(** [len(page.extract_text().strip())], summed over the first three pages. *)
Definition sampled_length (texts : list string) : Z :=
  fold_left (fun total text => total + Str.len (Str.strip text)) (firstn 3 texts) 0.

Section Classifier.

Context {L : Libraries}.

(** X6: The classifier extracts the first three pages and no other: a PDF is
    a text PDF exactly when the stripped texts of these pages have more than
    50 characters on average, whatever the later pages hold and whether or
    not their text can be extracted.  A PDF without pages is not a text PDF:
    the division by zero is caught. *)
Theorem has_extractable_text_first_three file_path w wr data texts later :
  fs w !! file_path = Some (File true wr data) ->
  PdfReader data = Ok (map Ok texts ++ later)%list ->
  later = [] \/ (3 <= List.length texts)%nat ->
  has_extractable_text file_path 3 w
  = (Ok (50 * Z.min 3 (Z.of_nat (List.length texts)) <? sampled_length texts),
     w, [EvRead file_path; EvPdfReader file_path]).
Proof.
  intros Hf Hp Hl. unfold has_extractable_text.
  set (pages := (map Ok texts ++ later)%list) in *.
  set (k := Nat.min 3 (List.length texts)).
  assert (Hk : Z.min 3 (Z.of_nat (List.length pages)) = Z.of_nat k).
  { unfold pages, k. rewrite length_app, length_map. destruct Hl as [->|Hl]; cbn [List.length]; lia. }
  assert (Hsum : sampled_length texts
                 = fold_left (fun total i => total + Str.len (Str.strip (nth (Z.to_nat i) texts "")))
                     (Py.range 0 (Z.of_nat k)) 0).
  { unfold sampled_length.
    rewrite <- (fold_left_mapped (fun total text => total + Str.len (Str.strip text))
                 (fun i => nth (Z.to_nat i) texts "")).
    rewrite range_firstn by (unfold k; lia).
    unfold k. destruct (Nat.le_ge_cases 3 (List.length texts)).
    - by rewrite Nat.min_l.
    - rewrite Nat.min_r by done. by rewrite !firstn_all2. }
  assert (Hbody : exists body,
             body = (fun (total : Z) (i : Z) =>
                       match Py.index pages i with
                       | Some page =>
                           bind (lift page) (fun page_text =>
                             ret (total + Str.len (Str.strip page_text)))
                       | None => raise IndexError "sequence index out of range"
                       end) /\
             for_each (Py.range 0 (Z.of_nat k)) body 0 w
             = (Ok (sampled_length texts), w, [])).
  { eexists. split; [reflexivity|]. rewrite Hsum. apply for_each_folds.
    intros total i Hi%range_In. unfold Py.index, pages.
    rewrite nth_error_app1 by (rewrite length_map; unfold k in Hi; lia).
    rewrite nth_error_map, (nth_error_nth' texts "") by (unfold k in Hi; lia). done. }
  destruct Hbody as (body & -> & Hloop).
  assert (Hk' : Z.of_nat k = Z.min 3 (Z.of_nat (List.length texts))) by (unfold k; lia).
  clearbody k.
  destruct (Nat.eq_dec k 0%nat) as [Hz|Hnz].
  - subst k. erewrite try_raise.
    2:{ erewrite bind_ok.
        2:{ apply open_pdf_ok with (data := data); [|exact Hp].
            unfold IO.read_bytes. by rewrite Hf. }
        fold pages. rewrite Hk. erewrite bind_ok by exact Hloop.
        cbn. reflexivity. }
    assert (List.length texts = 0)%nat as Hn by lia.
    by destruct texts; [|discriminate Hn].
  - erewrite try_ok; [reflexivity|].
    erewrite bind_ok.
    2:{ apply open_pdf_ok with (data := data); [|exact Hp].
        unfold IO.read_bytes. by rewrite Hf. }
    fold pages. rewrite Hk. erewrite bind_ok by exact Hloop.
    destruct (Z.of_nat k =? 0) eqn:E1; [lia|].
    destruct (0 <? Z.of_nat k) eqn:E2; [|lia].
    cbn. by rewrite Hk'.
Qed.

End Classifier.

(** ** A text PDF *)

(** A read of a file or a call of PyPDF2: neither OCR nor a write. *)
Definition reads_only (e : event) : Prop :=
  match e with
  | EvRead _ | EvPdfReader _ => True
  | _ => False
  end.

Section TextPdf.

Context {P : Platform} {L : Libraries}.

Lemma persistent_lookup_reads_only file_path page_numbers force_ocr :
  emits reads_only (persistent_lookup file_path page_numbers force_ocr).
Proof.
  unfold persistent_lookup, load_cached_text, get_cache_file_path, get_pdf_hash.
  repeat first [emits_step | exact I].
Qed.

Lemma kept_and_returned key text w :
  (cache_in_memory key text ;;; ret text) w
  = (Ok text, world_after (cache_in_memory key text w), []).
Proof. unfold bind, cache_in_memory. by destruct (size (pdf_cache w) <? 10)%nat. Qed.

Lemma has_extractable_text_reads_only file_path k :
  emits reads_only (has_extractable_text file_path k).
Proof.
  unfold has_extractable_text, open_pdf.
  repeat first [emits_step | exact I].
Qed.

(** X7: A PDF that the classifier takes for a text PDF and whose pages all
    give their text, on a miss of both caches: the answer has one block for
    each page read, under the number of that page, in the order of the
    request; pages that the document does not have are left out.  The text is
    kept in [pdf_cache] if there is room, pdf2image and pytesseract are not
    called and no file is written. *)
Theorem text_pdf_is_read_directly file_path page_numbers w wr data texts :
  fs w !! file_path = Some (File true wr data) ->
  is_path_allowed file_path = true ->
  misses_caches file_path page_numbers w ->
  PdfReader data = Ok (map Ok texts) ->
  res (has_extractable_text file_path 3 w) = Ok true ->
  let text :=
    Str.join Str.LF
      (map (fun p => page_block p (nth (Z.to_nat (p - 1)) texts ""))
           (pages_read page_numbers (Z.of_nat (List.length texts)))) in
  let o := extract_pdf_text file_path page_numbers false w in
  res o = Ok text /\
  world_after o = world_after (cache_in_memory (cache_key file_path page_numbers) text w) /\
  Forall reads_only (events o).
Proof.
  intros Hf Hal Hmiss Hp Hcl. cbn zeta.
  assert (Hcl' : has_extractable_text file_path 3 w
                 = (Ok true, w, events (has_extractable_text file_path 3 w))).
  { rewrite (outcome_eta (has_extractable_text file_path 3 w)) at 1. rewrite Hcl.
    do 2 f_equal. apply (keeps_has_extractable_text unchanged). }
  assert (Hex : is_Some (fs w !! file_path)) by (by rewrite Hf).
  rewrite (extract_pdf_text_miss _ _ _ Hex Hal Hmiss).
  erewrite try_ok.
  2:{ unfold live_extraction. cbn [negb].
      erewrite bind_ok by exact Hcl'.
      erewrite bind_ok by (by eapply regular_extraction_blocks).
      rewrite kept_and_returned. cbn. reflexivity. }
  cbn [after res world_after events fst snd]. split; [done|]. split; [done|].
  apply Forall_app. split; [apply persistent_lookup_reads_only|].
  apply Forall_app. split; [apply has_extractable_text_reads_only|].
  repeat constructor.
Qed.

End TextPdf.

(** ** The cache file, written and read back *)

Lemma text_mode_round_trip_lf text :
  no_carriage_return text = true ->
  IO.universal_newlines (IO.translate_newlines (String IO.NL EmptyString) text) = text.
Proof.
  induction text as [|c text IH]; [done|]. cbn [no_carriage_return].
  intros [Hc Ht]%andb_true_iff. apply negb_true_iff in Hc.
  cbn [IO.translate_newlines]. destruct (Ascii.eqb c IO.NL) eqn:E.
  - apply Ascii.eqb_eq in E as ->.
    change (IO.universal_newlines
              (String IO.NL (IO.translate_newlines (String IO.NL EmptyString) text))
            = String IO.NL text).
    cbn [IO.universal_newlines]. rewrite Hc. by rewrite IH.
  - cbn [IO.universal_newlines]. rewrite Hc. by rewrite IH.
Qed.

Section RoundTrip.

Context {P : Platform} {L : Libraries}.

(** X8: save_cached_text on a readable PDF returns normally and leaves
    [pdf_cache] alone.  When [open] refuses the cache file for writing (a
    file without write permission, a directory, a new file in a directory
    that is missing or does not allow it), the error is swallowed and nothing
    has changed.  When [open] succeeds, no other file has changed and
    load_cached_text reads back what was saved: if the file can be read, the
    line ending of the platform is CR LF or LF and the text has no carriage
    return, the text that is loaded after the save is the text that was
    saved. *)
Theorem cache_file_round_trip file_path text w wr data :
  fs w !! file_path = Some (File true wr data) ->
  let cache_file :=
    path_join (dirname file_path) (cache_filename (pdf_name file_path) (file_hash data)) in
  cache_file <> file_path ->
  (forall wr0 old, fs w !! cache_file <> Some (File false wr0 old)) ->
  linesep = String IO.CR (String IO.NL EmptyString) \/ linesep = String IO.NL EmptyString ->
  no_carriage_return text = true ->
  let o := save_cached_text file_path text w in
  res o = Ok tt /\
  pdf_cache (world_after o) = pdf_cache w /\
  match IO.write_error (fs w) cache_file with
  | Some _ => world_after o = w
  | None =>
      res (load_cached_text file_path (world_after o)) = Ok (Some text) /\
      forall other, other <> cache_file -> fs (world_after o) !! other = fs w !! other
  end.
Proof.
  intros Hf. cbn zeta. intros Hne Hslot Hsep Hcr.
  set (cache_file := path_join (dirname file_path)
                       (cache_filename (pdf_name file_path) (file_hash data))) in *.
  assert (Htext : IO.decode_text (IO.encode_text linesep text) = Some text).
  { rewrite decode_encode_text. f_equal. destruct Hsep as [-> | ->];
      [by apply text_mode_round_trip|by apply text_mode_round_trip_lf]. }
  assert (Hsave : save_cached_text file_path text w
                  = match IO.write_error (fs w) cache_file with
                    | Some _ => (Ok tt, w, [EvRead file_path])
                    | None =>
                        (Ok tt,
                         mkWorld (<[cache_file := IO.overwritten (fs w !! cache_file)
                                                    (IO.encode_text linesep text)]> (fs w))
                                 (pdf_cache w),
                         [EvRead file_path; EvWrite cache_file])
                    end).
  { unfold save_cached_text.
    erewrite bind_ok by (by eapply get_cache_file_path_readable).
    fold cache_file. unfold try_except, IO.write_text.
    by destruct (IO.write_error (fs w) cache_file). }
  rewrite Hsave.
  destruct (IO.write_error (fs w) cache_file) as [e|] eqn:E;
    cbn [res world_after fst snd fs pdf_cache]; [done|].
  split; [done|]. split; [done|]. split; [|intros other Ho; by rewrite lookup_insert_ne].
  assert (Hnode : IO.overwritten (fs w !! cache_file) (IO.encode_text linesep text)
                  = File true true (IO.encode_text linesep text)).
  { specialize (Hslot true). revert E Hslot. unfold IO.write_error.
    destruct (fs w !! cache_file) as [[|[] [] old]|]; try done.
    intros _ Hslot. by destruct (Hslot old). }
  rewrite Hnode. unfold load_cached_text.
  erewrite bind_ok.
  2:{ eapply get_cache_file_path_readable with (wr := wr) (data := data).
      cbn [fs]. by rewrite lookup_insert_ne. }
  fold cache_file. unfold bind, IO.exists_, try_except, IO.read_text, IO.read_bytes, bind.
  cbn [fs]. rewrite lookup_insert_eq.
  rewrite bool_decide_eq_true_2 by eauto. cbn. rewrite lookup_insert_eq. cbn.
  by rewrite Htext.
Qed.

End RoundTrip.

(** ** OCR that fails *)

Section Retry.

Context {P : Platform} {L : Libraries}.

(** X9: When the classifier sends the call to OCR and OCR raises, the
    [except] branch runs OCR a second time on the same file: the failure of
    the first run is reported as the error of regular extraction and that of
    the second run as the OCR error, and nothing is written. *)
Theorem failed_ocr_is_run_again file_path page_numbers w e :
  is_Some (fs w !! file_path) -> is_path_allowed file_path = true ->
  misses_caches file_path page_numbers w ->
  res (has_extractable_text file_path 3 w) = Ok false ->
  res (extract_text_with_ocr file_path page_numbers w) = Raise e ->
  let ocr := events (extract_text_with_ocr file_path page_numbers w) in
  extract_pdf_text file_path page_numbers false w
  = (Raise (Exn RuntimeError
              ("Both regular extraction and OCR failed. Regular error: " ++ exn_str e
               ++ ", OCR error: " ++ exn_str e)),
     w,
     (events (persistent_lookup file_path page_numbers false w)
      ++ events (has_extractable_text file_path 3 w) ++ ocr ++ ocr)%list).
Proof.
  intros Hex Hal Hmiss Hcl Hocr. cbn zeta.
  assert (Hcl' : has_extractable_text file_path 3 w
                 = (Ok false, w, events (has_extractable_text file_path 3 w))).
  { rewrite (outcome_eta (has_extractable_text file_path 3 w)) at 1. rewrite Hcl.
    do 2 f_equal. apply (keeps_has_extractable_text unchanged). }
  assert (Hocr' : extract_text_with_ocr file_path page_numbers w
                  = (Raise e, w, events (extract_text_with_ocr file_path page_numbers w))).
  { rewrite (outcome_eta (extract_text_with_ocr file_path page_numbers w)) at 1. rewrite Hocr.
    do 2 f_equal. apply (keeps_extract_text_with_ocr unchanged). }
  assert (Hsave : ocr_and_save file_path page_numbers w
                  = (Raise e, w, events (extract_text_with_ocr file_path page_numbers w))).
  { unfold ocr_and_save. by erewrite bind_raise by exact Hocr'. }
  rewrite (extract_pdf_text_miss _ _ _ Hex Hal Hmiss).
  erewrite try_raise.
  2:{ unfold live_extraction. cbn [negb].
      erewrite bind_ok by exact Hcl'.
      erewrite bind_raise by exact Hsave. cbn. reflexivity. }
  unfold ocr_fallback. cbn [negb].
  erewrite try_raise by exact Hsave.
  cbn. by rewrite !app_nil_r, <- !app_assoc.
Qed.

End Retry.

(** ** The listing of PDF files *)

Lemma ascii_compare_lt_trans a b c :
  Ascii.compare a b = Lt -> Ascii.compare b c = Lt -> Ascii.compare a c = Lt.
Proof.
  unfold Ascii.compare. rewrite !N.compare_lt_iff. apply N.lt_trans.
Qed.

Lemma string_compare_lt_trans s1 s2 s3 :
  String.compare s1 s2 = Lt -> String.compare s2 s3 = Lt -> String.compare s1 s3 = Lt.
Proof.
  revert s2 s3. induction s1 as [|c1 s1 IH]; intros [|c2 s2] [|c3 s3]; cbn; try done.
  destruct (Ascii.compare c1 c2) eqn:E12; try done;
    destruct (Ascii.compare c2 c3) eqn:E23; try done.
  - apply Ascii.compare_eq_iff in E12 as ->. rewrite E23. apply IH.
  - apply Ascii.compare_eq_iff in E12 as ->. by rewrite E23.
  - apply Ascii.compare_eq_iff in E23 as <-. by rewrite E12.
  - by rewrite (ascii_compare_lt_trans _ _ _ E12 E23).
Qed.

(** The order of [sorted] on strings. *)
Definition string_le (s1 s2 : string) : Prop := String.leb s1 s2 = true.

Lemma string_le_trans s1 s2 s3 : string_le s1 s2 -> string_le s2 s3 -> string_le s1 s3.
Proof.
  unfold string_le, String.leb.
  destruct (String.compare s1 s2) eqn:E12; [|intros _|done].
  - apply String.compare_eq_iff in E12 as ->. done.
  - destruct (String.compare s2 s3) eqn:E23; [|intros _|done].
    + apply String.compare_eq_iff in E23 as <-. by rewrite E12.
    + by rewrite (string_compare_lt_trans _ _ _ E12 E23).
Qed.

Lemma insert_sorted_perm x l : Permutation (Py.insert_sorted x l) (x :: l).
Proof.
  induction l as [|y l IH]; cbn; [done|].
  destruct (String.leb x y); [done|].
  rewrite IH. apply perm_swap.
Qed.

Lemma sorted_perm l : Permutation (Py.sorted l) l.
Proof.
  induction l as [|x l IH]; cbn; [done|].
  fold (Py.sorted l). by rewrite insert_sorted_perm, IH.
Qed.

Lemma insert_sorted_sorted x l :
  StronglySorted string_le l -> StronglySorted string_le (Py.insert_sorted x l).
Proof.
  induction 1 as [|y l Hl IH Hy]; cbn.
  - repeat constructor.
  - destruct (String.leb x y) eqn:E.
    + constructor; [by constructor|]. constructor; [done|].
      eapply Forall_impl; [exact Hy|]. intros z Hz. by eapply string_le_trans.
    + constructor; [done|].
      rewrite insert_sorted_perm. constructor; [|done].
      destruct (String.leb_total x y) as [H|H]; [congruence|done].
Qed.

Lemma sorted_sorted l : StronglySorted string_le (Py.sorted l).
Proof.
  induction l as [|x l IH]; cbn; [constructor|].
  by apply insert_sorted_sorted.
Qed.

Section Listing.

Context {P : Platform} {L : Libraries}.

(** The directories that find_pdf_files looks at. *)
Definition searched (directory : option string) : list string :=
  match directory with
  | Some ((String _ _) as d) => [d]
  | _ => ALLOWED_PDF_DIRECTORIES
  end.

(** The files below [dir_path] whose name ends in [.pdf], in any case of
    the letters, as os.walk yields them. *)
Definition pdfs_below (w : World) (dir_path : string) : list string :=
  flat_map (fun '(root, files) =>
              map (path_join root)
                  (List.filter (fun file => Str.endswith (Str.lower file) ".pdf") files))
           (os_walk (fs w) dir_path).1.

(** What the walks of the searched directories give: nothing for a
    directory that does not exist or is not allowed. *)
Definition pdfs_found (directory : option string) (w : World) : list string :=
  flat_map (fun dir_path =>
              if bool_decide (is_Some (fs w !! dir_path)) && is_path_allowed dir_path
              then pdfs_below w dir_path else [])
           (searched directory).

(** A walk that ends, or is cut short by a PermissionError. *)
Definition walk_ends (w : World) (dir_path : string) : Prop :=
  match (os_walk (fs w) dir_path).2 with
  | Some e => exn_cls e = PermissionError
  | None => True
  end.

Lemma find_pdf_files_loop dirs acc w :
  (forall dir_path, In dir_path dirs -> walk_ends w dir_path) ->
  for_each dirs
    (fun pdf_files dir_path =>
       ex <- IO.exists_ dir_path ;;
       if negb ex then ret pdf_files
       else if negb (is_path_allowed dir_path) then ret pdf_files
       else
         w <- get_world ;;
         let '(yielded, stopped) := os_walk (fs w) dir_path in
         let found :=
           flat_map (fun '(root, files) =>
                       map (path_join root)
                           (List.filter (fun file => Str.endswith (Str.lower file) ".pdf")
                                        files))
                    yielded in
         match stopped with
         | Some e =>
             match exn_cls e with
             | PermissionError => ret (app pdf_files found)
             | _ => reraise e
             end
         | None => ret (app pdf_files found)
         end)
    acc w
  = (Ok (acc ++ flat_map (fun dir_path =>
                            if bool_decide (is_Some (fs w !! dir_path))
                               && is_path_allowed dir_path
                            then pdfs_below w dir_path else [])
                         dirs)%list,
     w, []).
Proof.
  revert acc. induction dirs as [|d dirs IH]; intros acc Hends; cbn [for_each flat_map].
  - by rewrite app_nil_r.
  - erewrite bind_ok.
    2:{ unfold bind at 1, IO.exists_.
        instantiate (1 := []). instantiate (1 := w).
        instantiate (1 := (acc ++ (if bool_decide (is_Some (fs w !! d)) && is_path_allowed d
                                   then pdfs_below w d else []))%list).
        specialize (Hends d (or_introl eq_refl)). unfold walk_ends in Hends.
        unfold pdfs_below. generalize (is_path_allowed d). intros allowed.
        destruct (bool_decide (is_Some (fs w !! d))); cbn; [|by rewrite app_nil_r].
        destruct allowed; cbn; [|by rewrite app_nil_r].
        unfold bind, get_world.
        destruct (os_walk (fs w) d) as [yielded [e|]]; cbn in Hends |- *; [|done].
        by rewrite Hends. }
    rewrite IH by (intros; apply Hends; by right).
    cbn. by rewrite <- app_assoc.
Qed.

(** X10: find_pdf_files changes nothing and opens no file.  When no walk is
    ended by an exception other than PermissionError, it returns the PDF files
    found below the searched directories that exist and are allowed (the
    allowed directories when no directory or an empty one is given), each as
    often as it is found, in ascending order of the strings. *)
Theorem find_pdf_files_sorted_listing directory w :
  (forall dir_path, In dir_path (searched directory) -> walk_ends w dir_path) ->
  exists files,
    find_pdf_files directory w = (Ok files, w, []) /\
    Permutation files (pdfs_found directory w) /\
    StronglySorted string_le files.
Proof.
  intros Hends. exists (Py.sorted (pdfs_found directory w)).
  split; [|split; [apply sorted_perm|apply sorted_sorted]].
  unfold find_pdf_files. fold (searched directory).
  erewrite bind_ok by (by apply find_pdf_files_loop).
  reflexivity.
Qed.

End Listing.

(** ** Search without regard to case *)

Lemma lower_char_newline c : Ascii.eqb (Str.lower_char c) IO.NL = Ascii.eqb c IO.NL.
Proof. by destruct c as [[] [] [] [] [] [] [] []]. Qed.

Lemma split_lower s : Str.split IO.NL (Str.lower s) = map Str.lower (Str.split IO.NL s).
Proof.
  induction s as [|c s IH]; [done|]. cbn [Str.lower Str.split].
  rewrite lower_char_newline, IH.
  destruct (Ascii.eqb c IO.NL); [done|]. by destruct (Str.split IO.NL s).
Qed.

Lemma startswith_lower s p :
  Str.startswith s p = true -> Str.startswith (Str.lower s) (Str.lower p) = true.
Proof.
  revert s. induction p as [|a p IH]; intros [|b s]; cbn; try done.
  destruct (Ascii.eqb a b) eqn:E; [|done].
  apply Ascii.eqb_eq in E as ->. rewrite Ascii.eqb_refl. apply IH.
Qed.

Lemma contains_lower s p :
  Str.contains s p = true -> Str.contains (Str.lower s) (Str.lower p) = true.
Proof.
  induction s as [|c s IH]; cbn [Str.contains Str.lower];
    intros [H|H]%orb_true_iff; apply orb_true_iff.
  - left. by apply (startswith_lower "").
  - done.
  - left. by apply (startswith_lower (String c s)).
  - right. by apply IH.
Qed.

Lemma enumerate_from_In {A} (l : list A) k i x :
  In (i, x) (combine (map Z.of_nat (seq k (List.length l))) l) <->
  Z.of_nat k <= i /\ nth_error l (Z.to_nat i - k) = Some x.
Proof.
  revert k. induction l as [|y l IH]; intros k; cbn [List.length seq map combine In].
  - split; [done|]. intros [_ H]. by destruct (Z.to_nat i - k)%nat.
  - rewrite IH. split.
    + intros [[= <- ->]|[Hk Hn]].
      * split; [lia|]. by replace (Z.to_nat (Z.of_nat k) - k)%nat with 0%nat by lia.
      * split; [lia|].
        replace (Z.to_nat i - k)%nat with (S (Z.to_nat i - S k)) by lia. done.
    + intros [Hk Hn]. destruct (Z.to_nat i - k)%nat as [|n] eqn:E.
      * left. injection Hn as ->. f_equal. lia.
      * right. split; [lia|]. by replace (Z.to_nat i - S k)%nat with n by lia.
Qed.

Lemma enumerate_In {A} (l : list A) i x :
  In (i, x) (Py.enumerate l) <-> 0 <= i /\ nth_error l (Z.to_nat i) = Some x.
Proof.
  unfold Py.enumerate. rewrite enumerate_from_In.
  by replace (Z.to_nat i - 0)%nat with (Z.to_nat i) by lia.
Qed.

(** The numbers (from 0) of the lines that contain the term. *)
Definition matching_lines (lines : list string) (term : string) : list Z :=
  map fst (List.filter (fun '(i, line) => Str.contains line term) (Py.enumerate lines)).

Lemma matching_lines_In lines term i :
  In i (matching_lines lines term) <->
  0 <= i /\ exists line, nth_error lines (Z.to_nat i) = Some line
                         /\ Str.contains line term = true.
Proof.
  unfold matching_lines. rewrite in_map_iff. split.
  - intros ([j line] & <- & [Hin Hc]%filter_In). apply enumerate_In in Hin as [Hj Hn].
    cbn. eauto.
  - intros (Hi & line & Hn & Hc). exists (i, line). split; [done|].
    apply filter_In. split; [by apply enumerate_In|done].
Qed.

(** A string of ASCII characters. *)
Definition ascii_text (s : string) : bool :=
  forallb (fun c => Str.code c <? 128) (list_ascii_of_string s).

Section CaseFolding.

Context {P : Platform} {L : Libraries}.

Lemma search_matches_by_line lines term :
  search_matches lines term = map (match_entry lines) (matching_lines lines term).
Proof.
  unfold search_matches, matching_lines.
  induction (Py.enumerate lines) as [|[i line] l IH]; [done|].
  cbn [flat_map List.filter]. rewrite IH.
  by destruct (Str.contains line term).
Qed.

(** X11: for a text and a term of ASCII characters, on which [str.lower]
    is the map of the letters A to Z to a to z: without case_sensitive the
    text and the term are put in lower case before the text is cut into
    lines, the lines are those of the text, in lower case, and every line
    that the case-sensitive search reports is reported as well, so that a
    term found with case_sensitive is found without. *)
Theorem search_without_case_finds_more file_path term text :
  ascii_text text = true -> ascii_text term = true ->
  let exact := Str.split IO.NL text in
  let folded := Str.split IO.NL (Str.lower text) in
  folded = map Str.lower exact /\
  search_matches exact term = map (match_entry exact) (matching_lines exact term) /\
  search_matches folded (Str.lower term)
  = map (match_entry folded) (matching_lines folded (Str.lower term)) /\
  incl (matching_lines exact term) (matching_lines folded (Str.lower term)) /\
  (Str.startswith (search_text file_path term true text) "Found " = true ->
   Str.startswith (search_text file_path term false text) "Found " = true).
Proof.
  intros _ _. cbn zeta.
  assert (Hincl : incl (matching_lines (Str.split IO.NL text) term)
                       (matching_lines (Str.split IO.NL (Str.lower text)) (Str.lower term))).
  { intros i (Hi & line & Hn & Hc)%matching_lines_In. apply matching_lines_In.
    split; [done|]. exists (Str.lower line). split; [|by apply contains_lower].
    by rewrite split_lower, nth_error_map, Hn. }
  split; [apply split_lower|]. do 2 (split; [apply search_matches_by_line|]).
  split; [done|].
  intros Hfound. apply (search_text_found file_path term false text). cbn zeta.
  intros Hnone. revert Hfound. unfold search_text.
  rewrite search_matches_by_line in Hnone |- *.
  destruct (matching_lines (Str.split IO.NL text) term) as [|i l] eqn:E; [done|].
  apply map_eq_nil in Hnone. specialize (Hincl i (or_introl eq_refl)).
  by rewrite Hnone in Hincl.
Qed.

End CaseFolding.

(** ** The key of a request *)

(** Every character of the string satisfies [Q]. *)
Fixpoint all_chars (Q : ascii -> bool) (s : string) : bool :=
  match s with
  | EmptyString => true
  | String c s' => Q c && all_chars Q s'
  end.

Lemma all_chars_app Q s t : all_chars Q (s ++ t) = all_chars Q s && all_chars Q t.
Proof. induction s as [|c s IH]; simpl; [done|]. by rewrite IH, andb_assoc. Qed.

Lemma all_chars_impl (Q R : ascii -> bool) s :
  (forall c, Q c = true -> R c = true) -> all_chars Q s = true -> all_chars R s = true.
Proof.
  intros H. induction s as [|c s IH]; cbn; [done|].
  intros [Hc Hs]%andb_true_iff. by rewrite (H c Hc), IH.
Qed.

Lemma append_nil (s : string) : "" ++ s = s.
Proof. reflexivity. Qed.

Lemma append_cons c (s t : string) : String c s ++ t = String c (s ++ t).
Proof. reflexivity. Qed.

(** A string that is empty or starts with a character outside [Q]. *)
Definition stops (Q : ascii -> bool) (s : string) : bool :=
  match s with
  | EmptyString => true
  | String c _ => negb (Q c)
  end.

(** Two strings of [Q] characters, each followed by a stop. *)
Lemma app_stop_inj Q a b ra rb :
  all_chars Q a = true -> all_chars Q b = true ->
  stops Q ra = true -> stops Q rb = true ->
  a ++ ra = b ++ rb -> a = b /\ ra = rb.
Proof.
  revert b. induction a as [|c a IH]; intros [|c' b];
    rewrite ?append_nil, ?append_cons; cbn [all_chars].
  - done.
  - intros _ [Hc _]%andb_true_iff Hr _ ->. cbn in Hr. by rewrite Hc in Hr.
  - intros [Hc _]%andb_true_iff _ _ Hr <-. cbn in Hr. by rewrite Hc in Hr.
  - intros [_ Ha]%andb_true_iff [_ Hb]%andb_true_iff Hra Hrb [= -> H].
    by destruct (IH b Ha Hb Hra Hrb H) as [-> ->].
Qed.

(** A digit or the minus sign. *)
Definition numeric (c : ascii) : bool :=
  ((48 <=? Str.code c) && (Str.code c <=? 57)) || Ascii.eqb c "-".

Lemma pretty_N_char_numeric x : numeric (pretty_N_char x) = true.
Proof. unfold pretty_N_char. by repeat case_match. Qed.

Lemma pretty_N_go_numeric x s :
  all_chars numeric s = true -> all_chars numeric (pretty_N_go x s) = true.
Proof.
  revert s. induction (N.lt_wf_0 x) as [x _ IH]; intros s Hs.
  assert (x = 0 \/ 0 < x)%N as [->|Hx] by lia; [by rewrite pretty_N_go_0|].
  rewrite pretty_N_go_step by done. apply IH; [by apply N.div_lt|].
  cbn. by rewrite pretty_N_char_numeric.
Qed.

Lemma pretty_N_go_length x s :
  (String.length s <= String.length (pretty_N_go x s))%nat.
Proof.
  revert s. induction (N.lt_wf_0 x) as [x _ IH]; intros s.
  assert (x = 0 \/ 0 < x)%N as [->|Hx] by lia; [by rewrite pretty_N_go_0|].
  rewrite pretty_N_go_step by done.
  etrans; [|apply IH; by apply N.div_lt]. cbn. lia.
Qed.

Lemma pretty_N_numeric (x : N) :
  all_chars numeric (pretty x) = true /\ pretty x <> "".
Proof.
  unfold pretty, pretty_N. destruct (decide (x = 0%N)) as [->|Hx]; [done|].
  split; [by apply pretty_N_go_numeric|].
  assert (0 < x)%N as Hpos by lia. rewrite pretty_N_go_step by done.
  intros H. pose proof (pretty_N_go_length (x `div` 10)
                          (String (pretty_N_char (x `mod` 10)) "")) as Hl.
  rewrite H in Hl. cbn in Hl. lia.
Qed.

Lemma of_int_numeric n :
  all_chars numeric (Str.of_int n) = true /\ Str.of_int n <> "".
Proof.
  unfold Str.of_int, pretty, pretty_Z. destruct n as [|p|p]; [done| |].
  - apply (pretty_N_numeric (N.pos p)).
  - split; [|done]. simpl. apply (pretty_N_numeric (N.pos p)).
Qed.

Lemma join_cons sep x l :
  Str.join sep (x :: l)
  = x ++ match l with
         | [] => ""
         | _ :: _ => sep ++ Str.join sep l
         end.
Proof.
  destruct l; [|done]. cbn [Str.join]. induction x as [|c x IH]; [done|].
  by rewrite append_cons, <- IH.
Qed.

Lemma join_of_int_inj l1 l2 :
  Str.join ", " (map Str.of_int l1) = Str.join ", " (map Str.of_int l2) -> l1 = l2.
Proof.
  revert l2. induction l1 as [|x l1 IH]; intros [|y l2]; cbn [map]; rewrite ?join_cons.
  - done.
  - intros H. destruct (of_int_numeric y) as [_ Hy].
    destruct (Str.of_int y); [done|discriminate H].
  - intros H. destruct (of_int_numeric x) as [_ Hx].
    destruct (Str.of_int x); [done|discriminate H].
  - intros H.
    apply (app_stop_inj numeric) in H as [Hxy Hr];
      try apply of_int_numeric;
      [|by destruct (map Str.of_int l1)|by destruct (map Str.of_int l2)].
    apply (inj pretty) in Hxy as ->. f_equal. apply IH.
    destruct l1, l2; cbn [map] in Hr |- *; try done.
    simpl in Hr. by injection Hr.
Qed.

Lemma join_of_int_chars l :
  all_chars (fun c => numeric c || Ascii.eqb c "," || Ascii.eqb c " ")
            (Str.join ", " (map Str.of_int l)) = true.
Proof.
  induction l as [|x l IH]; [done|]. cbn [map]. rewrite join_cons, all_chars_app.
  apply andb_true_iff. split.
  - eapply all_chars_impl; [|apply of_int_numeric]. by intros c ->.
  - destruct l as [|y l]; cbn [map] in IH |- *; [done|]. by rewrite all_chars_app, IH.
Qed.

(** The character is not a colon. *)
Definition not_colon (c : ascii) : bool := negb (Ascii.eqb c ":").

Lemma str_pages_no_colon page_numbers :
  all_chars not_colon (Py.str_pages page_numbers) = true.
Proof.
  destruct page_numbers as [l|]; [|done]. unfold Py.str_pages, Str.of_int_list.
  rewrite !all_chars_app.
  change (all_chars not_colon "[") with true. change (all_chars not_colon "]") with true.
  rewrite andb_true_l, andb_true_r.
  eapply all_chars_impl; [|apply join_of_int_chars].
  intros c. unfold not_colon, numeric.
  destruct (Ascii.eqb c ":") eqn:E; [|done]. by apply Ascii.eqb_eq in E as ->.
Qed.

Lemma str_pages_inj p1 p2 : Py.str_pages p1 = Py.str_pages p2 -> p1 = p2.
Proof.
  destruct p1 as [l1|], p2 as [l2|]; try done. unfold Py.str_pages, Str.of_int_list.
  rewrite !append_cons, !append_nil. intros [= H]. f_equal. apply join_of_int_inj.
  apply (app_stop_inj (fun c => negb (Ascii.eqb c "]"))) in H as [H _]; try done.
  - eapply all_chars_impl; [|apply join_of_int_chars].
    intros c. destruct (Ascii.eqb c "]") eqn:E; [|done]. by apply Ascii.eqb_eq in E as ->.
  - eapply all_chars_impl; [|apply join_of_int_chars].
    intros c. destruct (Ascii.eqb c "]") eqn:E; [|done]. by apply Ascii.eqb_eq in E as ->.
Qed.

(** A string cut at its last colon. *)
Lemma last_colon_inj p1 p2 s1 s2 :
  all_chars not_colon s1 = true -> all_chars not_colon s2 = true ->
  p1 ++ ":" ++ s1 = p2 ++ ":" ++ s2 -> p1 = p2 /\ s1 = s2.
Proof.
  intros H1 H2. revert p2. induction p1 as [|c p1 IH]; intros [|c' p2];
    repeat (rewrite append_nil || rewrite append_cons).
  - by intros [= ->].
  - intros [= <- ->]. rewrite all_chars_app in H1. cbn in H1.
    by rewrite andb_false_r in H1.
  - intros [= -> <-]. rewrite all_chars_app in H2. cbn in H2.
    by rewrite andb_false_r in H2.
  - intros [= -> H]. by destruct (IH p2 H) as [-> ->].
Qed.

(** X12: The key [f"{file_path}:{page_numbers}"] of [pdf_cache] determines the
    request: two calls use the same entry of the dictionary only when they
    are for the same path and the same list of pages, in the same order (and
    [None] is not the empty list). *)
Theorem cache_key_determines_request file_path file_path' page_numbers page_numbers' :
  cache_key file_path page_numbers = cache_key file_path' page_numbers' ->
  file_path = file_path' /\ page_numbers = page_numbers'.
Proof.
  unfold cache_key. intros H.
  apply last_colon_inj in H as [-> H]; try apply str_pages_no_colon.
  split; [done|]. by apply str_pages_inj.
Qed.

(** ** A PDF that cannot be opened *)

Section Unreadable.

Context {P : Platform} {L : Libraries}.

(** X13: The hash for the name of the cache file is computed before the [try]
    of extract_pdf_text: for a full document without force_ocr, on a path
    that exists and is allowed and that [open] refuses (a directory, a file
    without read permission), the exception of [open] is raised as it is,
    before the classifier, PyPDF2 or OCR are called; read_pdf and
    search_pdf_content return it as the text of their answer. *)
Theorem unreadable_pdf_fails_at_the_hash file_path term case_sensitive w e :
  file_path <> "" -> term <> "" ->
  is_Some (fs w !! file_path) -> is_path_allowed file_path = true ->
  res (IO.read_bytes file_path w) = Raise e ->
  extract_pdf_text file_path None false w = (Raise e, w, []) /\
  read_pdf (Some file_path) None false w
  = (Ok ("Error reading PDF file '" ++ file_path ++ "': " ++ exn_str e), w, []) /\
  search_pdf_content (Some file_path) (Some term) case_sensitive w
  = (Ok ("Error searching PDF file '" ++ file_path ++ "': " ++ exn_str e), w, []).
Proof.
  intros Hp Ht Hex Hal Hr.
  assert (Hraise : extract_pdf_text file_path None false w = (Raise e, w, [])).
  { rewrite extract_pdf_text_cases.
    rewrite bool_decide_eq_true_2 by done. rewrite Hal. cbn [negb]. cbn zeta.
    assert (Hl : persistent_lookup file_path None false w = (Raise e, w, [])).
    { unfold persistent_lookup, load_cached_text, get_cache_file_path, get_pdf_hash.
      cbn [Py.truthy negb andb]. unfold bind at 1 2 3.
      revert Hr. unfold IO.read_bytes.
      destruct (fs w !! file_path) as [[|[] ? ?]|]; cbn; try done; by intros [= ->]. }
    by rewrite Hl. }
  split; [done|].
  destruct file_path as [|c p]; [done|]. destruct term as [|c' t]; [done|].
  split.
  - unfold read_pdf, try_except, bind. by rewrite Hraise.
  - unfold search_pdf_content, try_except, bind. by rewrite Hraise.
Qed.

End Unreadable.

(** ** What a call leaves behind *)

Section Effects.

Context {P : Platform} {L : Libraries}.

(** X14: A call that raises has changed nothing: no cache file is written and
    [pdf_cache] is as before.  A call that returns a text has at most written
    that text to the cache file of the PDF and bound it to the key of the
    request, the latter only while the dictionary held fewer than 10
    entries. *)
Theorem failed_call_changes_nothing file_path page_numbers force_ocr w :
  let o := extract_pdf_text file_path page_numbers force_ocr w in
  match res o with
  | Ok text =>
      saved_or_not file_path text w (world_after o) /\
      cached_or_not (cache_key file_path page_numbers) text w (world_after o)
  | Raise _ => world_after o = w
  end.
Proof.
  cbn zeta.
  destruct (extract_pdf_text file_path page_numbers force_ocr w) as [[[text|e] w'] t] eqn:E;
    cbn [res world_after fst snd].
  - by apply extract_pdf_text_outcome in E.
  - revert E. rewrite extract_pdf_text_cases.
    destruct (negb _); [by intros [= _ <- _]|]. destruct (negb _); [by intros [= _ <- _]|].
    cbn zeta.
    assert (Htry : after (events (persistent_lookup file_path page_numbers force_ocr w))
                     (try_except (live_extraction file_path page_numbers force_ocr)
                                 (ocr_fallback file_path page_numbers force_ocr) w)
                   = (Raise e, w', t) -> w' = w).
    { intros (t2 & E & _)%after_inv.
      apply try_inv in E as [(a & _ & ?)|(e1 & w1 & t1 & t3 & El & E & _)]; [done|].
      apply live_extraction_outcome in El as ->. revert E. unfold ocr_fallback.
      destruct force_ocr; cbn [negb]; [by intros [= _ <- _]|]. intros E.
      apply try_inv in E as [(a & _ & ?)|(e2 & w2 & t4 & t5 & Ho & E & _)]; [done|].
      apply ocr_and_save_outcome in Ho as [_ ->]. by injection E as _ <- _. }
    destruct (res (persistent_lookup _ _ _ _)) as [[[|c cached]|]|e0];
      try (by intros [= _ <- _]);
      (destruct (pdf_cache w !! cache_key file_path page_numbers) as [t0|], force_ocr;
       try (by intros [= _ <- _]); exact Htry).
Qed.

(** Two outcomes with the same result and events and the same files; the
    same world when they raise. *)
Definition alike {A} (o1 o2 : result A * World * list event) : Prop :=
  res o1 = res o2 /\ events o1 = events o2 /\
  fs (world_after o1) = fs (world_after o2) /\
  forall e, res o1 = Raise e -> world_after o1 = world_after o2.

Lemma alike_bind {A B} (m : M A) (k1 k2 : A -> M B) w :
  (forall a w', alike (k1 a w') (k2 a w')) -> alike (bind m k1 w) (bind m k2 w).
Proof.
  intros H. unfold bind. destruct (m w) as [[[a|e] w1] t1]; [|done].
  specialize (H a w1).
  destruct (k1 a w1) as [[r1 wa] ta], (k2 a w1) as [[r2 wb] tb].
  destruct H as (Hr & He & Hf & Hw). cbn in Hr, He, Hf, Hw. subst r2 tb.
  by repeat split.
Qed.

Lemma alike_try {A} (m1 m2 : M A) (h : exn -> M A) w :
  alike (m1 w) (m2 w) -> alike (try_except m1 h w) (try_except m2 h w).
Proof.
  unfold try_except.
  destruct (m1 w) as [[r1 wa] ta], (m2 w) as [[r2 wb] tb].
  intros (Hr & He & Hf & Hw). cbn in Hr, He, Hf, Hw. subst r2 tb.
  destruct r1 as [a|e]; [by repeat split|].
  rewrite (Hw e eq_refl). by repeat split.
Qed.

(** X15: An empty list of pages is a request for the full document, under a
    key of its own: when [pdf_cache] answers neither key or both alike, the
    call with [[]] and the call with [None] return the same result, call the
    same libraries in the same order and leave the same files. *)
Theorem empty_page_list_is_full_document file_path force_ocr w :
  pdf_cache w !! cache_key file_path (Some []) = pdf_cache w !! cache_key file_path None ->
  let o1 := extract_pdf_text file_path (Some []) force_ocr w in
  let o2 := extract_pdf_text file_path None force_ocr w in
  res o1 = res o2 /\ events o1 = events o2 /\ fs (world_after o1) = fs (world_after o2).
Proof.
  intros Hkeys. cbn zeta. rewrite !extract_pdf_text_cases.
  destruct (negb _); [done|]. destruct (negb _); [done|]. cbn zeta.
  change (persistent_lookup file_path (Some []) force_ocr)
    with (persistent_lookup file_path None force_ocr).
  assert (Htry : alike (try_except (live_extraction file_path (Some []) force_ocr)
                          (ocr_fallback file_path (Some []) force_ocr) w)
                       (try_except (live_extraction file_path None force_ocr)
                          (ocr_fallback file_path None force_ocr) w)).
  { change (ocr_fallback file_path (Some []) force_ocr)
      with (ocr_fallback file_path None force_ocr).
    apply alike_try. unfold live_extraction.
    apply alike_bind. intros regular w1.
    change (if regular then regular_extraction file_path (Some [])
            else ocr_and_save file_path (Some []))
      with (if regular then regular_extraction file_path None
            else ocr_and_save file_path None).
    apply alike_bind. intros full_text w2.
    unfold bind, cache_in_memory.
    by destruct (size (pdf_cache w2) <? 10)%nat. }
  destruct Htry as (Hr & He & Hw & _).
  destruct (res (persistent_lookup file_path None force_ocr w)) as [[[|c cached]|]|e0];
    try done; rewrite Hkeys;
    (destruct (pdf_cache w !! cache_key file_path None) as [t0|], force_ocr; try done;
     unfold after; cbn [res world_after events fst snd]; by rewrite ?Hr, ?He, ?Hw).
Qed.

End Effects.

(** With an empty dictionary both keys are unanswered. *)
Lemma empty_page_list_is_full_document_witness :
  let P := Demo.platform in
  let L := Demo.libraries in
  let w := Demo.world [(scan_pdf, scan_data)] in
  pdf_cache w !! cache_key scan_pdf (Some []) = pdf_cache w !! cache_key scan_pdf None /\
  res (extract_pdf_text scan_pdf (Some []) false w)
  = res (extract_pdf_text scan_pdf None false w) /\
  size (pdf_cache (world_after (extract_pdf_text scan_pdf (Some []) false w))) = 1%nat.
Proof.
  cbn zeta.
  assert (Hk : pdf_cache (Demo.world [(scan_pdf, scan_data)]) !! cache_key scan_pdf (Some [])
               = pdf_cache (Demo.world [(scan_pdf, scan_data)]) !! cache_key scan_pdf None)
    by (vm_compute; reflexivity).
  split; [exact Hk|].
  split; [|vm_compute; reflexivity].
  exact (proj1 (@empty_page_list_is_full_document Demo.platform Demo.libraries scan_pdf false
                  _ Hk)).
Defined.

(** ** The properties above on small documents *)

(** A forced extraction of the scanned PDF of two pages. *)
Lemma force_ocr_is_one_ocr_run_witness :
  let P := Demo.platform in
  let L := Demo.libraries in
  let w := Demo.world [(scan_pdf, scan_data)] in
  is_Some (fs w !! scan_pdf) /\ is_path_allowed scan_pdf = true /\
  res (extract_pdf_text scan_pdf None true w)
  = Ok ("--- Page 1 (OCR) ---" ++ Str.LF ++ "first page" ++ Str.LF ++ Str.LF
        ++ "--- Page 2 (OCR) ---" ++ Str.LF ++ "second page" ++ Str.LF) /\
  Forall not_pdf_reader (events (extract_pdf_text scan_pdf None true w)).
Proof.
  cbn zeta.
  assert (Hex : is_Some (fs (Demo.world [(scan_pdf, scan_data)]) !! scan_pdf))
    by (eexists; vm_compute; reflexivity).
  assert (Hal : @is_path_allowed Demo.platform scan_pdf = true) by (vm_compute; reflexivity).
  split; [exact Hex|]. split; [exact Hal|]. split; [vm_compute; reflexivity|].
  exact (proj2 (@force_ocr_is_one_ocr_run Demo.platform Demo.libraries scan_pdf None _
                  Hex Hal)).
Defined.

(** OCR raises on the second of three pages: the placeholder carries the
    number of the first page, and the third page is read. *)
Lemma ocr_goes_on_after_first_page_witness :
  let L := Demo.libraries in
  let w := Demo.world [(three_pdf, smudged_second)] in
  fs w !! three_pdf = Some (File true true smudged_second) /\
  convert_from_path smudged_second None None
  = Ok ["Stext of page 1"; "Bsmudged"; "Stext of page 3"] /\
  image_to_string "Stext of page 1" = Ok "text of page 1" /\
  exists blocks,
    res (extract_text_with_ocr three_pdf None w) = Ok (Str.join Str.LF blocks) /\
    List.length blocks = 3%nat /\
    forall i img,
      nth_error ["Stext of page 1"; "Bsmudged"; "Stext of page 3"] i = Some img ->
      match image_to_string img with
      | Ok text => nth_error blocks i = Some (ocr_block (Z.of_nat i + 1) text)
      | Raise e =>
          exists page, 1 <= page <= Z.of_nat i /\
            nth_error blocks i = Some (ocr_error_block page (exn_str e))
      end.
Proof.
  cbn zeta.
  assert (Hf : fs (Demo.world [(three_pdf, smudged_second)]) !! three_pdf
               = Some (File true true smudged_second)) by (vm_compute; reflexivity).
  assert (Hc : @convert_from_path Demo.libraries smudged_second None None
               = Ok ["Stext of page 1"; "Bsmudged"; "Stext of page 3"])
    by (vm_compute; reflexivity).
  assert (H0 : @image_to_string Demo.libraries "Stext of page 1" = Ok "text of page 1")
    by (vm_compute; reflexivity).
  split; [exact Hf|]. split; [exact Hc|]. split; [exact H0|].
  exact (@ocr_goes_on_after_first_page Demo.libraries three_pdf _ true smudged_second
           "Stext of page 1" ["Bsmudged"; "Stext of page 3"] "text of page 1" Hf Hc H0).
Defined.

(** Pages 2 and 5 of a document of three pages: pdf2image gives the images
    of pages 2 and 3, and the filter looks for a fourth image. *)
Lemma request_beyond_document_fails_witness :
  let L := Demo.libraries in
  let w := Demo.world [(three_pdf, three_data)] in
  fs w !! three_pdf = Some (File true true three_data) /\
  convert_from_path three_data (Some 2) (Some 5) = Ok ["Stext of page 2"; "Stext of page 3"] /\
  extract_text_with_ocr three_pdf (Some [2; 5]) w
  = (Raise (Exn RuntimeError "Error performing OCR on PDF: list index out of range"),
     w, [EvConvert three_pdf; EvRead three_pdf]).
Proof.
  cbn zeta.
  assert (Hf : fs (Demo.world [(three_pdf, three_data)]) !! three_pdf
               = Some (File true true three_data)) by (vm_compute; reflexivity).
  assert (Hc : @convert_from_path Demo.libraries three_data
                 (Some (Py.min_list 2 [5])) (Some (Py.max_list 2 [5]))
               = Ok ["Stext of page 2"; "Stext of page 3"]) by (vm_compute; reflexivity).
  split; [exact Hf|]. split; [exact Hc|].
  refine (@request_beyond_document_fails Demo.libraries three_pdf 2 [5] _ true three_data
            ["Stext of page 2"; "Stext of page 3"] 5 Hf Hc _ _).
  - right. by left.
  - vm_compute. discriminate.
Defined.

(** A PDF with a text layer on three pages and a fourth page whose
    extraction raises; every page can be rasterised. *)
Definition damaged_pdf : string := "C:\Users\Admin\Desktop\HOA\pdfs\damaged.pdf".
Definition damaged_data : string :=
  "%PDF|TThe annual meeting of the home owners association was called to order at 7 pm."
  ++ "|TThe treasurer presented the budget for the coming year and answered questions."
  ++ "|TThe board voted to repave the parking lot and to renew the insurance policy."
  ++ "|Einvalid content stream".

(** Direct extraction of the damaged PDF raises on its fourth page, OCR
    reads the four pages, and the dictionary stays empty. *)
Lemma fallback_result_not_in_memory_witness :
  let P := Demo.platform in
  let L := Demo.libraries in
  let w := Demo.world [(damaged_pdf, damaged_data)] in
  is_path_allowed damaged_pdf = true /\
  misses_caches damaged_pdf None w /\
  res (has_extractable_text damaged_pdf 3 w) = Ok true /\
  res (regular_extraction damaged_pdf None w)
  = Raise (Exn LibraryError "invalid content stream") /\
  exists text,
    res (extract_text_with_ocr damaged_pdf None w) = Ok text /\
    res (extract_pdf_text damaged_pdf None false w) = Ok text /\
    pdf_cache (world_after (extract_pdf_text damaged_pdf None false w)) = ∅.
Proof.
  cbn zeta.
  assert (Hex : is_Some (fs (Demo.world [(damaged_pdf, damaged_data)]) !! damaged_pdf))
    by (eexists; vm_compute; reflexivity).
  assert (Hal : @is_path_allowed Demo.platform damaged_pdf = true)
    by (vm_compute; reflexivity).
  assert (Hm : @misses_caches Demo.platform damaged_pdf None
                 (Demo.world [(damaged_pdf, damaged_data)]))
    by (split; [left|]; vm_compute; reflexivity).
  assert (Hc : res (@has_extractable_text Demo.libraries damaged_pdf 3
                      (Demo.world [(damaged_pdf, damaged_data)])) = Ok true)
    by (vm_compute; reflexivity).
  assert (Hr : res (@regular_extraction Demo.libraries damaged_pdf None
                      (Demo.world [(damaged_pdf, damaged_data)]))
               = Raise (Exn LibraryError "invalid content stream"))
    by (vm_compute; reflexivity).
  destruct (res (@extract_text_with_ocr Demo.libraries damaged_pdf None
                   (Demo.world [(damaged_pdf, damaged_data)]))) as [text|e] eqn:Ho;
    [|vm_compute in Ho; discriminate Ho].
  split; [exact Hal|]. split; [exact Hm|]. split; [exact Hc|]. split; [exact Hr|].
  exists text. split; [done|].
  destruct (@fallback_result_not_in_memory Demo.platform Demo.libraries damaged_pdf None _
              _ text Hex Hal Hm Hc Hr Ho) as (H1 & H2 & _).
  split; [exact H1|]. rewrite H2. reflexivity.
Defined.

(** The classifier on the damaged PDF: three pages of text, and the page
    that raises is not looked at. *)
Lemma has_extractable_text_first_three_witness :
  let L := Demo.libraries in
  let w := Demo.world [(damaged_pdf, damaged_data)] in
  let texts :=
    ["The annual meeting of the home owners association was called to order at 7 pm.";
     "The treasurer presented the budget for the coming year and answered questions.";
     "The board voted to repave the parking lot and to renew the insurance policy."] in
  fs w !! damaged_pdf = Some (File true true damaged_data) /\
  PdfReader damaged_data
  = Ok (map Ok texts ++ [Raise (Exn LibraryError "invalid content stream")])%list /\
  has_extractable_text damaged_pdf 3 w
  = (Ok true, w, [EvRead damaged_pdf; EvPdfReader damaged_pdf]).
Proof.
  cbn zeta.
  assert (Hf : fs (Demo.world [(damaged_pdf, damaged_data)]) !! damaged_pdf
               = Some (File true true damaged_data)) by (vm_compute; reflexivity).
  split; [exact Hf|]. split; [vm_compute; reflexivity|].
  refine (@has_extractable_text_first_three Demo.libraries damaged_pdf _ true damaged_data
            ["The annual meeting of the home owners association was called to order at 7 pm.";
             "The treasurer presented the budget for the coming year and answered questions.";
             "The board voted to repave the parking lot and to renew the insurance policy."]
            [Raise (Exn LibraryError "invalid content stream")] Hf _ _).
  - vm_compute. reflexivity.
  - right. cbn. lia.
Defined.

(** The minutes, pages 1, 7 and 1 again: page 7 does not exist and is
    left out, page 1 is given twice. *)
Lemma text_pdf_is_read_directly_witness :
  let P := Demo.platform in
  let L := Demo.libraries in
  let w := Demo.world [(minutes_pdf, minutes_data)] in
  let page :=
    "--- Page 1 ---" ++ Str.LF
    ++ "The annual meeting of the home owners association was called to order at 7 pm."
    ++ Str.LF in
  fs w !! minutes_pdf = Some (File true true minutes_data) /\
  is_path_allowed minutes_pdf = true /\
  misses_caches minutes_pdf (Some [1; 7; 1]) w /\
  res (has_extractable_text minutes_pdf 3 w) = Ok true /\
  res (extract_pdf_text minutes_pdf (Some [1; 7; 1]) false w)
  = Ok (page ++ Str.LF ++ page) /\
  Forall reads_only (events (extract_pdf_text minutes_pdf (Some [1; 7; 1]) false w)).
Proof.
  cbn zeta.
  assert (Hf : fs (Demo.world [(minutes_pdf, minutes_data)]) !! minutes_pdf
               = Some (File true true minutes_data)) by (vm_compute; reflexivity).
  assert (Hal : @is_path_allowed Demo.platform minutes_pdf = true)
    by (vm_compute; reflexivity).
  assert (Hm : @misses_caches Demo.platform minutes_pdf (Some [1; 7; 1])
                 (Demo.world [(minutes_pdf, minutes_data)]))
    by (split; [left|]; vm_compute; reflexivity).
  assert (Hc : res (@has_extractable_text Demo.libraries minutes_pdf 3
                      (Demo.world [(minutes_pdf, minutes_data)])) = Ok true)
    by (vm_compute; reflexivity).
  split; [exact Hf|]. split; [exact Hal|]. split; [exact Hm|]. split; [exact Hc|].
  destruct (@text_pdf_is_read_directly Demo.platform Demo.libraries minutes_pdf
              (Some [1; 7; 1]) _ true minutes_data
              ["The annual meeting of the home owners association was called to order at 7 pm."]
              Hf Hal Hm ltac:(vm_compute; reflexivity) Hc) as (H1 & _ & H3).
  split; [|exact H3]. rewrite H1. vm_compute. reflexivity.
Defined.

(** The OCR text of the scanned PDF, saved and loaded. *)
Lemma cache_file_round_trip_witness :
  let P := Demo.platform in
  let L := Demo.libraries in
  let w := Demo.world [(scan_pdf, scan_data)] in
  let cache_file := "C:\Users\Admin\Desktop\HOA\pdfs\scan_ocr_181d7ed8.txt" in
  let text := "--- Page 1 (OCR) ---" ++ Str.LF ++ "first page" ++ Str.LF in
  fs w !! scan_pdf = Some (File true true scan_data) /\
  fs w !! cache_file = None /\
  IO.write_error (fs w) cache_file = None /\
  no_carriage_return text = true /\
  res (load_cached_text scan_pdf (world_after (save_cached_text scan_pdf text w)))
  = Ok (Some text).
Proof.
  cbn zeta.
  assert (Hf : fs (Demo.world [(scan_pdf, scan_data)]) !! scan_pdf
               = Some (File true true scan_data)) by (vm_compute; reflexivity).
  assert (Hn : fs (Demo.world [(scan_pdf, scan_data)])
               !! "C:\Users\Admin\Desktop\HOA\pdfs\scan_ocr_181d7ed8.txt" = None)
    by (vm_compute; reflexivity).
  assert (Hw : @IO.write_error Demo.platform (fs (Demo.world [(scan_pdf, scan_data)]))
                 "C:\Users\Admin\Desktop\HOA\pdfs\scan_ocr_181d7ed8.txt" = None)
    by (vm_compute; reflexivity).
  assert (Hcr : no_carriage_return
                  ("--- Page 1 (OCR) ---" ++ Str.LF ++ "first page" ++ Str.LF) = true)
    by (vm_compute; reflexivity).
  split; [exact Hf|]. split; [exact Hn|]. split; [exact Hw|]. split; [exact Hcr|].
  pose proof (@cache_file_round_trip Demo.platform scan_pdf
                ("--- Page 1 (OCR) ---" ++ Str.LF ++ "first page" ++ Str.LF)
                (Demo.world [(scan_pdf, scan_data)]) true scan_data Hf) as H.
  cbn zeta in H.
  replace (path_join (dirname scan_pdf) (cache_filename (pdf_name scan_pdf)
                                           (file_hash scan_data)))
    with "C:\Users\Admin\Desktop\HOA\pdfs\scan_ocr_181d7ed8.txt" in H
    by (vm_compute; reflexivity).
  rewrite Hw in H. apply H.
  - discriminate.
  - intros wr0 old. by rewrite Hn.
  - left. reflexivity.
  - exact Hcr.
Defined.

(** The same in a directory in which no file can be created: [open]
    raises, save_cached_text returns all the same, nothing is written and the
    lookup finds nothing. *)
Example cache_file_in_a_read_only_directory :
  let P := Demo.platform in
  let L := Demo.libraries in
  let w0 := Demo.world [(scan_pdf, scan_data)] in
  let w := mkWorld (<[Demo.pdfs := Dir false]> (fs w0)) (pdf_cache w0) in
  let text := "--- Page 1 (OCR) ---" ++ Str.LF ++ "first page" ++ Str.LF in
  save_cached_text scan_pdf text w = (Ok tt, w, [EvRead scan_pdf]) /\
  res (load_cached_text scan_pdf w) = Ok None /\
  fs (world_after (extract_pdf_text scan_pdf None false w)) = fs w /\
  res (load_cached_text scan_pdf (world_after (extract_pdf_text scan_pdf None false w)))
  = Ok None.
Proof.
  cbn zeta. split; [vm_compute; reflexivity|]. split; [vm_compute; reflexivity|].
  split; vm_compute; reflexivity.
Qed.

(** OCR raises on the first page of the scanned PDF: it is run twice and
    its error is reported twice. *)
Lemma failed_ocr_is_run_again_witness :
  let P := Demo.platform in
  let L := Demo.libraries in
  let w := Demo.world [(scan_pdf, smudged_first)] in
  is_path_allowed scan_pdf = true /\
  misses_caches scan_pdf None w /\
  res (has_extractable_text scan_pdf 3 w) = Ok false /\
  exists e,
    res (extract_text_with_ocr scan_pdf None w) = Raise e /\
    res (extract_pdf_text scan_pdf None false w)
    = Raise (Exn RuntimeError
               ("Both regular extraction and OCR failed. Regular error: " ++ exn_str e
                ++ ", OCR error: " ++ exn_str e)).
Proof.
  cbn zeta.
  assert (Hex : is_Some (fs (Demo.world [(scan_pdf, smudged_first)]) !! scan_pdf))
    by (eexists; vm_compute; reflexivity).
  assert (Hal : @is_path_allowed Demo.platform scan_pdf = true) by (vm_compute; reflexivity).
  assert (Hm : @misses_caches Demo.platform scan_pdf None
                 (Demo.world [(scan_pdf, smudged_first)]))
    by (split; [left|]; vm_compute; reflexivity).
  assert (Hc : res (@has_extractable_text Demo.libraries scan_pdf 3
                      (Demo.world [(scan_pdf, smudged_first)])) = Ok false)
    by (vm_compute; reflexivity).
  destruct (res (@extract_text_with_ocr Demo.libraries scan_pdf None
                   (Demo.world [(scan_pdf, smudged_first)]))) as [text|e] eqn:Ho;
    [vm_compute in Ho; discriminate Ho|].
  split; [exact Hal|]. split; [exact Hm|]. split; [exact Hc|].
  exists e. split; [done|].
  by rewrite (@failed_ocr_is_run_again Demo.platform Demo.libraries scan_pdf None _ e
                Hex Hal Hm Hc Ho).
Defined.

(** The allowed directory with two PDF files, one with a capital
    extension, and a text file. *)
Lemma find_pdf_files_sorted_listing_witness :
  let P := Demo.platform in
  let L := Demo.libraries in
  let w := Demo.world [(scan_pdf, scan_data);
                       ("C:\Users\Admin\Desktop\HOA\pdfs\notes.txt", "to do");
                       ("C:\Users\Admin\Desktop\HOA\pdfs\2023\BUDGET.PDF", minutes_data)] in
  (forall dir_path, In dir_path (searched None) -> walk_ends w dir_path) /\
  res (find_pdf_files None w)
  = Ok ["C:\Users\Admin\Desktop\HOA\pdfs\2023\BUDGET.PDF"; scan_pdf] /\
  exists files,
    find_pdf_files None w = (Ok files, w, []) /\
    Permutation files (pdfs_found None w) /\
    StronglySorted string_le files.
Proof.
  cbn zeta.
  assert (Hends : forall dir_path,
             In dir_path (searched None) ->
             @walk_ends Demo.platform
               (Demo.world [(scan_pdf, scan_data);
                            ("C:\Users\Admin\Desktop\HOA\pdfs\notes.txt", "to do");
                            ("C:\Users\Admin\Desktop\HOA\pdfs\2023\BUDGET.PDF", minutes_data)])
               dir_path)
    by (intros dir_path _; exact I).
  split; [exact Hends|]. split; [vm_compute; reflexivity|].
  exact (@find_pdf_files_sorted_listing Demo.platform None _ Hends).
Defined.

(** One request, one key. *)
Lemma cache_key_determines_request_witness :
  cache_key minutes_pdf (Some [1; 2]) = cache_key minutes_pdf (Some [1; 2]) /\
  cache_key minutes_pdf (Some [1; 2])
  = "C:\Users\Admin\Desktop\HOA\pdfs\minutes.pdf:[1, 2]" /\
  minutes_pdf = minutes_pdf /\ Some [1; 2] = Some [1; 2].
Proof.
  split; [reflexivity|]. split; [vm_compute; reflexivity|].
  exact (cache_key_determines_request minutes_pdf minutes_pdf (Some [1; 2]) (Some [1; 2])
           eq_refl).
Defined.

(** The allowed directory itself, given as the PDF to read. *)
Lemma unreadable_pdf_fails_at_the_hash_witness :
  let P := Demo.platform in
  let L := Demo.libraries in
  let w := Demo.world [(scan_pdf, scan_data)] in
  let e := Exn PermissionError (IO.oserror "13" "Permission denied" Demo.pdfs) in
  is_Some (fs w !! Demo.pdfs) /\ is_path_allowed Demo.pdfs = true /\
  res (IO.read_bytes Demo.pdfs w) = Raise e /\
  extract_pdf_text Demo.pdfs None false w = (Raise e, w, []).
Proof.
  cbn zeta.
  assert (Hex : is_Some (fs (Demo.world [(scan_pdf, scan_data)]) !! Demo.pdfs))
    by (eexists; vm_compute; reflexivity).
  assert (Hal : @is_path_allowed Demo.platform Demo.pdfs = true) by (vm_compute; reflexivity).
  assert (Hr : res (IO.read_bytes Demo.pdfs (Demo.world [(scan_pdf, scan_data)]))
               = Raise (Exn PermissionError (IO.oserror "13" "Permission denied" Demo.pdfs)))
    by (vm_compute; reflexivity).
  split; [exact Hex|]. split; [exact Hal|]. split; [exact Hr|].
  refine (proj1 (@unreadable_pdf_fails_at_the_hash Demo.platform Demo.libraries Demo.pdfs
                   "meeting" false _ _ _ _ Hex Hal Hr)); discriminate.
Defined.

(** A term with a capital letter, found once as it is written and twice
    without regard to case. *)
Lemma search_without_case_finds_more_witness :
  let text := "Budget 2024" ++ Str.LF ++ "the budget was approved" ++ Str.LF ++ "other business" in
  ascii_text text = true /\ ascii_text "Budget" = true /\
  matching_lines (Str.split IO.NL text) "Budget" = [0] /\
  matching_lines (Str.split IO.NL (Str.lower text)) (Str.lower "Budget") = [0; 1] /\
  incl (matching_lines (Str.split IO.NL text) "Budget")
       (matching_lines (Str.split IO.NL (Str.lower text)) (Str.lower "Budget")) /\
  Str.startswith (search_text minutes_pdf "Budget" false text) "Found " = true.
Proof.
  cbn zeta.
  assert (Ht : ascii_text ("Budget 2024" ++ Str.LF ++ "the budget was approved" ++ Str.LF
                           ++ "other business") = true) by (vm_compute; reflexivity).
  assert (Hs : ascii_text "Budget" = true) by (vm_compute; reflexivity).
  split; [exact Ht|]. split; [exact Hs|].
  split; [vm_compute; reflexivity|]. split; [vm_compute; reflexivity|].
  destruct (@search_without_case_finds_more minutes_pdf "Budget"
              ("Budget 2024" ++ Str.LF ++ "the budget was approved" ++ Str.LF
               ++ "other business") Ht Hs) as (_ & _ & _ & Hincl & Hfound).
  split; [exact Hincl|]. apply Hfound. vm_compute. reflexivity.
Defined.

(** * The list_pdfs tool *)

(** [f"{file_size / (1024 * 1024):.1f}"] for a size in bytes below 2^53:
    the quotient is exact in binary floating point, and the format rounds it
    to one decimal, a tie to the even digit. *)
Definition format_mb (file_size : Z) : string :=
  let q := 10 * file_size / 1048576 in
  let r := 10 * file_size mod 1048576 in
  let tenths :=
    if 2 * r <? 1048576 then q
    else if 1048576 <? 2 * r then q + 1
    else if Z.even q then q else q + 1 in
  Str.of_int (tenths / 10) ++ "." ++ Str.of_int (tenths mod 10).

Section ListPdfs.

Context {P : Platform} {L : Libraries}.

(** The bullet U+2022 that starts a line of the listing: it lies outside
    the 8-bit strings of this development.  The size that [os.stat] gives
    for a directory. *)
Variable bullet : string.
Variable directory_size : Z.

(** [os.path.getsize(path)]. *)
Definition getsize (path : string) : M Z := fun w =>
  match fs w !! path with
  | Some (File _ _ data) => (Ok (Str.len data), w, [])
  | Some (Dir _) => (Ok directory_size, w, [])
  | None =>
      (Raise (Exn FileNotFoundError (IO.oserror "2" "No such file or directory" path)), w, [])
  end.

(** The statements of the loop [for pdf_file in pdf_files]. *)
Definition list_entry (result_text pdf_file : string) : M string :=
  ex <- IO.exists_ pdf_file ;;
  if ex then
    file_size <- getsize pdf_file ;;
    let size_mb := format_mb file_size in
    cache_file <- get_cache_file_path pdf_file ;;
    cached <- IO.exists_ cache_file ;;
    let cache_status := if cached then " [OCR cached]" else "" in
    scan_status <-
      try_except
        (text <- has_extractable_text pdf_file 3 ;;
         ret (if negb text then " [Scanned PDF]" else " [Text PDF]"))
        (fun _ => ret " [Unknown type]") ;;
    ret (result_text ++ bullet ++ " " ++ pdf_file ++ " (" ++ size_mb ++ " MB)"
         ++ scan_status ++ cache_status ++ Str.LF)
  else
    ret (result_text ++ bullet ++ " " ++ pdf_file ++ " [File not accessible]" ++ Str.LF).

(** [handle_call_tool], the branch [name == "list_pdfs"]. *)
Definition list_pdfs (directory : option string) : M string :=
  try_except
    (pdf_files <- find_pdf_files directory ;;
     match pdf_files with
     | [] => ret "No PDF files found in the specified directories."
     | _ :: _ =>
         for_each pdf_files list_entry
           ("Found " ++ Str.of_int (Z.of_nat (List.length pdf_files)) ++ " PDF files:"
            ++ Str.LF ++ Str.LF)
     end)
    (fun e => ret ("Error listing PDF files: " ++ exn_str e)).

Lemma keeps_getsize R `{!PreOrder R} path : keeps R (getsize path).
Proof. intros w. unfold getsize. by destruct (fs w !! path) as [[|? ? ?]|]. Qed.

Lemma keeps_find_pdf_files R `{!PreOrder R} directory : keeps R (find_pdf_files directory).
Proof.
  unfold find_pdf_files. apply keeps_bind; [done| |intros; apply keeps_ret; done].
  apply keeps_for_each; [done|]. intros acc dir_path.
  apply keeps_bind; [done|apply keeps_exists; done|]. intros ex.
  destruct (negb ex); [by apply keeps_ret|].
  destruct (negb (is_path_allowed dir_path)); [by apply keeps_ret|].
  apply keeps_bind; [done|by apply keeps_get_world|]. intros w0.
  destruct (os_walk (fs w0) dir_path) as [yielded [e|]]; [|by apply keeps_ret].
  destruct (exn_cls e); first [by apply keeps_ret|by apply keeps_reraise].
Qed.

Lemma keeps_list_entry R `{!PreOrder R} result_text pdf_file :
  keeps R (list_entry result_text pdf_file).
Proof.
  unfold list_entry.
  apply keeps_bind; [done|by apply keeps_exists|]. intros ex.
  destruct ex; [|by apply keeps_ret].
  apply keeps_bind; [done|by apply keeps_getsize|]. intros file_size.
  apply keeps_bind; [done|by apply keeps_get_cache_file_path|]. intros cache_file.
  apply keeps_bind; [done|by apply keeps_exists|]. intros cached.
  apply keeps_bind; [done| |intros; by apply keeps_ret].
  apply keeps_try; [done| |intros; by apply keeps_ret].
  apply keeps_bind; [done|by apply keeps_has_extractable_text|intros; by apply keeps_ret].
Qed.

Lemma keeps_list_pdfs R `{!PreOrder R} directory : keeps R (list_pdfs directory).
Proof.
  unfold list_pdfs. apply keeps_try; [done| |intros; by apply keeps_ret].
  apply keeps_bind; [done|by apply keeps_find_pdf_files|]. intros files.
  destruct files; [by apply keeps_ret|].
  apply keeps_for_each; [done|]. intros. by apply keeps_list_entry.
Qed.

Lemma find_pdf_files_silent directory : emits reads_only (find_pdf_files directory).
Proof.
  unfold find_pdf_files. apply emits_bind; [|intros; apply emits_ret].
  apply emits_for_each. intros acc dir_path.
  apply emits_bind; [apply emits_exists|]. intros ex.
  destruct (negb ex); [apply emits_ret|].
  destruct (negb (is_path_allowed dir_path)); [apply emits_ret|].
  apply emits_bind; [apply emits_get_world|]. intros w0.
  destruct (os_walk (fs w0) dir_path) as [yielded [e|]]; [|apply emits_ret].
  destruct (exn_cls e); first [apply emits_ret|apply emits_reraise].
Qed.

Lemma list_entry_reads_only result_text pdf_file :
  emits reads_only (list_entry result_text pdf_file).
Proof.
  unfold list_entry.
  apply emits_bind; [apply emits_exists|]. intros ex.
  destruct ex; [|apply emits_ret].
  apply emits_bind.
  { intros w. unfold getsize. destruct (fs w !! pdf_file) as [[|? ? ?]|]; constructor. }
  intros file_size.
  apply emits_bind.
  { unfold get_cache_file_path, get_pdf_hash. repeat first [emits_step | exact I]. }
  intros cache_file.
  apply emits_bind; [apply emits_exists|]. intros cached.
  apply emits_bind; [|intros; apply emits_ret].
  apply emits_try; [|intros; apply emits_ret].
  apply emits_bind; [apply has_extractable_text_reads_only|intros; apply emits_ret].
Qed.

(** The call returns in the world [w] and leaves it as it is. *)
Definition returns_at {A} (w : World) (m : M A) : Prop :=
  exists a t, m w = (Ok a, w, t).

Lemma returns_ret {A} (a : A) w : returns_at w (ret a).
Proof. by exists a, []. Qed.

Lemma returns_bind {A B} (m : M A) (k : A -> M B) w :
  returns_at w m -> (forall a, returns_at w (k a)) -> returns_at w (bind m k).
Proof.
  intros (a & t & Hm) Hk. destruct (Hk a) as (b & t' & Hb).
  exists b, (t ++ t')%list. erewrite bind_ok by exact Hm. by rewrite Hb.
Qed.

Lemma returns_try {A} (m : M A) (h : exn -> M A) w :
  returns_at w m -> returns_at w (try_except m h).
Proof. intros (a & t & Hm). exists a, t. by apply try_ok. Qed.

(** An entry of a file that exists and can be opened: the loop goes
    on. *)
Lemma list_entry_readable result_text pdf_file w data :
  res (IO.read_bytes pdf_file w) = Ok data ->
  returns_at w (list_entry result_text pdf_file).
Proof.
  intros Hr.
  assert (Hf : exists wr, fs w !! pdf_file = Some (File true wr data)).
  { revert Hr. unfold IO.read_bytes.
    destruct (fs w !! pdf_file) as [[|[] wr d]|]; cbn; try done. intros [= ->]. eauto. }
  destruct Hf as [wr Hf]. unfold list_entry.
  apply returns_bind; [by eexists _, _|]. intros ex.
  destruct ex; [|apply returns_ret].
  apply returns_bind; [unfold returns_at, getsize; rewrite Hf; by eexists _, _|].
  intros file_size.
  apply returns_bind.
  { eexists _, _. by eapply get_cache_file_path_readable. }
  intros cache_file.
  apply returns_bind; [by eexists _, _|]. intros cached.
  apply returns_bind; [|intros; apply returns_ret].
  apply returns_try. apply returns_bind; [|intros; apply returns_ret].
  destruct (has_extractable_text_total pdf_file 3 w) as (b & Hb & Hw).
  exists b, (events (has_extractable_text pdf_file 3 w)).
  rewrite (outcome_eta (has_extractable_text pdf_file 3 w)) at 1. by rewrite Hb, Hw.
Qed.

(** An entry of a file that exists and cannot be opened raises the error
    of [open]: the hash for the cache file is outside the inner [try]. *)
Lemma list_entry_unreadable result_text pdf_file w e :
  is_Some (fs w !! pdf_file) ->
  res (IO.read_bytes pdf_file w) = Raise e ->
  list_entry result_text pdf_file w = (Raise e, w, []).
Proof.
  intros Hex Hr.
  assert (Hsize : exists n, getsize pdf_file w = (Ok n, w, [])).
  { unfold getsize. destruct Hex as [[|? ? ?] ->]; eauto. }
  destruct Hsize as [n Hsize].
  assert (Hhash : forall A (k : string -> M A),
             bind (get_cache_file_path pdf_file) k w = (Raise e, w, [])).
  { intros A k. apply bind_raise. unfold get_cache_file_path.
    apply bind_raise. unfold get_pdf_hash. apply bind_raise.
    revert Hr. unfold IO.read_bytes.
    destruct (fs w !! pdf_file) as [[|[] ? ?]|]; cbn; try done; by intros [= ->]. }
  unfold list_entry.
  erewrite bind_ok by (unfold IO.exists_; reflexivity).
  rewrite bool_decide_eq_true_2 by done.
  erewrite bind_ok by exact Hsize. by rewrite Hhash.
Qed.

(** X16: list_pdfs always answers with a text, changes nothing (neither
    a file nor [pdf_cache]) and only reads files and calls PyPDF2: it never
    runs OCR.  When no PDF file is found, also because the directory does not
    exist or is not allowed, the answer says so. *)
Theorem list_pdfs_only_looks directory w :
  let o := list_pdfs directory w in
  (exists text, res o = Ok text) /\
  world_after o = w /\
  Forall reads_only (events o) /\
  (res (find_pdf_files directory w) = Ok [] ->
   res o = Ok "No PDF files found in the specified directories.").
Proof.
  cbn zeta. split; [|split; [|split]].
  - unfold list_pdfs, try_except.
    match goal with
    | |- context [match ?m w with _ => _ end] => destruct (m w) as [[[text|e] w1] t1]
    end; cbn; eauto.
  - apply (keeps_list_pdfs unchanged).
  - revert w. change (emits reads_only (list_pdfs directory)).
    unfold list_pdfs. apply emits_try; [|intros; apply emits_ret].
    apply emits_bind; [apply find_pdf_files_silent|]. intros files.
    destruct files; [apply emits_ret|].
    apply emits_for_each. intros. apply list_entry_reads_only.
  - intros Hnone. unfold list_pdfs, try_except. unfold bind at 1.
    pose proof (keeps_find_pdf_files unchanged directory w) as Hw.
    destruct (find_pdf_files directory w) as [[r w1] t1].
    unfold unchanged in Hw. cbn in Hnone, Hw. by subst.
Qed.

(** X17: one listed file that exists and cannot be opened hides the whole
    listing: the answer is the error of [open] on such a file, behind "Error
    listing PDF files", and no entry of another file is given. *)
Theorem unreadable_file_hides_listing directory w files pdf_file e0 :
  res (find_pdf_files directory w) = Ok files ->
  In pdf_file files -> is_Some (fs w !! pdf_file) ->
  res (IO.read_bytes pdf_file w) = Raise e0 ->
  exists unreadable e,
    In unreadable files /\ res (IO.read_bytes unreadable w) = Raise e /\
    res (list_pdfs directory w) = Ok ("Error listing PDF files: " ++ exn_str e).
Proof.
  intros Hfind Hin Hex Hr.
  assert (Hloop : forall l acc,
             In pdf_file l ->
             exists unreadable e t,
               In unreadable l /\ res (IO.read_bytes unreadable w) = Raise e /\
               for_each l list_entry acc w = (Raise e, w, t)).
  { induction l as [|x l IH]; intros acc Hl; [done|]. cbn [for_each].
    destruct (res (IO.read_bytes x w)) as [data|e] eqn:Ex.
    - destruct Hl as [->|Hl]; [by rewrite Hr in Ex|].
      destruct (list_entry_readable acc x w data Ex) as (text & t & Hentry).
      destruct (IH text Hl) as (u & e & t' & Hu & He & Hrest).
      exists u, e, (t ++ t')%list. split; [by right|]. split; [done|].
      erewrite bind_ok by exact Hentry. by rewrite Hrest.
    - destruct (decide (is_Some (fs w !! x))) as [Hx|Hx].
      + exists x, e, []. split; [by left|]. split; [done|].
        erewrite bind_raise; [done|]. by apply list_entry_unreadable.
      + destruct Hl as [->|Hl]; [done|].
        assert (Hentry : exists text, list_entry acc x w = (Ok text, w, [])).
        { unfold list_entry, IO.exists_. unfold bind.
          rewrite bool_decide_eq_false_2 by done. cbn. eauto. }
        destruct Hentry as [text Hentry].
        destruct (IH text Hl) as (u & e' & t' & Hu & He & Hrest).
        exists u, e', t'. split; [by right|]. split; [done|].
        erewrite bind_ok by exact Hentry. by rewrite Hrest. }
  pose proof (keeps_find_pdf_files unchanged directory w) as Hw.
  destruct (find_pdf_files directory w) as [[r w1] t1] eqn:Ef.
  unfold unchanged in Hw. cbn in Hfind, Hw. subst r w1.
  destruct files as [|f files]; [done|].
  destruct (Hloop (f :: files)
              ("Found " ++ Str.of_int (Z.of_nat (List.length (f :: files))) ++ " PDF files:"
               ++ Str.LF ++ Str.LF) Hin) as (u & e & t & Hu & He & Hfor).
  exists u, e. split; [done|]. split; [done|].
  unfold list_pdfs. erewrite try_raise.
  2:{ erewrite bind_ok by exact Ef. cbn beta iota. rewrite Hfor. reflexivity. }
  reflexivity.
Qed.

End ListPdfs.

(** A directory outside the allowed one: nothing is found, and the answer
    says so. *)
Lemma list_pdfs_only_looks_witness :
  let P := Demo.platform in
  let L := Demo.libraries in
  let w := Demo.world [(scan_pdf, scan_data)] in
  res (find_pdf_files (Some "C:\Temp") w) = Ok [] /\
  list_pdfs "*" 0 (Some "C:\Temp") w
  = (Ok "No PDF files found in the specified directories.", w, []) /\
  res (list_pdfs "*" 0 None w)
  = Ok ("Found 1 PDF files:" ++ Str.LF ++ Str.LF
        ++ "* C:\Users\Admin\Desktop\HOA\pdfs\scan.pdf (0.0 MB) [Scanned PDF]" ++ Str.LF).
Proof.
  cbn zeta.
  assert (Hnone : res (@find_pdf_files Demo.platform (Some "C:\Temp")
                         (Demo.world [(scan_pdf, scan_data)])) = Ok [])
    by (vm_compute; reflexivity).
  split; [exact Hnone|]. split; [|vm_compute; reflexivity].
  destruct (@list_pdfs_only_looks Demo.platform Demo.libraries "*" 0 (Some "C:\Temp")
              (Demo.world [(scan_pdf, scan_data)])) as (_ & Hw & Hev & Hres).
  rewrite (outcome_eta (list_pdfs "*" 0 (Some "C:\Temp") _)), Hw, (Hres Hnone).
  reflexivity.
Defined.

(** A PDF without read permission next to the scanned PDF. *)
Definition locked_pdf : string := "C:\Users\Admin\Desktop\HOA\pdfs\locked.pdf".

Lemma unreadable_file_hides_listing_witness :
  let P := Demo.platform in
  let L := Demo.libraries in
  let w0 := Demo.world [(scan_pdf, scan_data)] in
  let w := mkWorld (<[locked_pdf := File false true minutes_data]> (fs w0)) ∅ in
  res (find_pdf_files None w) = Ok [locked_pdf; scan_pdf] /\
  is_Some (fs w !! locked_pdf) /\
  res (IO.read_bytes locked_pdf w)
  = Raise (Exn PermissionError (IO.oserror "13" "Permission denied" locked_pdf)) /\
  res (list_pdfs "*" 0 None w)
  = Ok ("Error listing PDF files: " ++ IO.oserror "13" "Permission denied" locked_pdf) /\
  exists unreadable e,
    In unreadable [locked_pdf; scan_pdf] /\ res (IO.read_bytes unreadable w) = Raise e /\
    res (list_pdfs "*" 0 None w) = Ok ("Error listing PDF files: " ++ exn_str e).
Proof.
  cbn zeta.
  set (w := mkWorld (<[locked_pdf := File false true minutes_data]>
                       (fs (Demo.world [(scan_pdf, scan_data)]))) ∅).
  assert (Hfind : res (@find_pdf_files Demo.platform None w) = Ok [locked_pdf; scan_pdf])
    by (vm_compute; reflexivity).
  assert (Hex : is_Some (fs w !! locked_pdf)) by (eexists; vm_compute; reflexivity).
  assert (Hr : res (IO.read_bytes locked_pdf w)
               = Raise (Exn PermissionError
                          (IO.oserror "13" "Permission denied" locked_pdf)))
    by (vm_compute; reflexivity).
  split; [exact Hfind|]. split; [exact Hex|]. split; [exact Hr|].
  split; [vm_compute; reflexivity|].
  exact (@unreadable_file_hides_listing Demo.platform Demo.libraries "*" 0 None w
           [locked_pdf; scan_pdf] locked_pdf _ Hfind (or_introl eq_refl) Hex Hr).
Defined.
